(** * KritaToXDTS: the XDTS export engine

    A shallow embedding of [animation_layers_exporter/xdts_core/exporter.py]
    (class [XDTSExportEngine]) and of the constants of
    [animation_layers_exporter/config.py], with the properties of the export
    run stated and proved over it.

    Python integers are [Z], Python [str] values are [string], a [dict] is a
    [gmap], a [set] a [gset].  The host application (the Krita document, the
    layer nodes, the file system, the two callbacks of the engine) is an
    abstract world: every call into it goes through one handler that may
    change the world, return a value or raise. *)

From Stdlib Require Import ZArith Ascii Decimal DecimalString DecimalZ DecimalPos.
From stdpp Require Import gmap strings list sorting.

Open Scope Z_scope.

(** ** Python built-ins used by the engine *)

Module Py.

(** [str(n)] for an [int]. *)
Definition str (n : Z) : string := NilZero.string_of_int (Z.to_int n).

(** [s.isdigit()] on an ASCII string: non-empty and made of decimal digits. *)
Definition isdigit (s : string) : bool :=
  match NilZero.uint_of_string s with Some _ => true | None => false end.

(** [int(s)] for a string of decimal digits (the engine only calls it
    behind [isdigit]); [0] stands for the [ValueError] cases. *)
Definition int (s : string) : Z :=
  match NilZero.uint_of_string s with Some d => Z.of_uint d | None => 0 end.

(** Truth value of a [str]: the empty string is false. *)
Definition truthy (s : string) : bool :=
  match s with EmptyString => false | String _ _ => true end.

(** [sep.join(parts)]. *)
Definition join (sep : string) (parts : list string) : string :=
  String.concat sep parts.

(** [len(l)] as a Python integer. *)
Definition len {A} (l : list A) : Z := Z.of_nat (length l).

End Py.

(** ** config.py *)

Definition XDTS_VERSION : Z := 5.
Definition DEFAULT_PNG_COMPRESSION : Z := 6.
Definition SYMBOL_NULL_CELL : string := "SYMBOL_NULL_CELL".

(** ** utils.py: the sequence-number renderer *)

Fixpoint zeros (n : nat) : string :=
  match n with O => EmptyString | S n' => String "0"%char (zeros n') end.

(** Modelled from the spec: [int_to_str] of [xdts_core/utils.py], which is not
    part of the sources at hand.  The specification renders the sequence
    number "as a fixed-width zero-padded decimal string (width chosen so the
    largest expected cell count fits, e.g. 4 digits)"; the comments of
    [ExportOptions] show the same shape ([0001.ext]). *)
Definition int_to_str (n : Z) : string :=
  zeros (4 - String.length (Py.str n))%nat +:+ Py.str n.

(** ** ExportOptions *)

Definition FORMAT_SEQ_ONLY : Z := 0.
Definition FORMAT_LAYER_SEQ : Z := 1.

Record ExportOptions := {
  include_invisible : bool;
  include_reference : bool;
  include_static : bool;
  flatten_groups : bool;
  png_compression : Z;
  use_full_clip_range : bool;
  file_format : Z;
  file_prefix : string;
  file_suffix : string;
  file_separator : string;
  export_name : string;
  image_format : string
}.

(** [ExportOptions.__init__] *)
Definition ExportOptions_init : ExportOptions := {|
  include_invisible := false;
  include_reference := false;
  include_static := false;
  flatten_groups := false;
  png_compression := DEFAULT_PNG_COMPRESSION;
  use_full_clip_range := true;
  file_format := FORMAT_LAYER_SEQ;
  file_prefix := "";
  file_suffix := "";
  file_separator := "_";
  export_name := "";
  image_format := "png"
|}.

(** ** ExportResult *)

Record ExportResult := {
  success : bool;
  output_path : string;
  track_count : Z;
  frame_count : Z;
  unique_frames_exported : Z;
  error_message : string
}.

(** [ExportResult.__init__] *)
Definition ExportResult_init : ExportResult := {|
  success := false;
  output_path := "";
  track_count := 0;
  frame_count := 0;
  unique_frames_exported := 0;
  error_message := ""
|}.

(** ** XDTSExportEngine._build_filename *)

Definition _build_filename (options : ExportOptions)
    (layer_name : string) (cell_number : Z) : string :=
  let sep := file_separator options in
  let prefix := file_prefix options in
  let suffix := file_suffix options in
  let seq := int_to_str cell_number in
  let parts : list string := [] in
  let parts := if Py.truthy prefix then parts ++ [prefix] else parts in
  let parts :=
    if file_format options =? FORMAT_LAYER_SEQ
    then parts ++ [layer_name] else parts in
  let parts := if Py.truthy suffix then parts ++ [suffix] else parts in
  let parts := parts ++ [seq] in
  Py.join sep parts +:+ "." +:+ image_format options.

(** ** xdts_file.py: the in-memory exposure sheet *)

Record Track := {
  track_name : string;
  track_index : Z;
  track_entries : list (Z * string)
}.

Record XdtsDoc := {
  doc_version : Z;
  doc_duration : Z;
  doc_tracks : list Track
}.

(** Modelled from the spec: [create_xdts_document] of [xdts_core/xdts_file.py],
    which is not part of the sources at hand ("[new_document(duration)]
    initializes an empty, mutable aggregate" holding the format version, the
    duration and the ordered tracks). *)
Definition create_xdts_document (duration : Z) : XdtsDoc :=
  {| doc_version := XDTS_VERSION; doc_duration := duration; doc_tracks := [] |}.

(** Modelled from the spec: [add_track] of [xdts_core/xdts_file.py] (absent):
    a new track with no entries is appended to the document.  The Python
    function returns the track object, which stays shared with the document;
    here the handle of a track is its position in [doc_tracks], so that every
    later update of the track is an update of the document. *)
Definition add_track (doc : XdtsDoc) (name : string) (track_no : Z)
    : XdtsDoc * nat :=
  ({| doc_version := doc_version doc;
      doc_duration := doc_duration doc;
      doc_tracks := doc_tracks doc ++
        [{| track_name := name; track_index := track_no;
            track_entries := [] |}] |},
   length (doc_tracks doc)).

Definition append_entry (frame : Z) (cell : string) (t : Track) : Track :=
  {| track_name := track_name t; track_index := track_index t;
     track_entries := track_entries t ++ [(frame, cell)] |}.

(** Modelled from the spec: [add_frame_to_track] of [xdts_core/xdts_file.py]
    (absent): "append a track entry (offset, cell)" to the track. *)
Definition add_frame_to_track (track : nat) (frame : Z) (cell : string)
    (doc : XdtsDoc) : XdtsDoc :=
  {| doc_version := doc_version doc;
     doc_duration := doc_duration doc;
     doc_tracks := alter (append_entry frame cell) track (doc_tracks doc) |}.

(** Modelled from the spec: [add_track_terminator] of
    [xdts_core/xdts_file.py] (absent): "append a terminator entry
    (offset = duration, cell = NullCell)". *)
Definition add_track_terminator (track : nat) (duration : Z)
    (doc : XdtsDoc) : XdtsDoc :=
  add_frame_to_track track duration SYMBOL_NULL_CELL doc.

(** The entries of the track behind a handle. *)
Definition entries_of (doc : XdtsDoc) (track : nat) : list (Z * string) :=
  match doc_tracks doc !! track with
  | Some t => track_entries t
  | None => []
  end.

(** ** Exceptions, results of host calls *)

(** A raised Python exception: whether its class derives from [Exception]
    (as opposed to [BaseException] alone: [KeyboardInterrupt], [SystemExit],
    [GeneratorExit]), and its text [str(e)]. *)
Record Exn := { exn_is_Exception : bool; exn_text : string }.

Inductive Res (A : Type) : Type :=
| Val (a : A)
| Exc (e : Exn).
Arguments Val {A} a.
Arguments Exc {A} e.

(** How a piece of [_run_export] ends: it runs to its end, it executes the
    [return] statement of [_run_export], or an exception leaves it. *)
Inductive Outcome (A : Type) : Type :=
| Normal (a : A)
| Returned
| Raised (e : Exn).
Arguments Normal {A} a.
Arguments Returned {A}.
Arguments Raised {A} e.

(** [doc_info], the dictionary returned by [get_document_info]. *)
Record DocInfo := {
  di_width : Z;
  di_height : Z;
  di_start_frame : Z;
  di_end_frame : Z
}.

(** The fields of an [XDTSExportEngine] set by [__init__] and by its user
    ([document] is the world; the two callbacks are in the world as well,
    the engine only knows whether they are set). *)
Record Engine := {
  export_path : string;
  options : ExportOptions;
  on_progress : bool;
  on_cancelled : bool
}.

(** [enumerate(l)] *)
Fixpoint enumerate_from {A} (n : Z) (l : list A) : list (Z * A) :=
  match l with
  | [] => []
  | x :: l' => (n, x) :: enumerate_from (n + 1) l'
  end.
Definition enumerate {A} (l : list A) : list (Z * A) := enumerate_from 0 l.

(** ** Calls into the host

    The Krita document and its layer nodes, the file system, the frame
    exporter of [frame_export.py] (seen from the engine through its two entry
    points) and the two callbacks of the engine. *)

Inductive Call (Layer : Type) : Type :=
| GetDocumentInfo
| GetAnimatedLayers (include_invisible include_reference flatten : bool)
| GetStaticLayers (include_invisible include_reference : bool)
| PlayBackStartTime
| PlayBackEndTime
| CountTotalKeyframes (layers : list Layer) (start_frame end_frame : Z)
| NewFrameExporter
| LayerName (layer : Layer)
| Mkdir (path : string)
| GetLayerKeyframes (layer : Layer) (start_frame end_frame : Z)
| OnCancelled
| OnProgress (current total : Z) (message : string)
| SetCurrentTime (frame : Z)
| WaitForDone
| IsStopFrame (layer : Layer)
| ProjectionPixelData (layer : Layer) (x y w h : Z)
| ExportFrame (layer : Layer) (frame : Z) (output_path : string)
| WriteXdtsFile (doc : XdtsDoc) (path : string).
Arguments GetDocumentInfo {Layer}.
Arguments GetAnimatedLayers {Layer} _ _ _.
Arguments GetStaticLayers {Layer} _ _.
Arguments PlayBackStartTime {Layer}.
Arguments PlayBackEndTime {Layer}.
Arguments CountTotalKeyframes {Layer} _ _ _.
Arguments NewFrameExporter {Layer}.
Arguments LayerName {Layer} _.
Arguments Mkdir {Layer} _.
Arguments GetLayerKeyframes {Layer} _ _ _.
Arguments OnCancelled {Layer}.
Arguments OnProgress {Layer} _ _ _.
Arguments SetCurrentTime {Layer} _.
Arguments WaitForDone {Layer}.
Arguments IsStopFrame {Layer} _.
Arguments ProjectionPixelData {Layer} _ _ _ _ _.
Arguments ExportFrame {Layer} _ _ _.
Arguments WriteXdtsFile {Layer} _ _.

(** The type of what a call returns. *)
Definition ret_type {Layer} (c : Call Layer) : Type :=
  match c with
  | GetDocumentInfo => DocInfo
  | GetAnimatedLayers _ _ _ | GetStaticLayers _ _ => list Layer
  | PlayBackStartTime | PlayBackEndTime => Z
  | CountTotalKeyframes _ _ _ => Z
  | LayerName _ => string
  | GetLayerKeyframes _ _ _ => list Z
  | OnCancelled | IsStopFrame _ | ExportFrame _ _ _ => bool
  | ProjectionPixelData _ _ _ _ _ => list Byte.byte
  | NewFrameExporter | Mkdir _ | OnProgress _ _ _ | SetCurrentTime _
  | WaitForDone | WriteXdtsFile _ _ => unit
  end.

(** One interaction with the host: the call and what came back. *)
Record Event (Layer : Type) := Ev {
  ev_call : Call Layer;
  ev_res : Res (ret_type ev_call)
}.
Arguments Ev {Layer} _ _.
Arguments ev_call {Layer} _.
Arguments ev_res {Layer} _.

(** The environment of an engine: the host, which answers every call and
    may change while doing so, and the pure helpers of [xdts_core/utils.py]
    and [os.path] (not part of the sources at hand, left abstract). *)
Class Host (Layer World Fp : Type) := {
  host : ∀ c : Call Layer, World → Res (ret_type c) * World;
  sanitize_filename : string → string;
  make_unique_name : string → gset string → string * gset string;
  compute_content_hash : list Byte.byte → Fp;
  path_join : string → string → string
}.

(** ** The monad of the engine: state, early return, exceptions, and the
    list of the interactions made *)

Record St (World : Type) := {
  world : World;
  _result : ExportResult
}.
Arguments world {World} _.
Arguments _result {World} _.

Definition M (Layer World A : Type) : Type :=
  St World → Outcome A * St World * list (Event Layer).

Section Monad.
Context {Layer World : Type}.

Definition ret {A} (a : A) : M Layer World A := λ s, (Normal a, s, []).

Definition bind {A B} (m : M Layer World A) (k : A → M Layer World B)
    : M Layer World B := λ s,
  match m s with
  | (Normal a, s1, t1) =>
      match k a s1 with (o, s2, t2) => (o, s2, t1 ++ t2) end
  | (Returned, s1, t1) => (Returned, s1, t1)
  | (Raised e, s1, t1) => (Raised e, s1, t1)
  end.

(** The statement [return] of [_run_export]. *)
Definition return_ {A} : M Layer World A := λ s, (Returned, s, []).

Definition modify_result (f : ExportResult → ExportResult)
    : M Layer World unit := λ s,
  (Normal tt, {| world := world s; _result := f (_result s) |}, []).

(** [for x in xs: body], the loop variables threaded through [body]. *)
Fixpoint for_each {A V} (xs : list A) (body : A → V → M Layer World V)
    (v : V) : M Layer World V :=
  match xs with
  | [] => ret v
  | x :: xs' => bind (body x v) (for_each xs' body)
  end.

End Monad.

Notation "'let*' x ':=' m 'in' k" := (bind m (λ x, k))
  (at level 10, x pattern, m at level 100, k at level 200,
   format "'[v' 'let*'  x  ':='  m  'in' '/' k ']'").

Definition call {Layer World Fp} `{Host Layer World Fp} (c : Call Layer)
    : M Layer World (ret_type c) := λ s,
  match host c (world s) with
  | (Val a, w) =>
      (Normal a, {| world := w; _result := _result s |}, [Ev c (Val a)])
  | (Exc e, w) =>
      (Raised e, {| world := w; _result := _result s |}, [Ev c (Exc e)])
  end.

(** Assignments to the fields of [self._result]. *)
Definition set_success (b : bool) (r : ExportResult) : ExportResult :=
  {| success := b; output_path := output_path r;
     track_count := track_count r; frame_count := frame_count r;
     unique_frames_exported := unique_frames_exported r;
     error_message := error_message r |}.
Definition set_output_path (p : string) (r : ExportResult) : ExportResult :=
  {| success := success r; output_path := p;
     track_count := track_count r; frame_count := frame_count r;
     unique_frames_exported := unique_frames_exported r;
     error_message := error_message r |}.
Definition set_track_count (n : Z) (r : ExportResult) : ExportResult :=
  {| success := success r; output_path := output_path r;
     track_count := n; frame_count := frame_count r;
     unique_frames_exported := unique_frames_exported r;
     error_message := error_message r |}.
Definition set_frame_count (n : Z) (r : ExportResult) : ExportResult :=
  {| success := success r; output_path := output_path r;
     track_count := track_count r; frame_count := n;
     unique_frames_exported := unique_frames_exported r;
     error_message := error_message r |}.
Definition set_unique_frames_exported (n : Z) (r : ExportResult)
    : ExportResult :=
  {| success := success r; output_path := output_path r;
     track_count := track_count r; frame_count := frame_count r;
     unique_frames_exported := n;
     error_message := error_message r |}.
Definition set_error_message (m : string) (r : ExportResult) : ExportResult :=
  {| success := success r; output_path := output_path r;
     track_count := track_count r; frame_count := frame_count r;
     unique_frames_exported := unique_frames_exported r;
     error_message := m |}.

(** ** XDTSExportEngine *)

(** The local variables of [_run_export] that the loops update. *)
Record RunVars := {
  xdts_doc : XdtsDoc;
  processed : Z;
  total_unique : Z;
  used_layer_names : gset string
}.

(** What [_run_export] has computed when its loops start: the frame range,
    the layers, the amount of work. *)
Record Plan (Layer : Type) := {
  doc_info : DocInfo;
  animated_layers : list Layer;
  static_layers : list Layer;
  start_frame : Z;
  end_frame : Z;
  duration : Z;
  total_work : Z
}.
Arguments doc_info {Layer} _.
Arguments animated_layers {Layer} _.
Arguments static_layers {Layer} _.
Arguments start_frame {Layer} _.
Arguments end_frame {Layer} _.
Arguments duration {Layer} _.
Arguments total_work {Layer} _.

Section Engine.
Context {Layer World Fp : Type} `{Countable Fp} `{!Host Layer World Fp}.

(** The local variables of one turn of the loop over the animated layers. *)
Record TrackVars := {
  hash_to_label : gmap Fp string;
  cell_count : Z;
  last_was_stop_frame : bool
}.

Local Abbreviation Run := (M Layer World).

(** [_report_progress]: "Report progress if callback is set." *)
Definition _report_progress (self : Engine) (current total : Z)
    (message : string) : Run unit :=
  if on_progress self then call (OnProgress current total message)
  else ret tt.

(** [_is_cancelled]: [self.on_cancelled and self.on_cancelled()]; without a
    callback the value is [None], which is false where it is tested. *)
Definition _is_cancelled (self : Engine) : Run bool :=
  if on_cancelled self then call OnCancelled else ret false.

(** Lines 369-377 of [_process_frame]: the label of a content hash.  A hash
    already in the dictionary keeps its label; a new one gets the next cell
    number and is recorded.  The result is the cell number when the hash is
    new, the label and the dictionary afterwards. *)
Definition lookup_or_assign (content_hash : Fp)
    (hash_to_label : gmap Fp string) : option Z * string * gmap Fp string :=
  match hash_to_label !! content_hash with
  | Some label => (None, label, hash_to_label)
  | None =>
      let cell_number := Z.of_nat (size hash_to_label) + 1 in
      let cell_label := Py.str cell_number in
      (Some cell_number, cell_label,
       <[content_hash := cell_label]> hash_to_label)
  end.

(** [_process_frame]: the cell label of a frame, [None] if its image could
    not be exported; the dictionary is returned as it is left. *)
Definition _process_frame (self : Engine) (layer : Layer) (frame : Z)
    (layer_name layer_folder : string) (doc_info : DocInfo)
    (hash_to_label : gmap Fp string)
    : Run (option string * gmap Fp string) :=
  let* _ := call (SetCurrentTime frame) in
  let* _ := call WaitForDone in
  let* pixel_data :=
    call (ProjectionPixelData layer 0 0
            (di_width doc_info) (di_height doc_info)) in
  let content_hash := compute_content_hash pixel_data in
  match lookup_or_assign content_hash hash_to_label with
  | (None, label, hash_to_label) => ret (Some label, hash_to_label)
  | (Some cell_number, cell_label, hash_to_label) =>
      let filename := _build_filename (options self) layer_name cell_number in
      let filepath := path_join layer_folder filename in
      let* success := call (ExportFrame layer frame filepath) in
      ret (if success then Some cell_label else None, hash_to_label)
  end.

(** One turn of [for frame in keyframes] (lines 200-248). *)
Definition keyframe_body (self : Engine) (plan : Plan Layer) (layer : Layer)
    (layer_name layer_folder : string) (track : nat) (frame : Z)
    (v : RunVars * TrackVars) : Run (RunVars * TrackVars) :=
  let '(rv, tv) := v in
  let* cancelled := _is_cancelled self in
  if cancelled then
    let* _ := modify_result (set_error_message "Export cancelled by user") in
    return_
  else
    let processed := processed rv + 1 in
    let* _ := _report_progress self processed (total_work plan)
      ("Exporting " +:+ layer_name +:+ " - frame " +:+ Py.str frame +:+ "...") in
    let relative_frame := frame - start_frame plan in
    let* _ := call (SetCurrentTime frame) in
    let* _ := call WaitForDone in
    let* stop := call (IsStopFrame layer) in
    if stop then
      ret ({| xdts_doc :=
                add_frame_to_track track relative_frame SYMBOL_NULL_CELL
                  (xdts_doc rv);
              processed := processed;
              total_unique := total_unique rv;
              used_layer_names := used_layer_names rv |},
           {| hash_to_label := hash_to_label tv;
              cell_count := cell_count tv;
              last_was_stop_frame := true |})
    else
      let* (cell_label, hash_to_label) :=
        _process_frame self layer frame layer_name layer_folder
          (doc_info plan) (hash_to_label tv) in
      match cell_label with
      | None =>
          let* _ := modify_result (set_error_message
            ("Failed to export frame " +:+ Py.str frame +:+ " of "
               +:+ layer_name)) in
          return_
      | Some cell_label =>
          let cell_num :=
            if Py.isdigit cell_label then Py.int cell_label else 0 in
          let new_cell := cell_num >? cell_count tv in
          ret ({| xdts_doc :=
                    add_frame_to_track track relative_frame cell_label
                      (xdts_doc rv);
                  processed := processed;
                  total_unique :=
                    if new_cell then total_unique rv + 1
                    else total_unique rv;
                  used_layer_names := used_layer_names rv |},
               {| hash_to_label := hash_to_label;
                  cell_count :=
                    if new_cell then cell_num else cell_count tv;
                  last_was_stop_frame := false |})
      end.

(** One turn of [for track_no, layer in enumerate(animated_layers)]
    (lines 181-254). *)
Definition animated_layer_body (self : Engine) (plan : Plan Layer)
    (item : Z * Layer) (rv : RunVars) : Run RunVars :=
  let '(track_no, layer) := item in
  let* name := call (LayerName layer) in
  let base_name := sanitize_filename name in
  let '(layer_name, used) := make_unique_name base_name (used_layer_names rv) in
  let layer_folder := path_join (export_path self) layer_name in
  let* _ := call (Mkdir layer_folder) in
  let '(doc, track) := add_track (xdts_doc rv) layer_name track_no in
  let rv := {| xdts_doc := doc; processed := processed rv;
               total_unique := total_unique rv;
               used_layer_names := used |} in
  let tv := {| hash_to_label := ∅; cell_count := 0;
               last_was_stop_frame := false |} in
  let* keyframes :=
    call (GetLayerKeyframes layer (start_frame plan) (end_frame plan)) in
  let* (rv, tv) :=
    for_each keyframes
      (keyframe_body self plan layer layer_name layer_folder track)
      (rv, tv) in
  let rv :=
    if last_was_stop_frame tv then rv
    else {| xdts_doc := add_track_terminator track (duration plan) (xdts_doc rv);
            processed := processed rv;
            total_unique := total_unique rv;
            used_layer_names := used_layer_names rv |} in
  let* _ := modify_result
    (λ r, set_frame_count (frame_count r + Py.len keyframes) r) in
  ret rv.

(** One turn of [for layer in static_layers] (lines 258-290); the second
    loop variable is [static_exported]. *)
Definition static_layer_body (self : Engine) (plan : Plan Layer)
    (layer : Layer) (v : RunVars * Z) : Run (RunVars * Z) :=
  let '(rv, static_exported) := v in
  let* cancelled := _is_cancelled self in
  if cancelled then
    let* _ := modify_result (set_error_message "Export cancelled by user") in
    return_
  else
    let* name := call (LayerName layer) in
    let base_name := sanitize_filename name in
    let '(layer_name, used) :=
      make_unique_name base_name (used_layer_names rv) in
    let processed := processed rv + 1 in
    let rv := {| xdts_doc := xdts_doc rv; processed := processed;
                 total_unique := total_unique rv;
                 used_layer_names := used |} in
    let* _ := _report_progress self processed (total_work plan)
      ("Exporting static layer " +:+ layer_name +:+ "...") in
    let filename := layer_name +:+ "." +:+ image_format (options self) in
    let filepath := path_join (export_path self) filename in
    let* success := call (ExportFrame layer (start_frame plan) filepath) in
    if success then ret (rv, static_exported + 1)
    else
      let* _ := _report_progress self processed (total_work plan)
        ("Warning: Failed to export " +:+ layer_name) in
      ret (rv, static_exported).

(** Lines 132-179 of [_run_export]: the layers, the frame range, the amount
    of work, the empty exposure sheet, the frame exporter. *)
Definition prepare (self : Engine) : Run (Plan Layer * RunVars) :=
  let opts := options self in
  let* doc_info := call GetDocumentInfo in
  let* animated_layers :=
    call (GetAnimatedLayers (include_invisible opts) (include_reference opts)
            (flatten_groups opts)) in
  let* static_layers :=
    if include_static opts
    then call (GetStaticLayers (include_invisible opts)
                 (include_reference opts))
    else ret [] in
  match animated_layers, static_layers with
  | [], [] =>
      let* _ :=
        modify_result (set_error_message "No exportable layers found") in
      return_
  | _, _ =>
      let* (start_frame, end_frame) :=
        if use_full_clip_range opts
        then ret (di_start_frame doc_info, di_end_frame doc_info)
        else
          let* start_frame := call PlayBackStartTime in
          let* end_frame := call PlayBackEndTime in
          ret (start_frame, end_frame) in
      let duration := end_frame - start_frame + 1 in
      let* total_keyframes :=
        call (CountTotalKeyframes animated_layers start_frame end_frame) in
      let total_work := total_keyframes + Py.len static_layers in
      let xdts_doc := create_xdts_document duration in
      let* _ := call NewFrameExporter in
      ret ({| doc_info := doc_info; animated_layers := animated_layers;
              static_layers := static_layers; start_frame := start_frame;
              end_frame := end_frame; duration := duration;
              total_work := total_work |},
           {| xdts_doc := xdts_doc; processed := 0; total_unique := 0;
              used_layer_names := ∅ |})
  end.

(** Lines 181-254: the loop over the animated layers. *)
Definition animated_phase (self : Engine) (plan : Plan Layer)
    (rv : RunVars) : Run RunVars :=
  for_each (enumerate (animated_layers plan))
    (animated_layer_body self plan) rv.

(** Lines 256-290: the loop over the static layers. *)
Definition static_phase (self : Engine) (plan : Plan Layer)
    (rv : RunVars) : Run (RunVars * Z) :=
  for_each (static_layers plan) (static_layer_body self plan) (rv, 0).

(** Lines 292-301: the document is written and the result filled in. *)
Definition finish (self : Engine) (plan : Plan Layer)
    (v : RunVars * Z) : Run unit :=
  let '(rv, static_exported) := v in
  let xdts_filename :=
    if Py.truthy (export_name (options self))
    then sanitize_filename (export_name (options self))
    else "export" in
  let xdts_path := path_join (export_path self) (xdts_filename +:+ ".xdts") in
  let* _ := call (WriteXdtsFile (xdts_doc rv) xdts_path) in
  let* _ := modify_result (set_success true) in
  let* _ := modify_result (set_output_path xdts_path) in
  let* _ := modify_result
    (set_track_count (Py.len (animated_layers plan))) in
  modify_result
    (set_unique_frames_exported (total_unique rv + static_exported)).

(** [_run_export] *)
Definition _run_export (self : Engine) : Run unit :=
  let* (plan, rv) := prepare self in
  let* rv := animated_phase self plan rv in
  let* v := static_phase self plan rv in
  finish self plan v.

(** [export]: the result object, or the exception that leaves the method.
    [except Exception] catches the exceptions whose class derives from
    [Exception]; any other one propagates to the caller. *)
Definition export (self : Engine) (s : St World)
    : (ExportResult + Exn) * St World * list (Event Layer) :=
  match _run_export self s with
  | (Raised e, s1, t) =>
      if exn_is_Exception e then
        let r := set_error_message (exn_text e)
                   (set_success false (_result s1)) in
        (inl r, {| world := world s1; _result := r |}, t)
      else (inr e, s1, t)
  | (_, s1, t) => (inl (_result s1), s1, t)
  end.

(** [XDTSExportEngine.__init__]: the engine starts with a new result. *)
Definition new_engine (w : World) : St World :=
  {| world := w; _result := ExportResult_init |}.

End Engine.

(** ** What a list of interactions shows *)

Section Observations.
Context {Layer : Type}.

(** The answer of the cancellation callback, when the event is a poll of it
    that returned. *)
Definition poll_of (ev : Event Layer) : option bool :=
  match ev_call ev as c return Res (ret_type c) → option bool with
  | OnCancelled => λ r, match r with Val b => Some b | Exc _ => None end
  | _ => λ _, None
  end (ev_res ev).

Definition is_poll (ev : Event Layer) : bool :=
  match ev_call ev with OnCancelled => true | _ => false end.

Definition positive_poll (ev : Event Layer) : bool :=
  match poll_of ev with Some true => true | _ => false end.

(** The exception an interaction ended with. *)
Definition exn_of (ev : Event Layer) : option Exn :=
  match ev_res ev with Exc e => Some e | Val _ => None end.

(** The answer of the stop detector. *)
Definition stop_of (ev : Event Layer) : option bool :=
  match ev_call ev as c return Res (ret_type c) → option bool with
  | IsStopFrame _ => λ r, match r with Val b => Some b | Exc _ => None end
  | _ => λ _, None
  end (ev_res ev).

(** The raster buffer handed to the engine. *)
Definition pixels_of (ev : Event Layer) : option (list Byte.byte) :=
  match ev_call ev as c return Res (ret_type c) → option (list Byte.byte) with
  | ProjectionPixelData _ _ _ _ _ =>
      λ r, match r with Val d => Some d | Exc _ => None end
  | _ => λ _, None
  end (ev_res ev).

(** The keyframes handed to the engine. *)
Definition keyframes_of (ev : Event Layer) : option (list Z) :=
  match ev_call ev as c return Res (ret_type c) → option (list Z) with
  | GetLayerKeyframes _ _ _ =>
      λ r, match r with Val d => Some d | Exc _ => None end
  | _ => λ _, None
  end (ev_res ev).

(** The layers handed to the engine. *)
Definition layers_of (ev : Event Layer) : option (list Layer) :=
  match ev_call ev as c return Res (ret_type c) → option (list Layer) with
  | GetAnimatedLayers _ _ _ | GetStaticLayers _ _ =>
      λ r, match r with Val d => Some d | Exc _ => None end
  | _ => λ _, None
  end (ev_res ev).

(** The host handed at least one layer to the engine. *)
Definition has_layers (ev : Event Layer) : bool :=
  match layers_of ev with Some (_ :: _) => true | _ => false end.

Definition is_export (ev : Event Layer) : bool :=
  match ev_call ev with ExportFrame _ _ _ => true | _ => false end.

(** An image export that reported a failure. *)
Definition export_failed (ev : Event Layer) : bool :=
  match ev_call ev as c return Res (ret_type c) → bool with
  | ExportFrame _ _ _ =>
      λ r, match r with Val b => negb b | Exc _ => false end
  | _ => λ _, false
  end (ev_res ev).

Definition is_write (ev : Event Layer) : bool :=
  match ev_call ev with WriteXdtsFile _ _ => true | _ => false end.

Definition is_mkdir (ev : Event Layer) : bool :=
  match ev_call ev with Mkdir _ => true | _ => false end.

Definition is_pixels (ev : Event Layer) : bool :=
  match ev_call ev with ProjectionPixelData _ _ _ _ _ => true | _ => false end.

(** An interaction after which the run cannot go on: a cancellation or an
    exception. *)
Definition fatal (ev : Event Layer) : bool :=
  positive_poll ev ||
  match exn_of ev with Some _ => true | None => false end.

Definition stops_seen (evs : list (Event Layer)) : list bool :=
  omap stop_of evs.

Definition pixels_seen (evs : list (Event Layer)) : list (list Byte.byte) :=
  omap pixels_of evs.

Definition count_polls (evs : list (Event Layer)) : nat :=
  length (filter (λ ev, is_poll ev = true) evs).

End Observations.

(** The labels that a cache gives to a sequence of content hashes fed to it
    one after the other ([lookup_or_assign] iterated). *)
Fixpoint assign_labels {Fp} `{Countable Fp} (hashes : list Fp)
    (hash_to_label : gmap Fp string) : list string :=
  match hashes with
  | [] => []
  | h :: hashes' =>
      let '(_, label, hash_to_label') := lookup_or_assign h hash_to_label in
      label :: assign_labels hashes' hash_to_label'
  end.

(** ** A scripted host, to run the engine on examples *)

Record Scenario := {
  sc_info : DocInfo;
  sc_animated : list nat;
  sc_static : list nat;
  sc_name : nat → string;
  sc_keyframes : nat → list Z;
  sc_blank : nat → Z → bool;
  sc_pixels : nat → Z → list Byte.byte;
  sc_export_ok : nat → Z → bool;
  sc_cancel_at : option nat;
  sc_raise : Call nat → option Exn
}.

(** The document has one current time, moved by [setCurrentTime]; the
    scripted world also counts the polls of the cancellation callback. *)
Record DemoWorld := {
  scenario : Scenario;
  current_time : Z;
  polls : nat
}.

Definition demo_answer (w : DemoWorld) (c : Call nat)
    : ret_type c * DemoWorld :=
  let sc := scenario w in
  match c as c0 return ret_type c0 * DemoWorld with
  | GetDocumentInfo => (sc_info sc, w)
  | GetAnimatedLayers _ _ _ => (sc_animated sc, w)
  | GetStaticLayers _ _ => (sc_static sc, w)
  | PlayBackStartTime => (di_start_frame (sc_info sc), w)
  | PlayBackEndTime => (di_end_frame (sc_info sc), w)
  | CountTotalKeyframes layers _ _ =>
      (Py.len (mjoin (sc_keyframes sc <$> layers)), w)
  | NewFrameExporter => (tt, w)
  | LayerName l => (sc_name sc l, w)
  | Mkdir _ => (tt, w)
  | GetLayerKeyframes l _ _ => (sc_keyframes sc l, w)
  | OnCancelled =>
      (bool_decide (sc_cancel_at sc = Some (polls w)),
       {| scenario := sc; current_time := current_time w;
          polls := S (polls w) |})
  | OnProgress _ _ _ => (tt, w)
  | SetCurrentTime f =>
      (tt, {| scenario := sc; current_time := f; polls := polls w |})
  | WaitForDone => (tt, w)
  | IsStopFrame l => (sc_blank sc l (current_time w), w)
  | ProjectionPixelData l _ _ _ _ => (sc_pixels sc l (current_time w), w)
  | ExportFrame l f _ =>
      (sc_export_ok sc l f,
       {| scenario := sc; current_time := f; polls := polls w |})
  | WriteXdtsFile _ _ => (tt, w)
  end.

Definition demo_unique_name (base : string) (used : gset string)
    : string * gset string :=
  let name := if decide (base ∈ used) then base +:+ "_2" else base in
  (name, {[name]} ∪ used).

#[export] Instance demo_host : Host nat DemoWorld string := {|
  host c w :=
    match sc_raise (scenario w) c with
    | Some e => (Exc e, w)
    | None => let '(a, w') := demo_answer w c in (Val a, w')
    end;
  sanitize_filename name := name;
  make_unique_name := demo_unique_name;
  compute_content_hash := String.string_of_list_byte;
  path_join a b := a +:+ "/" +:+ b
|}.

Definition demo_world (sc : Scenario) : DemoWorld :=
  {| scenario := sc; current_time := 0; polls := 0 |}.

Definition demo_engine : Engine :=
  {| export_path := "out"; options := ExportOptions_init;
     on_progress := true; on_cancelled := true |}.

(** The written exposure sheets of a list of interactions. *)
Definition written_docs {Layer} (evs : list (Event Layer)) : list XdtsDoc :=
  omap (λ ev, match ev_call ev with
              | WriteXdtsFile doc _ => Some doc
              | _ => None
              end) evs.

(** The scenario of the specification: layer "Line", keyframes 0, 5 and 10 in
    the range [0, 10], frame 10 drawn as frame 0. *)
Definition sc_line : Scenario := {|
  sc_info := {| di_width := 2; di_height := 1;
                di_start_frame := 0; di_end_frame := 10 |};
  sc_animated := [0%nat];
  sc_static := [];
  sc_name := λ _, "Line";
  sc_keyframes := λ _, [0; 5; 10];
  sc_blank := λ _ _, false;
  sc_pixels := λ _ f, if f =? 5 then [Byte.x01; Byte.x02]
                      else [Byte.x07; Byte.x07];
  sc_export_ok := λ _ _, true;
  sc_cancel_at := None;
  sc_raise := λ _, None
|}.

(** ** How a run may end *)

Section Verdict.
Context {Layer World Fp : Type} `{Countable Fp} `{!Host Layer World Fp}.

(** The cells that a track gets for the answers of the stop detector and the
    content hashes seen while its keyframes are processed: a null cell for a
    stop, the label of the next hash otherwise. *)
Fixpoint track_cells (stops : list bool) (hashes : list Fp)
    (hash_to_label : gmap Fp string) : list string :=
  match stops with
  | [] => []
  | true :: stops' =>
      SYMBOL_NULL_CELL :: track_cells stops' hashes hash_to_label
  | false :: stops' =>
      match hashes with
      | [] => []
      | h :: hashes' =>
          let '(_, label, hash_to_label') :=
            lookup_or_assign h hash_to_label in
          label :: track_cells stops' hashes' hash_to_label'
      end
  end.

(** An interaction that ends the processing of the animated layers: a
    cancellation, an exception, or an image export that failed. *)
Definition aborting (ev : Event Layer) : bool :=
  fatal ev || export_failed ev.

(** No interaction of the list is of the kind [f]. *)
Definition quiet (f : Event Layer → bool) (evs : list (Event Layer)) : Prop :=
  Forall (λ ev, f ev = false) evs.

(** No interaction of the list but the last one may be of the kind [f]. *)
Definition only_last (f : Event Layer → bool) (evs : list (Event Layer))
    : Prop :=
  quiet f (removelast evs).

(** The fields of the result that only the end of a successful run sets. *)
Definition kept (r r' : ExportResult) : Prop :=
  success r' = success r ∧ output_path r' = output_path r ∧
  track_count r' = track_count r ∧
  unique_frames_exported r' = unique_frames_exported r.

Definition cancelled_end (s' : St World) (evs : list (Event Layer)) : Prop :=
  last evs = Some (Ev OnCancelled (Val true)) ∧
  error_message (_result s') = "Export cancelled by user".

Definition failed_end (self : Engine) (s' : St World)
    (evs : list (Event Layer)) : Prop :=
  ∃ layer frame layer_name cell_number,
    last evs =
      Some (Ev (ExportFrame layer frame
                  (path_join (path_join (export_path self) layer_name)
                     (_build_filename (options self) layer_name cell_number)))
              (Val false)) ∧
    error_message (_result s') =
      "Failed to export frame " +:+ Py.str frame +:+ " of " +:+ layer_name.

Definition no_layers_end (f : Event Layer → bool) (s' : St World)
    (evs : list (Event Layer)) : Prop :=
  quiet f evs ∧
  error_message (_result s') = "No exportable layers found".

(** What holds of every piece of [_run_export] before the document is
    written, started in [s]: nothing is written, the result keeps the fields
    of [kept], and the piece ends in one of five ways. *)
Definition verdict (self : Engine) (f : Event Layer → bool) {A}
    (s : St World) (out : Outcome A * St World * list (Event Layer))
    : Prop :=
  let '(o, s', evs) := out in
  kept (_result s) (_result s') ∧
  quiet is_write evs ∧
  match o with
  | Normal _ =>
      quiet f evs ∧
      error_message (_result s') = error_message (_result s)
  | Raised e =>
      only_last f evs ∧
      last evs ≫= exn_of = Some e ∧
      error_message (_result s') = error_message (_result s)
  | Returned =>
      only_last f evs ∧
      (cancelled_end s' evs ∨ failed_end self s' evs ∨
       no_layers_end f s' evs)
  end.

End Verdict.

(** [_run_export] up to the point where the document is written: the plan
    and the loop variables with which lines 292-301 start. *)
Definition before_write {Layer World Fp} `{Countable Fp}
    `{!Host Layer World Fp} (self : Engine)
    : M Layer World (Plan Layer * (RunVars * Z)) :=
  let* (plan, rv) := prepare self in
  let* rv := animated_phase self plan rv in
  let* v := static_phase self plan rv in
  ret (plan, v).

(** The dictionary after a sequence of content hashes has been fed to it. *)
Fixpoint cache_after {Fp} `{Countable Fp} (hashes : list Fp)
    (hash_to_label : gmap Fp string) : gmap Fp string :=
  match hashes with
  | [] => hash_to_label
  | h :: hashes' =>
      let '(_, _, hash_to_label') := lookup_or_assign h hash_to_label in
      cache_after hashes' hash_to_label'
  end.

(** A dictionary as [_process_frame] builds it: its labels are the decimal
    numerals of 1 .. [len(hash_to_label)], each used once. *)
Definition well_numbered {Fp} `{Countable Fp}
    (hash_to_label : gmap Fp string) : Prop :=
  (∀ h label, hash_to_label !! h = Some label →
     ∃ k : nat, label = Py.str (Z.of_nat k) ∧
                (1 ≤ k ≤ size hash_to_label)%nat) ∧
  (∀ h1 h2 label, hash_to_label !! h1 = Some label →
     hash_to_label !! h2 = Some label → h1 = h2).

(** ** Scenarios for the scripted host *)

(** One animated layer without keyframes, 24 frames. *)
Definition sc_empty : Scenario := {|
  sc_info := {| di_width := 2; di_height := 1;
                di_start_frame := 0; di_end_frame := 23 |};
  sc_animated := [0%nat];
  sc_static := [];
  sc_name := λ _, "Line";
  sc_keyframes := λ _, [];
  sc_blank := λ _ _, false;
  sc_pixels := λ _ _, [Byte.x07];
  sc_export_ok := λ _ _, true;
  sc_cancel_at := None;
  sc_raise := λ _, None
|}.

(** The keyframe at frame 3 is blank. *)
Definition sc_stop : Scenario := {|
  sc_info := sc_info sc_line;
  sc_animated := [0%nat];
  sc_static := [];
  sc_name := λ _, "Line";
  sc_keyframes := λ _, [0; 3];
  sc_blank := λ _ f, f =? 3;
  sc_pixels := λ _ _, [Byte.x07];
  sc_export_ok := λ _ _, true;
  sc_cancel_at := None;
  sc_raise := λ _, None
|}.

(** The image of frame 5 cannot be exported. *)
Definition sc_fail : Scenario := {|
  sc_info := sc_info sc_line;
  sc_animated := [0%nat];
  sc_static := [];
  sc_name := λ _, "Line";
  sc_keyframes := λ _, [0; 5; 10];
  sc_blank := λ _ _, false;
  sc_pixels := sc_pixels sc_line;
  sc_export_ok := λ _ f, negb (f =? 5);
  sc_cancel_at := None;
  sc_raise := λ _, None
|}.

(** One animated layer, and one static layer whose image cannot be
    exported. *)
Definition sc_static_fail : Scenario := {|
  sc_info := sc_info sc_line;
  sc_animated := [0%nat];
  sc_static := [7%nat];
  sc_name := λ l, if (l =? 7)%nat then "Background" else "Line";
  sc_keyframes := λ _, [0];
  sc_blank := λ _ _, false;
  sc_pixels := λ _ _, [Byte.x07];
  sc_export_ok := λ l _, negb (l =? 7)%nat;
  sc_cancel_at := None;
  sc_raise := λ _, None
|}.

(** The user cancels at the first check. *)
Definition sc_cancel : Scenario := {|
  sc_info := sc_info sc_line;
  sc_animated := [0%nat];
  sc_static := [];
  sc_name := λ _, "Line";
  sc_keyframes := λ _, [0; 5; 10];
  sc_blank := λ _ _, false;
  sc_pixels := sc_pixels sc_line;
  sc_export_ok := λ _ _, true;
  sc_cancel_at := Some 0%nat;
  sc_raise := λ _, None
|}.

(** The folder of the layer cannot be created, and the text of the error
    is the message of a cancelled run. *)
Definition sc_impostor : Scenario := {|
  sc_info := sc_info sc_line;
  sc_animated := [0%nat];
  sc_static := [];
  sc_name := λ _, "Line";
  sc_keyframes := λ _, [0; 5; 10];
  sc_blank := λ _ _, false;
  sc_pixels := sc_pixels sc_line;
  sc_export_ok := λ _ _, true;
  sc_cancel_at := None;
  sc_raise := λ c,
    match c with
    | Mkdir _ =>
        Some {| exn_is_Exception := true;
                exn_text := "Export cancelled by user" |}
    | _ => None
    end
|}.

(** The folder of the layer cannot be created ([OSError]). *)
Definition sc_oserror : Scenario := {|
  sc_info := sc_info sc_line;
  sc_animated := [0%nat];
  sc_static := [];
  sc_name := λ _, "Line";
  sc_keyframes := λ _, [0; 5; 10];
  sc_blank := λ _ _, false;
  sc_pixels := sc_pixels sc_line;
  sc_export_ok := λ _ _, true;
  sc_cancel_at := None;
  sc_raise := λ c,
    match c with
    | Mkdir _ =>
        Some {| exn_is_Exception := true; exn_text := "Permission denied" |}
    | _ => None
    end
|}.

(** The progress callback is interrupted ([KeyboardInterrupt], which does
    not derive from [Exception]). *)
Definition sc_interrupt : Scenario := {|
  sc_info := sc_info sc_line;
  sc_animated := [0%nat];
  sc_static := [];
  sc_name := λ _, "Line";
  sc_keyframes := λ _, [0; 5; 10];
  sc_blank := λ _ _, false;
  sc_pixels := sc_pixels sc_line;
  sc_export_ok := λ _ _, true;
  sc_cancel_at := None;
  sc_raise := λ c,
    match c with
    | OnProgress _ _ _ =>
        Some {| exn_is_Exception := false; exn_text := "" |}
    | _ => None
    end
|}.

Definition demo_engine_static : Engine :=
  {| export_path := "out";
     options :=
       {| include_invisible := false; include_reference := false;
          include_static := true; flatten_groups := false;
          png_compression := DEFAULT_PNG_COMPRESSION;
          use_full_clip_range := true; file_format := FORMAT_LAYER_SEQ;
          file_prefix := ""; file_suffix := ""; file_separator := "_";
          export_name := ""; image_format := "png" |};
     on_progress := true; on_cancelled := true |}.

(** The plan and the loop variables of the runs on [sc_line] and its
    variants when the loop over the animated layers starts. *)
Definition demo_plan : Plan nat := {|
  doc_info := sc_info sc_line;
  animated_layers := [0%nat];
  static_layers := [];
  start_frame := 0;
  end_frame := 10;
  duration := 11;
  total_work := 3
|}.

Definition demo_vars : RunVars := {|
  xdts_doc := create_xdts_document 11;
  processed := 0;
  total_unique := 0;
  used_layer_names := ∅
|}.

(** The same once the track of the layer has been added. *)
Definition demo_track_vars : RunVars * TrackVars (Fp := string) :=
  ({| xdts_doc := (add_track (create_xdts_document 11) "Line" 0).1;
      processed := 0;
      total_unique := 0;
      used_layer_names := {["Line"]} |},
   {| hash_to_label := ∅; cell_count := 0; last_was_stop_frame := false |}).

(** ** Runs of the scripted host *)

Definition line_track_run :=
  animated_layer_body demo_engine demo_plan (0, 0%nat) demo_vars
    (new_engine (demo_world sc_line)).

Definition stop_track_run :=
  animated_layer_body demo_engine demo_plan (0, 0%nat) demo_vars
    (new_engine (demo_world sc_stop)).

Definition empty_plan : Plan nat := {|
  doc_info := sc_info sc_empty;
  animated_layers := [0%nat];
  static_layers := [];
  start_frame := 0;
  end_frame := 23;
  duration := 24;
  total_work := 0
|}.

Definition empty_vars : RunVars := {|
  xdts_doc := create_xdts_document 24;
  processed := 0;
  total_unique := 0;
  used_layer_names := ∅
|}.

Definition empty_track_run :=
  animated_layer_body demo_engine empty_plan (0, 0%nat) empty_vars
    (new_engine (demo_world sc_empty)).

Definition stop_frame_run :=
  keyframe_body demo_engine demo_plan 0%nat "Line" "out/Line" 0%nat 3
    demo_track_vars (new_engine (demo_world sc_stop)).

Definition cancel_export_run :=
  export demo_engine (new_engine (demo_world sc_cancel)).

Definition impostor_export_run :=
  export demo_engine (new_engine (demo_world sc_impostor)).

Definition interrupt_export_run :=
  export demo_engine (new_engine (demo_world sc_interrupt)).

Definition empty_export_run :=
  export demo_engine (new_engine (demo_world sc_empty)).

(** ** More of what a list of interactions shows *)

Section Accounting.
Context {Layer : Type}.

(** An image export that answered [True]. *)
Definition export_ok (ev : Event Layer) : bool :=
  match ev_call ev as c return Res (ret_type c) → bool with
  | ExportFrame _ _ _ => λ r, match r with Val b => b | Exc _ => false end
  | _ => λ _, false
  end (ev_res ev).

(** The images asked for: layer, frame and file. *)
Definition export_of (ev : Event Layer) : option (Layer * Z * string) :=
  match ev_call ev with
  | ExportFrame layer frame path => Some (layer, frame, path)
  | _ => None
  end.

Definition exports_of (evs : list (Event Layer))
    : list (Layer * Z * string) :=
  omap export_of evs.

Definition count_exported (evs : list (Event Layer)) : nat :=
  length (filter (λ ev, export_ok ev = true) evs).

(** The progress reports: [current], [total] and [message]. *)
Definition progress_of (ev : Event Layer) : option (Z * Z * string) :=
  match ev_call ev with
  | OnProgress current total message => Some (current, total, message)
  | _ => None
  end.

Definition reports (evs : list (Event Layer)) : list (Z * Z * string) :=
  omap progress_of evs.

(** The folders asked for. *)
Definition mkdir_of (ev : Event Layer) : option string :=
  match ev_call ev with Mkdir path => Some path | _ => None end.

End Accounting.


(** The invariant of the loop over the keyframes of a layer: the dictionary
    is numbered 1 .. [len(hash_to_label)] and [cell_count] is the highest
    number handed out. *)
Definition counted {Fp} `{Countable Fp} (tv : TrackVars (Fp := Fp)) : Prop :=
  well_numbered (hash_to_label tv) ∧
  cell_count tv = Z.of_nat (size (hash_to_label tv)).

(** ** The pace of the progress reports *)

Section Pace.
Context {Layer World : Type}.




End Pace.

(** ** ExportResult.__str__ *)

Definition ExportResult_str (self : ExportResult) : string :=
  if success self then
    "Export complete: " +:+ Py.str (track_count self) +:+ " tracks, "
      +:+ Py.str (unique_frames_exported self) +:+ " unique frames"
  else "Export failed: " +:+ error_message self.

(** ** ExportOptions.from_dict *)

(** The values that the dictionary of options holds. *)
Inductive PyVal :=
| PyNone
| PyBool (b : bool)
| PyInt (n : Z)
| PyStr (s : string).

(** The attributes of an [ExportOptions] object as Python holds them:
    [from_dict] stores whatever the dictionary gives. *)
Record OptionValues := {
  v_include_invisible : PyVal;
  v_include_reference : PyVal;
  v_include_static : PyVal;
  v_flatten_groups : PyVal;
  v_png_compression : PyVal;
  v_use_full_clip_range : PyVal;
  v_file_format : PyVal;
  v_file_prefix : PyVal;
  v_file_suffix : PyVal;
  v_file_separator : PyVal;
  v_export_name : PyVal;
  v_image_format : PyVal
}.

(** The attributes of the options that the engine works with. *)
Definition values_of (opts : ExportOptions) : OptionValues := {|
  v_include_invisible := PyBool (include_invisible opts);
  v_include_reference := PyBool (include_reference opts);
  v_include_static := PyBool (include_static opts);
  v_flatten_groups := PyBool (flatten_groups opts);
  v_png_compression := PyInt (png_compression opts);
  v_use_full_clip_range := PyBool (use_full_clip_range opts);
  v_file_format := PyInt (file_format opts);
  v_file_prefix := PyStr (file_prefix opts);
  v_file_suffix := PyStr (file_suffix opts);
  v_file_separator := PyStr (file_separator opts);
  v_export_name := PyStr (export_name opts);
  v_image_format := PyStr (image_format opts)
|}.

(** [data.get(key, default)] *)
Definition dict_get (data : gmap string PyVal) (key : string)
    (default_ : PyVal) : PyVal :=
  match data !! key with Some v => v | None => default_ end.

Definition from_dict (data : gmap string PyVal) : OptionValues := {|
  v_include_invisible := dict_get data "include_invisible" (PyBool false);
  v_include_reference := dict_get data "include_reference" (PyBool false);
  v_include_static := dict_get data "include_static" (PyBool false);
  v_flatten_groups := dict_get data "flatten_groups" (PyBool false);
  v_png_compression :=
    dict_get data "png_compression" (PyInt DEFAULT_PNG_COMPRESSION);
  v_use_full_clip_range := dict_get data "use_full_clip_range" (PyBool true);
  v_file_format := dict_get data "file_format" (PyInt FORMAT_LAYER_SEQ);
  v_file_prefix := dict_get data "file_prefix" (PyStr "");
  v_file_suffix := dict_get data "file_suffix" (PyStr "");
  v_file_separator := dict_get data "file_separator" (PyStr "_");
  v_export_name := dict_get data "export_name" (PyStr "");
  v_image_format := dict_get data "image_format" (PyStr "png")
|}.

(** The keys that [from_dict] reads. *)
Definition option_keys : list string :=
  ["include_invisible"; "include_reference"; "include_static";
   "flatten_groups"; "png_compression"; "use_full_clip_range";
   "file_format"; "file_prefix"; "file_suffix"; "file_separator";
   "export_name"; "image_format"].

(** The dictionary that holds the attributes of an options object under
    their names. *)
Definition options_dict (opts : ExportOptions) : gmap string PyVal :=
  list_to_map
    [("include_invisible", PyBool (include_invisible opts));
     ("include_reference", PyBool (include_reference opts));
     ("include_static", PyBool (include_static opts));
     ("flatten_groups", PyBool (flatten_groups opts));
     ("png_compression", PyInt (png_compression opts));
     ("use_full_clip_range", PyBool (use_full_clip_range opts));
     ("file_format", PyInt (file_format opts));
     ("file_prefix", PyStr (file_prefix opts));
     ("file_suffix", PyStr (file_suffix opts));
     ("file_separator", PyStr (file_separator opts));
     ("export_name", PyStr (export_name opts));
     ("image_format", PyStr (image_format opts))].

(** * frame_export.py

    [FrameExporter] talks to Krita only: the source document and its layers,
    the temporary documents that Krita creates, their nodes, and the
    [InfoObject]s that configure an export.  These are the calls it makes. *)

(** The kinds of objects that Krita hands out. *)
Record KritaTypes := {
  KLayer : Type;
  KTempDoc : Type;
  KNode : Type;
  KInfo : Type;
  KColor : Type;
  KResolution : Type
}.

Inductive KCall (K : KritaTypes) : Type :=
| KritaInstance
| SourceWidth
| SourceHeight
| SourceColorModel
| SourceColorDepth
| SourceColorProfile
| SourceResolution
| SourceSetCurrentTime (frame : Z)
| SourceWaitForDone
| LayerProjectionPixelData (layer : KLayer K) (x y w h : Z)
| CreateDocument (width height : Z) (name : string)
    (color_model color_depth color_profile : KColor K)
    (resolution : KResolution K)
| TempSetBatchmode (doc : KTempDoc K) (value : bool)
| TempRootNode (doc : KTempDoc K)
| NodeChildNodes (node : KNode K)
| NodeSetPixelData (node : KNode K) (data : list Byte.byte) (x y w h : Z)
| TempRefreshProjection (doc : KTempDoc K)
| TempWaitForDone (doc : KTempDoc K)
| NewInfoObject
| InfoSetProperty (config : KInfo K) (key : string) (value : PyVal)
| TempExportImage (doc : KTempDoc K) (path : string) (config : KInfo K)
| TempClose (doc : KTempDoc K).
Arguments KritaInstance {K}.
Arguments SourceWidth {K}.
Arguments SourceHeight {K}.
Arguments SourceColorModel {K}.
Arguments SourceColorDepth {K}.
Arguments SourceColorProfile {K}.
Arguments SourceResolution {K}.
Arguments SourceSetCurrentTime {K} _.
Arguments SourceWaitForDone {K}.
Arguments LayerProjectionPixelData {K} _ _ _ _ _.
Arguments CreateDocument {K} _ _ _ _ _ _ _.
Arguments TempSetBatchmode {K} _ _.
Arguments TempRootNode {K} _.
Arguments NodeChildNodes {K} _.
Arguments NodeSetPixelData {K} _ _ _ _ _ _.
Arguments TempRefreshProjection {K} _.
Arguments TempWaitForDone {K} _.
Arguments NewInfoObject {K}.
Arguments InfoSetProperty {K} _ _ _.
Arguments TempExportImage {K} _ _ _.
Arguments TempClose {K} _.

(** What a call returns; [createDocument] may return [None]. *)
Definition kret {K} (c : KCall K) : Type :=
  match c with
  | SourceWidth | SourceHeight => Z
  | SourceColorModel | SourceColorDepth | SourceColorProfile => KColor K
  | SourceResolution => KResolution K
  | LayerProjectionPixelData _ _ _ _ _ => list Byte.byte
  | CreateDocument _ _ _ _ _ _ _ => option (KTempDoc K)
  | TempRootNode _ => KNode K
  | NodeChildNodes _ => list (KNode K)
  | NewInfoObject => KInfo K
  | TempExportImage _ _ _ => bool
  | KritaInstance | SourceSetCurrentTime _ | SourceWaitForDone
  | TempSetBatchmode _ _ | NodeSetPixelData _ _ _ _ _ _
  | TempRefreshProjection _ | TempWaitForDone _ | InfoSetProperty _ _ _
  | TempClose _ => unit
  end.

Record KEvent (K : KritaTypes) := KEv {
  kev_call : KCall K;
  kev_res : Res (kret kev_call)
}.
Arguments KEv {K} _ _.
Arguments kev_call {K} _.
Arguments kev_res {K} _.

(** Krita as the frame exporter sees it, with the two pure helpers of the
    standard library that [export_frame] uses: the extension that
    [os.path.splitext] splits off, and [str.lower]. *)
Class Krita (K : KritaTypes) (KWorld : Type) := {
  krita : ∀ c : KCall K, KWorld → Res (kret c) * KWorld;
  splitext_ext : string → string;
  str_lower : string → string
}.

(** Programs over Krita: a value or an exception, the world afterwards and
    the calls made. *)
Definition KProg (K : KritaTypes) (KWorld A : Type) : Type :=
  KWorld → Res A * KWorld * list (KEvent K).

Section KritaPrograms.
Context {K : KritaTypes} {KWorld : Type}.

Definition kpure {A} (a : A) : KProg K KWorld A := λ w, (Val a, w, []).

Definition kbind {A B} (m : KProg K KWorld A) (k : A → KProg K KWorld B)
    : KProg K KWorld B := λ w,
  match m w with
  | (Val a, w1, t1) => match k a w1 with (r, w2, t2) => (r, w2, t1 ++ t2) end
  | (Exc e, w1, t1) => (Exc e, w1, t1)
  end.

(** [try: body finally: cleanup]: the cleanup runs however the body ends;
    the body's value or exception stands unless the cleanup raises. *)
Definition try_finally {A} (body : KProg K KWorld A)
    (cleanup : KProg K KWorld unit) : KProg K KWorld A := λ w,
  match body w with
  | (r, w1, t1) =>
      match cleanup w1 with
      | (Val _, w2, t2) => (r, w2, t1 ++ t2)
      | (Exc e, w2, t2) => (Exc e, w2, t1 ++ t2)
      end
  end.

End KritaPrograms.

Notation "'let+' x ':=' m 'in' k" := (kbind m (λ x, k))
  (at level 10, x pattern, m at level 100, k at level 200,
   format "'[v' 'let+'  x  ':='  m  'in' '/' k ']'").

Definition kcall {K KWorld} `{Krita K KWorld} (c : KCall K)
    : KProg K KWorld (kret c) := λ w,
  match krita c w with
  | (Val a, w') => (Val a, w', [KEv c (Val a)])
  | (Exc e, w') => (Exc e, w', [KEv c (Exc e)])
  end.

(** The attributes of a [FrameExporter]: the properties of the source
    document as they were when the exporter was made. *)
Record FrameExporter (K : KritaTypes) := {
  _width : Z;
  _height : Z;
  _color_model : KColor K;
  _color_depth : KColor K;
  _color_profile : KColor K;
  _resolution : KResolution K
}.
Arguments _width {K} _.
Arguments _height {K} _.
Arguments _color_model {K} _.
Arguments _color_depth {K} _.
Arguments _color_profile {K} _.
Arguments _resolution {K} _.

Section FrameExport.
Context {K : KritaTypes} {KWorld : Type} `{!Krita K KWorld}.

Local Abbreviation Prog := (KProg K KWorld).

(** [FrameExporter.__init__] *)
Definition FrameExporter_init : Prog (FrameExporter K) :=
  let+ _ := kcall KritaInstance in
  let+ width := kcall SourceWidth in
  let+ height := kcall SourceHeight in
  let+ color_model := kcall SourceColorModel in
  let+ color_depth := kcall SourceColorDepth in
  let+ color_profile := kcall SourceColorProfile in
  let+ resolution := kcall SourceResolution in
  kpure {| _width := width; _height := height;
           _color_model := color_model; _color_depth := color_depth;
           _color_profile := color_profile; _resolution := resolution |}.

(** [_create_temp_document] *)
Definition _create_temp_document (self : FrameExporter K)
    : Prog (option (KTempDoc K)) :=
  kcall (CreateDocument (_width self) (_height self) "xdts_export_temp"
           (_color_model self) (_color_depth self) (_color_profile self)
           (_resolution self)).

(** [_transfer_pixels] *)
Definition _transfer_pixels (self : FrameExporter K) (temp_doc : KTempDoc K)
    (pixel_data : list Byte.byte) : Prog unit :=
  let+ root := kcall (TempRootNode temp_doc) in
  let+ children := kcall (NodeChildNodes root) in
  let+ _ :=
    match children with
    | target_layer :: _ =>
        kcall (NodeSetPixelData target_layer pixel_data 0 0
                 (_width self) (_height self))
    | [] => kpure tt
    end in
  let+ _ := kcall (TempRefreshProjection temp_doc) in
  kcall (TempWaitForDone temp_doc).

(** [_build_png_config] *)
Definition _build_png_config : Prog (KInfo K) :=
  let+ config := kcall NewInfoObject in
  let+ _ := kcall (InfoSetProperty config "alpha" (PyBool true)) in
  let+ _ := kcall (InfoSetProperty config "compression"
                     (PyInt DEFAULT_PNG_COMPRESSION)) in
  let+ _ := kcall (InfoSetProperty config "indexed" (PyBool false)) in
  let+ _ := kcall (InfoSetProperty config "interlaced" (PyBool false)) in
  kpure config.

(** [_build_tga_config] *)
Definition _build_tga_config : Prog (KInfo K) :=
  let+ config := kcall NewInfoObject in
  let+ _ := kcall (InfoSetProperty config "alpha" (PyBool true)) in
  kpure config.

(** [export_frame]; the two early [return False] are the two [else]-less
    tests of the source. *)
Definition export_frame (self : FrameExporter K) (layer : KLayer K)
    (frame_number : Z) (output_path : string) : Prog bool :=
  let+ _ := kcall (SourceSetCurrentTime frame_number) in
  let+ _ := kcall SourceWaitForDone in
  let+ pixel_data :=
    kcall (LayerProjectionPixelData layer 0 0 (_width self) (_height self)) in
  match pixel_data with
  | [] => kpure false
  | _ :: _ =>
      let+ temp_doc := _create_temp_document self in
      match temp_doc with
      | None => kpure false
      | Some temp_doc =>
          try_finally
            (let+ _ := kcall (TempSetBatchmode temp_doc true) in
             let+ _ := _transfer_pixels self temp_doc pixel_data in
             let ext := str_lower (splitext_ext output_path) in
             let+ export_config :=
               if String.eqb ext ".tga" then _build_tga_config
               else _build_png_config in
             let+ success :=
               kcall (TempExportImage temp_doc output_path export_config) in
             kpure success)
            (kcall (TempClose temp_doc))
      end
  end.

End FrameExport.

(** ** What a list of calls to Krita shows *)

Section KritaObservations.
Context {K : KritaTypes}.

(** The temporary documents that Krita created. *)
Definition created_of (ev : KEvent K) : option (KTempDoc K) :=
  match kev_call ev as c return Res (kret c) → option (KTempDoc K) with
  | CreateDocument _ _ _ _ _ _ _ =>
      λ r, match r with Val (Some doc) => Some doc | _ => None end
  | _ => λ _, None
  end (kev_res ev).

(** The temporary documents closed. *)
Definition closed_of (ev : KEvent K) : option (KTempDoc K) :=
  match kev_call ev with TempClose doc => Some doc | _ => None end.

(** The images written: document, file and configuration. *)
Definition image_of (ev : KEvent K)
    : option (KTempDoc K * string * KInfo K) :=
  match kev_call ev with
  | TempExportImage doc path config => Some (doc, path, config)
  | _ => None
  end.

(** The properties set on configurations. *)
Definition property_of (ev : KEvent K)
    : option (KInfo K * string * PyVal) :=
  match kev_call ev with
  | InfoSetProperty config key value => Some (config, key, value)
  | _ => None
  end.

(** The pixels read from layers of the source document. *)
Definition read_of (ev : KEvent K)
    : option (KLayer K * (Z * Z * Z * Z) * list Byte.byte) :=
  match kev_call ev as c
    return Res (kret c) → option (KLayer K * (Z * Z * Z * Z) * list Byte.byte)
  with
  | LayerProjectionPixelData layer x y w h =>
      λ r, match r with
           | Val data => Some (layer, (x, y, w, h), data)
           | Exc _ => None
           end
  | _ => λ _, None
  end (kev_res ev).

(** The pixels written to nodes of temporary documents. *)
Definition written_of (ev : KEvent K)
    : option (KNode K * (Z * Z * Z * Z) * list Byte.byte) :=
  match kev_call ev with
  | NodeSetPixelData node data x y w h => Some (node, (x, y, w, h), data)
  | _ => None
  end.

(** The frames that the source document was moved to. *)
Definition time_of (ev : KEvent K) : option Z :=
  match kev_call ev with
  | SourceSetCurrentTime frame => Some frame
  | _ => None
  end.

Definition kexn_of (ev : KEvent K) : option Exn :=
  match kev_res ev with Exc e => Some e | Val _ => None end.

(** The layer had no pixel data. *)
Definition no_pixels (ev : KEvent K) : bool :=
  match read_of ev with Some (_, _, []) => true | _ => false end.

Definition is_create (ev : KEvent K) : bool :=
  match kev_call ev with
  | CreateDocument _ _ _ _ _ _ _ => true
  | _ => false
  end.

(** Krita could not create a document. *)
Definition no_document (ev : KEvent K) : bool :=
  match kev_call ev as c return Res (kret c) → bool with
  | CreateDocument _ _ _ _ _ _ _ =>
      λ r, match r with Val None => true | _ => false end
  | _ => λ _, false
  end (kev_res ev).

(** An image was written and Krita answered [True]. *)
Definition image_ok (ev : KEvent K) : bool :=
  match kev_call ev as c return Res (kret c) → bool with
  | TempExportImage _ _ _ =>
      λ r, match r with Val b => b | Exc _ => false end
  | _ => λ _, false
  end (kev_res ev).

End KritaObservations.

(** ** A scripted Krita, to run the frame exporter on examples *)

Definition demo_kinds : KritaTypes := {|
  KLayer := nat;
  KTempDoc := nat;
  KNode := nat;
  KInfo := nat;
  KColor := string;
  KResolution := Z
|}.

Record KScenario := {
  ks_pixels : list Byte.byte;
  ks_document : option nat;
  ks_children : list nat;
  ks_export_ok : bool;
  ks_raise : KCall demo_kinds → option Exn
}.

Definition demo_kanswer (sc : KScenario) (c : KCall demo_kinds) : kret c :=
  match c as c0 return kret c0 with
  | KritaInstance => tt
  | SourceWidth => 2
  | SourceHeight => 1
  | SourceColorModel => "RGBA"
  | SourceColorDepth => "U8"
  | SourceColorProfile => "sRGB"
  | SourceResolution => 72
  | SourceSetCurrentTime _ => tt
  | SourceWaitForDone => tt
  | LayerProjectionPixelData _ _ _ _ _ => ks_pixels sc
  | CreateDocument _ _ _ _ _ _ _ => ks_document sc
  | TempSetBatchmode _ _ => tt
  | TempRootNode doc => doc
  | NodeChildNodes _ => ks_children sc
  | NodeSetPixelData _ _ _ _ _ _ => tt
  | TempRefreshProjection _ => tt
  | TempWaitForDone _ => tt
  | NewInfoObject => 0%nat
  | InfoSetProperty _ _ _ => tt
  | TempExportImage _ _ _ => ks_export_ok sc
  | TempClose _ => tt
  end.

(** The extension of the scripted paths: what follows the last dot. *)
Fixpoint demo_ext (path : string) : string :=
  match path with
  | EmptyString => ""
  | String c rest =>
      let ext := demo_ext rest in
      if Py.truthy ext then ext
      else if Ascii.eqb c "."%char then path else ""
  end.

#[export] Instance demo_krita : Krita demo_kinds KScenario := {|
  krita c sc :=
    match ks_raise sc c with
    | Some e => (Exc e, sc)
    | None => (Val (demo_kanswer sc c), sc)
    end;
  splitext_ext := demo_ext;
  str_lower s := s
|}.

Definition demo_exporter : FrameExporter demo_kinds :=
  Build_FrameExporter demo_kinds 2 1 "RGBA" "U8" "sRGB" 72.

(** A layer with a picture, exported to a PNG file. *)
Definition ks_png : KScenario := {|
  ks_pixels := [Byte.x07; Byte.x07];
  ks_document := Some 4%nat;
  ks_children := [9%nat];
  ks_export_ok := true;
  ks_raise := λ _, None
|}.

(** Writing the image raises an error. *)
Definition ks_disk_full : KScenario := {|
  ks_pixels := [Byte.x07; Byte.x07];
  ks_document := Some 4%nat;
  ks_children := [9%nat];
  ks_export_ok := true;
  ks_raise := λ c,
    match c with
    | TempExportImage _ _ _ =>
        Some {| exn_is_Exception := true; exn_text := "disk full" |}
    | _ => None
    end
|}.

(** A layer without pixel data. *)
Definition ks_blank : KScenario := {|
  ks_pixels := [];
  ks_document := Some 4%nat;
  ks_children := [9%nat];
  ks_export_ok := true;
  ks_raise := λ _, None
|}.

(** ** More scenarios for the scripted host of the engine *)

(** Frame 10 is drawn as frame 0, the layer "Paper" is static. *)
Definition sc_two_layers : Scenario := {|
  sc_info := sc_info sc_line;
  sc_animated := [0%nat];
  sc_static := [7%nat];
  sc_name := λ l, if (l =? 7)%nat then "Paper" else "Line";
  sc_keyframes := λ _, [0; 5; 10];
  sc_blank := λ _ _, false;
  sc_pixels := sc_pixels sc_line;
  sc_export_ok := λ _ _, true;
  sc_cancel_at := None;
  sc_raise := λ _, None
|}.

(** The result that a successful run has left in the engine. *)
Definition earlier_result : ExportResult := {|
  success := true;
  output_path := "out/export.xdts";
  track_count := 1;
  frame_count := 3;
  unique_frames_exported := 2;
  error_message := ""
|}.

(** * Relations that a run of the engine keeps *)

Section Tracking.
Context {Layer World Fp : Type} `{Countable Fp} `{!Host Layer World Fp}.

Variable R : list (Event Layer) → World → Prop.

(** [R] relates the interactions made so far with the world; every call of
    the host keeps it. *)
Definition stable : Prop :=
  ∀ (c : Call Layer) w pre,
    R pre w → R (pre ++ [Ev c (host c w).1]) (host c w).2.

(** The program [m] keeps [R]. *)
Definition tracks {A} (m : M Layer World A) : Prop :=
  ∀ s o s' evs pre,
    m s = (o, s', evs) → R pre (world s) → R (pre ++ evs) (world s').

End Tracking.

(** * ui_export_dialog.py: XDTSExportDialog._run_export

    The dialog runs the engine with two callbacks that it defines itself,
    over the progress dialog of Qt.  These are the calls that [_run_export]
    and its callbacks make to Qt, to Krita and to the dialog itself. *)

Inductive UiCall : Type :=
| KritaSetBatchmode (value : bool)
| NewProgressDialog (label cancel : string) (minimum maximum : Z)
| ProgressSetWindowTitle (title : string)
| GetWindowModality
| ProgressSetWindowModality (modality : Z)
| ProgressSetMinimumDuration (ms : Z)
| ProgressSetValue (value : Z)
| ProgressSetMaximum (value : Z)
| ProgressSetLabelText (text : string)
| ProcessEvents
| ProgressWasCanceled
| ProgressClose
| ShowSuccessMessage (result : ExportResult)
| DialogAccept
| MessageWarning (title text : string)
| MessageCritical (title text : string).

Definition ui_ret (c : UiCall) : Type :=
  match c with
  | GetWindowModality => Z
  | ProgressWasCanceled => bool
  | _ => unit
  end.

Record UiEvent := UEv {
  uev_call : UiCall;
  uev_res : Res (ui_ret uev_call)
}.

(** The desktop: the host of the engine (Krita, the file system) and the user
    interface, on one world. *)
Class Desktop (Layer World Fp : Type) := {
  desk_host :: Host Layer World Fp;
  ui : ∀ c : UiCall, World → Res (ui_ret c) * World
}.

(** What [_run_export] works on: the desktop, its local variable
    [cancelled], which the callback [on_cancelled] updates, and the calls
    made to the user interface so far. *)
Record DState (World : Type) := {
  under : World;
  cancelled : bool;
  ui_log : list UiEvent
}.
Arguments under {World} _.
Arguments cancelled {World} _.
Arguments ui_log {World} _.

Definition UProg (World A : Type) : Type :=
  DState World → Res A * DState World.

Section UiPrograms.
Context {World : Type}.

Definition upure {A} (a : A) : UProg World A := λ ds, (Val a, ds).

Definition ubind {A B} (m : UProg World A) (k : A → UProg World B)
    : UProg World B := λ ds,
  match m ds with
  | (Val a, ds1) => k a ds1
  | (Exc e, ds1) => (Exc e, ds1)
  end.

Definition set_cancelled (value : bool) : UProg World unit := λ ds,
  (Val tt, {| under := under ds; cancelled := value; ui_log := ui_log ds |}).

Definition get_cancelled : UProg World bool := λ ds, (Val (cancelled ds), ds).

(** [try: body except Exception as e: handler(e)] *)
Definition utry_except {A} (body : UProg World A)
    (handler : Exn → UProg World A) : UProg World A := λ ds,
  match body ds with
  | (Val a, ds1) => (Val a, ds1)
  | (Exc e, ds1) =>
      if exn_is_Exception e then handler e ds1 else (Exc e, ds1)
  end.

(** [try: body finally: cleanup] *)
Definition utry_finally {A} (body : UProg World A)
    (cleanup : UProg World unit) : UProg World A := λ ds,
  match body ds with
  | (r, ds1) =>
      match cleanup ds1 with
      | (Val _, ds2) => (r, ds2)
      | (Exc e, ds2) => (Exc e, ds2)
      end
  end.

End UiPrograms.

Notation "'let!' x ':=' m 'in' k" := (ubind m (λ x, k))
  (at level 10, x pattern, m at level 100, k at level 200,
   format "'[v' 'let!'  x  ':='  m  'in' '/' k ']'").

Section Dialog.
Context {Layer World Fp : Type} `{Countable Fp} `{!Desktop Layer World Fp}.

Definition ucall (c : UiCall) : UProg World (ui_ret c) := λ ds,
  match ui c (under ds) with
  | (r, w') =>
      (r, {| under := w'; cancelled := cancelled ds;
             ui_log := ui_log ds ++ [UEv c r] |})
  end.

(** The callback [on_progress] of [_run_export]. *)
Definition dialog_on_progress (current total : Z) (message : string)
    : UProg World unit :=
  let! _ :=
    if total >? 0 then
      let! _ := ucall (ProgressSetMaximum total) in
      ucall (ProgressSetValue current)
    else upure tt in
  let! _ := ucall (ProgressSetLabelText message) in
  ucall ProcessEvents.

(** The callback [on_cancelled] of [_run_export]. *)
Definition dialog_on_cancelled : UProg World bool :=
  let! was_canceled := ucall ProgressWasCanceled in
  let! _ := if was_canceled then set_cancelled true else upure tt in
  get_cancelled.

(** A call of the engine to the desktop, passed on. *)
Definition pass_on (c : Call Layer) (ds : DState World)
    : Res (ret_type c) * DState World :=
  match host c (under ds) with
  | (r, w') =>
      (r, {| under := w'; cancelled := cancelled ds; ui_log := ui_log ds |})
  end.

(** The host of the engine that the dialog makes: the two callbacks are the
    dialog's own, everything else is the desktop's. *)
#[export] Instance dialog_host : Host Layer (DState World) Fp := {|
  host c :=
    match c as c0 return DState World → Res (ret_type c0) * DState World with
    | OnProgress current total message =>
        dialog_on_progress current total message
    | OnCancelled => dialog_on_cancelled
    | c0 => pass_on c0
    end;
  sanitize_filename := sanitize_filename (Host := desk_host);
  make_unique_name := make_unique_name (Host := desk_host);
  compute_content_hash := compute_content_hash (Host := desk_host);
  path_join := path_join (Host := desk_host)
|}.

(** [engine.export()] inside the dialog: a new engine with both callbacks
    set; the result, or the exception that leaves [export]. *)
Definition run_engine (engine : Engine) : UProg World ExportResult := λ ds,
  match export (Host0 := dialog_host) engine (new_engine ds) with
  | (inl result, s', _) => (Val result, world s')
  | (inr e, s', _) => (Exc e, world s')
  end.

Definition newline : string := String (ascii_of_nat 10) EmptyString.

(** [XDTSExportDialog._run_export] *)
Definition dialog_run_export (export_path : string) (options : ExportOptions)
    : UProg World unit :=
  let! _ := ucall (KritaSetBatchmode true) in
  let! _ := ucall (NewProgressDialog "Initializing export..." "Cancel"
                     0 100) in
  let! _ := ucall (ProgressSetWindowTitle "Exporting Animation Layers") in
  let! modality := ucall GetWindowModality in
  let! _ := ucall (ProgressSetWindowModality modality) in
  let! _ := ucall (ProgressSetMinimumDuration 0) in
  let! _ := ucall (ProgressSetValue 0) in
  let! _ := set_cancelled false in
  utry_finally
    (utry_except
       (let engine := Build_Engine export_path options true true in
        let! result := run_engine engine in
        let! _ := ucall ProgressClose in
        if success result then
          let! _ := ucall (ShowSuccessMessage result) in
          ucall DialogAccept
        else
          let! was_cancelled := get_cancelled in
          if negb was_cancelled then
            ucall (MessageWarning "Export Failed"
                     ("Export failed: " +:+ error_message result))
          else upure tt)
       (λ e,
          let! _ := ucall ProgressClose in
          ucall (MessageCritical "Export Error"
                   ("An unexpected error occurred:" +:+ newline +:+ newline
                      +:+ exn_text e))))
    (ucall (KritaSetBatchmode false)).

End Dialog.

(** ** What the calls to the user interface show *)

(** The user has pressed [Cancel]. *)
Definition cancel_seen (ev : UiEvent) : bool :=
  match uev_call ev as c return Res (ui_ret c) → bool with
  | ProgressWasCanceled => λ r, match r with Val b => b | Exc _ => false end
  | _ => λ _, false
  end (uev_res ev).

Definition is_warning_box (ev : UiEvent) : bool :=
  match uev_call ev with MessageWarning _ _ => true | _ => false end.

Definition is_critical_box (ev : UiEvent) : bool :=
  match uev_call ev with MessageCritical _ _ => true | _ => false end.

Definition is_success_box (ev : UiEvent) : bool :=
  match uev_call ev with ShowSuccessMessage _ => true | _ => false end.

Definition uexn_of (ev : UiEvent) : option Exn :=
  match uev_res ev with Exc e => Some e | Val _ => None end.

(** The calls that the two callbacks make while the engine runs. *)
Definition engine_time (ev : UiEvent) : bool :=
  match uev_call ev with
  | ProgressSetMaximum _ | ProgressSetValue _ | ProgressSetLabelText _
  | ProcessEvents | ProgressWasCanceled => true
  | _ => false
  end.

Definition batch_mode_off (ev : UiEvent) : bool :=
  match uev_call ev with KritaSetBatchmode false => true | _ => false end.

(** The two boxes that show the result of the engine. *)
Definition is_result_box (ev : UiEvent) : bool :=
  is_warning_box ev || is_success_box ev.

(** The calls that [_run_export] makes in its [try] block after the engine
    has returned. *)
Definition after_engine (ev : UiEvent) : bool :=
  match uev_call ev with
  | ProgressClose | ShowSuccessMessage _ | DialogAccept
  | MessageWarning _ _ => true
  | _ => false
  end.

(** What holds while the engine runs inside the dialog, started with the log
    [log0] and [cancelled = False]: the log has grown by calls of the
    callbacks only, [cancelled] says whether the user has been seen to
    cancel, and once it is set the engine has had a positive answer to a
    cancellation check. *)
Definition in_dialog {Layer World} (log0 : list UiEvent)
    (pre : list (Event Layer)) (ds : DState World) : Prop :=
  ∃ log,
    ui_log ds = log0 ++ log ∧
    forallb engine_time log = true ∧
    cancelled ds = existsb cancel_seen log ∧
    (cancelled ds = true → existsb positive_poll pre = true).

(** ** A scripted desktop, to run the dialog on examples *)

(** The scripted world of the engine, and the calls to the user interface
    that raise. *)
Record DeskWorld := {
  engine_world : DemoWorld;
  ui_raise : UiCall → option Exn
}.

(** The user presses [Cancel] before check number [sc_cancel_at]; the window
    stays cancelled from then on. *)
Definition demo_ui_answer (c : UiCall) (w : DemoWorld)
    : ui_ret c * DemoWorld :=
  match c as c0 return ui_ret c0 * DemoWorld with
  | GetWindowModality => (2, w)
  | ProgressWasCanceled =>
      (match sc_cancel_at (scenario w) with
       | Some n => bool_decide (n ≤ polls w)%nat
       | None => false
       end,
       {| scenario := scenario w; current_time := current_time w;
          polls := S (polls w) |})
  | _ => (tt, w)
  end.

Definition demo_ui (c : UiCall) (w : DeskWorld)
    : Res (ui_ret c) * DeskWorld :=
  match ui_raise w c with
  | Some e => (Exc e, w)
  | None =>
      let '(a, w') := demo_ui_answer c (engine_world w) in
      (Val a, {| engine_world := w'; ui_raise := ui_raise w |})
  end.

#[export] Instance demo_desk_host : Host nat DeskWorld string := {|
  host c w :=
    let '(r, w') := host (Host := demo_host) c (engine_world w) in
    (r, {| engine_world := w'; ui_raise := ui_raise w |});
  sanitize_filename := sanitize_filename (Host := demo_host);
  make_unique_name := make_unique_name (Host := demo_host);
  compute_content_hash := compute_content_hash (Host := demo_host);
  path_join := path_join (Host := demo_host)
|}.

#[export] Instance demo_desktop : Desktop nat DeskWorld string := {|
  desk_host := demo_desk_host;
  ui := demo_ui
|}.

Definition demo_dialog (sc : Scenario) (raises : UiCall → option Exn)
    : DState DeskWorld :=
  {| under := {| engine_world := demo_world sc; ui_raise := raises |};
     cancelled := false; ui_log := [] |}.

(** The export of the dialog on the scripted desktop. *)
Definition demo_dialog_run (sc : Scenario) (raises : UiCall → option Exn)
    : Res unit * DState DeskWorld :=
  dialog_run_export "out" ExportOptions_init (demo_dialog sc raises).

(** The dialog has gone when it is to be accepted. *)
Definition accept_fails (c : UiCall) : option Exn :=
  match c with
  | DialogAccept =>
      Some {| exn_is_Exception := true;
              exn_text := "wrapped C/C++ object has been deleted" |}
  | _ => None
  end.

(** The progress dialog cannot be created. *)
Definition no_progress_dialog (c : UiCall) : option Exn :=
  match c with
  | NewProgressDialog _ _ _ _ =>
      Some {| exn_is_Exception := true; exn_text := "no parent" |}
  | _ => None
  end.

(** ** The nodes of the temporary document *)

Section KritaNodes.
Context {K : KritaTypes}.

(** The root nodes that Krita handed out: document and node. *)
Definition root_of (ev : KEvent K) : option (KTempDoc K * KNode K) :=
  match kev_call ev as c
    return Res (kret c) → option (KTempDoc K * KNode K)
  with
  | TempRootNode doc =>
      λ r, match r with Val node => Some (doc, node) | Exc _ => None end
  | _ => λ _, None
  end (kev_res ev).

(** The child nodes that Krita handed out: node and children. *)
Definition children_of (ev : KEvent K)
    : option (KNode K * list (KNode K)) :=
  match kev_call ev as c
    return Res (kret c) → option (KNode K * list (KNode K))
  with
  | NodeChildNodes node =>
      λ r, match r with
           | Val children => Some (node, children)
           | Exc _ => None
           end
  | _ => λ _, None
  end (kev_res ev).

End KritaNodes.

(** A temporary document without a paint layer. *)
Definition ks_no_layer : KScenario := {|
  ks_pixels := [Byte.x07; Byte.x07];
  ks_document := Some 4%nat;
  ks_children := [];
  ks_export_ok := true;
  ks_raise := λ _, None
|}.

(** ** The ways in which [export] hands back a result *)

Inductive Ending :=
| Written
| Cancelled
| ExportFailed
| NoLayers
| ExceptionCaught.

Section Endings.
Context {Layer World Fp : Type} `{Countable Fp} `{!Host Layer World Fp}.

(** The fields of a result that only the end of a successful run sets, as
    [__init__] made them. *)
Definition nothing_written (res : ExportResult) : Prop :=
  success res = false ∧ output_path res = "" ∧ track_count res = 0 ∧
  unique_frames_exported res = 0.

(** The result [res] and the interactions [evs] of a run that ended in the
    given way. *)
Definition ended_as (self : Engine) (res : ExportResult)
    (evs : list (Event Layer)) (ending : Ending) : Prop :=
  match ending with
  | Written =>
      success res = true ∧ error_message res = "" ∧
      ∃ doc,
        last evs = Some (Ev (WriteXdtsFile doc (output_path res)) (Val tt))
  | Cancelled =>
      nothing_written res ∧
      last evs = Some (Ev OnCancelled (Val true)) ∧
      error_message res = "Export cancelled by user"
  | ExportFailed =>
      nothing_written res ∧
      ∃ layer frame layer_name cell_number,
        last evs =
          Some (Ev (ExportFrame layer frame
                      (path_join (path_join (export_path self) layer_name)
                         (_build_filename (options self) layer_name
                            cell_number)))
                  (Val false)) ∧
        error_message res =
          "Failed to export frame " +:+ Py.str frame +:+ " of "
            +:+ layer_name
  | NoLayers =>
      nothing_written res ∧
      quiet has_layers evs ∧ quiet aborting evs ∧
      error_message res = "No exportable layers found"
  | ExceptionCaught =>
      nothing_written res ∧
      ∃ ev e,
        last evs = Some ev ∧ exn_of ev = Some e ∧
        exn_is_Exception e = true ∧ error_message res = exn_text e
  end.

End Endings.

(** ** The engine without a progress callback *)

Definition demo_engine_silent : Engine :=
  Build_Engine "out" (options demo_engine_static) false true.

(** The static layer of [sc_static_fail] cannot be exported, and the engine
    has no progress callback. *)
Definition silent_export_run
    : (ExportResult + Exn) * St DemoWorld * list (Event nat) :=
  export demo_engine_silent (new_engine (demo_world sc_static_fail)).

(** * Decimal numerals *)

Lemma str_parses (n : Z) :
  NilZero.int_of_string (Py.str n) = Some (Z.to_int n).
Proof.
  unfold Py.str. apply NilZero.isi; destruct n; simpl; try discriminate;
    intros [= Hp]; revert Hp; apply Unsigned.to_uint_nonnil.
Qed.

Lemma str_inj (a b : Z) : Py.str a = Py.str b → a = b.
Proof.
  intros Hab. pose proof (str_parses a) as Ha. rewrite Hab, str_parses in Ha.
  injection Ha as Ha. rewrite <- (DecimalZ.of_to a), <- (DecimalZ.of_to b).
  now rewrite Ha.
Qed.

Lemma str_not_null (n : Z) : Py.str n ≠ SYMBOL_NULL_CELL.
Proof.
  intros Hn. pose proof (str_parses n) as Hp. rewrite Hn in Hp.
  vm_compute in Hp. discriminate.
Qed.

Lemma str_digits (n : Z) :
  0 ≤ n → NilZero.uint_of_string (Py.str n) = Some (N.to_uint (Z.to_N n)).
Proof.
  intros Hn. destruct n as [|p|p]; [reflexivity| |lia].
  unfold Py.str. simpl. apply NilZero.usu, Unsigned.to_uint_nonnil.
Qed.

Lemma isdigit_str (n : Z) : 0 ≤ n → Py.isdigit (Py.str n) = true.
Proof. intros Hn. unfold Py.isdigit. now rewrite str_digits. Qed.

Lemma int_str (n : Z) : 0 ≤ n → Py.int (Py.str n) = n.
Proof.
  intros Hn. unfold Py.int. rewrite str_digits by done.
  destruct n as [|p|p]; [reflexivity| |lia].
  simpl. unfold Z.of_uint. rewrite Unsigned.of_to. reflexivity.
Qed.

Lemma length_zeros n : String.length (zeros n) = n.
Proof. induction n; simpl; congruence. Qed.

Lemma length_append (a b : string) :
  String.length (a +:+ b) = (String.length a + String.length b)%nat.
Proof. induction a as [|c a IH]; simpl; [done | now rewrite IH]. Qed.

Lemma length_int_to_str (n : Z) :
  String.length (int_to_str n) = Nat.max 4 (String.length (Py.str n)).
Proof. unfold int_to_str. rewrite length_append, length_zeros. lia. Qed.

Lemma build_filename_parts (options : ExportOptions) (layer_name : string)
    (cell_number : Z) :
  _build_filename options layer_name cell_number =
    Py.join (file_separator options)
      (filter (λ part, part ≠ "") [file_prefix options]
       ++ (if decide (file_format options = FORMAT_LAYER_SEQ)
           then [layer_name] else [])
       ++ filter (λ part, part ≠ "") [file_suffix options]
       ++ [int_to_str cell_number])
    +:+ "." +:+ image_format options.
Proof.
  unfold _build_filename.
  destruct (file_prefix options) as [|c p], (file_suffix options) as [|d q];
    cbn [Py.truthy];
    (destruct (Z.eqb_spec (file_format options) FORMAT_LAYER_SEQ) as [->|Hne];
     [rewrite decide_True by done | rewrite decide_False by done]);
    reflexivity.
Qed.

(** * Running the engine symbolically *)

Ltac exec_step H :=
  cbn [world _result] in H;
  lazymatch type of H with
  | (_, _, _) = (_, _, _) => fail
  | _ =>
    match type of H with
    | context [on_cancelled ?self] =>
        let Hc := fresh "Hcb" in destruct (on_cancelled self) eqn:Hc
    | context [on_progress ?self] =>
        let Hc := fresh "Hpg" in destruct (on_progress self) eqn:Hc
    | context [match host ?c ?w with _ => _ end] =>
        let a := fresh "a" in
        let e := fresh "e" in
        let w' := fresh "w" in
        let Hh := fresh "Hhost" in
        destruct (host c w) as [[a|e] w'] eqn:Hh
    | context [if ?b then _ else _] => is_var b; destruct b
    | context [match ?l with [] => _ | _ :: _ => _ end] =>
        is_var l; destruct l
    | context [make_unique_name ?b ?u] =>
        let Hu := fresh "Huniq" in
        destruct (make_unique_name b u) as [?layer_name ?used] eqn:Hu
    | context [match lookup_or_assign ?h ?m with _ => _ end] =>
        let Hl := fresh "Hlook" in
        destruct (lookup_or_assign h m) as [[[?n|] ?l] ?m'] eqn:Hl
    end
  end.

Ltac exec_open H :=
  unfold _is_cancelled, _report_progress, bind, call, ret, return_,
    modify_result in H;
  repeat exec_step H;
  cbn [world _result] in H.

Ltac exec H :=
  unfold _is_cancelled, _report_progress, bind, call, ret, return_,
    modify_result in H;
  repeat exec_step H;
  cbn [world _result] in H;
  first [discriminate H | (injection H; clear H; intros; subst)].

Section Runs.
Context {Layer World Fp : Type} `{Countable Fp} `{!Host Layer World Fp}.
Implicit Types (self : Engine) (plan : Plan Layer) (s : St World)
  (evs : list (Event Layer)) (f : Event Layer → bool).

(** ** The monad *)

Lemma bind_inv {A B} (m : M Layer World A) (k : A → M Layer World B)
    s o s' evs :
  bind m k s = (o, s', evs) →
  (∃ a s1 t1 t2, m s = (Normal a, s1, t1) ∧ k a s1 = (o, s', t2) ∧
                 evs = t1 ++ t2) ∨
  (m s = (Returned, s', evs) ∧ o = Returned) ∨
  (∃ e, m s = (Raised e, s', evs) ∧ o = Raised e).
Proof.
  unfold bind. destruct (m s) as [[[a| |e] s1] t1].
  - destruct (k a s1) as [[o2 s2] t2] eqn:Hk. intros [= <- <- <-].
    left. by exists a, s1, t1, t2.
  - intros [= <- <- <-]. right. by left.
  - intros [= <- <- <-]. right. right. by exists e.
Qed.

Lemma for_each_cons {A V} (x : A) xs (body : A → V → M Layer World V) v s :
  for_each (x :: xs) body v s =
    match body x v s with
    | (Normal v1, s1, t1) =>
        match for_each xs body v1 s1 with
        | (o, s2, t2) => (o, s2, t1 ++ t2)
        end
    | (Returned, s1, t1) => (Returned, s1, t1)
    | (Raised e, s1, t1) => (Raised e, s1, t1)
    end.
Proof. reflexivity. Qed.

(** ** Lists of interactions *)

Lemma quiet_app f evs1 evs2 :
  quiet f (evs1 ++ evs2) ↔ quiet f evs1 ∧ quiet f evs2.
Proof. apply Forall_app. Qed.

Lemma quiet_only_last f evs : quiet f evs → only_last f evs.
Proof.
  unfold only_last, quiet. induction evs as [|ev [|ev' evs] IH]; intros Hq.
  - constructor.
  - constructor.
  - inversion Hq; subst. change (removelast (ev :: ev' :: evs))
      with (ev :: removelast (ev' :: evs)). constructor; auto.
Qed.

Lemma only_last_app f evs1 evs2 :
  quiet f evs1 → only_last f evs2 → only_last f (evs1 ++ evs2).
Proof.
  intros H1 H2. destruct evs2 as [|ev evs2].
  - rewrite app_nil_r. by apply quiet_only_last.
  - unfold only_last. rewrite removelast_app by done.
    apply quiet_app. by split.
Qed.

Lemma last_app_Some {A} (l1 l2 : list A) x :
  last l2 = Some x → last (l1 ++ l2) = Some x.
Proof. intros Hl. rewrite last_app, Hl. reflexivity. Qed.

Lemma quiet_weaken f g evs :
  (∀ ev, g ev = false → f ev = false) → quiet g evs → quiet f evs.
Proof. intros Hfg Hq. eapply Forall_impl; [exact Hq | exact Hfg]. Qed.

Lemma aborting_fatal (ev : Event Layer) : aborting ev = false → fatal ev = false.
Proof. unfold aborting. by intros [? ?]%orb_false_iff. Qed.

(** An interaction of the kind [f] in a list where only the last one may be
    of that kind is the last one. *)
Lemma only_last_inv f pre ev post :
  only_last f (pre ++ ev :: post) → f ev = true → post = [].
Proof.
  intros Hl Hf. destruct post as [|ev' post]; [done|]. exfalso.
  unfold only_last in Hl.
  rewrite removelast_app in Hl by done.
  apply quiet_app in Hl as [_ Hl].
  change (removelast (ev :: ev' :: post)) with (ev :: removelast (ev' :: post))
    in Hl.
  inversion Hl; subst. congruence.
Qed.

Lemma quiet_inv f pre ev post :
  quiet f (pre ++ ev :: post) → f ev = false.
Proof. intros [_ Hq]%quiet_app. by inversion Hq. Qed.

(** ** Composition of verdicts *)

Lemma kept_refl (r : ExportResult) : kept r r.
Proof. by repeat split. Qed.

Lemma kept_trans (r1 r2 r3 : ExportResult) :
  kept r1 r2 → kept r2 r3 → kept r1 r3.
Proof. unfold kept. intros (?&?&?&?) (?&?&?&?). repeat split; congruence. Qed.

Lemma cancelled_end_app s' evs1 evs2 :
  cancelled_end s' evs2 → cancelled_end s' (evs1 ++ evs2).
Proof. intros [Hl Hm]. split; [by apply last_app_Some | done]. Qed.

Lemma failed_end_app self s' evs1 evs2 :
  failed_end self s' evs2 → failed_end self s' (evs1 ++ evs2).
Proof.
  intros (l & fr & n & c & Hl & Hm). exists l, fr, n, c.
  split; [by apply last_app_Some | done].
Qed.

Lemma verdict_ret self f {A} (a : A) s : verdict self f s (ret a s).
Proof.
  unfold verdict, ret. split; [apply kept_refl|].
  split; [constructor|]. split; [constructor | done].
Qed.

Lemma verdict_bind self f {A B} (m : M Layer World A)
    (k : A → M Layer World B) s :
  verdict self f s (m s) →
  (∀ a s1, verdict self f s1 (k a s1)) →
  verdict self f s (bind m k s).
Proof.
  intros Hm Hk. unfold bind.
  destruct (m s) as [[[a| |e] s1] t1]; [|exact Hm|exact Hm].
  specialize (Hk a s1). destruct (k a s1) as [[o2 s2] t2].
  destruct Hm as (Hk1 & Hw1 & Hq1 & He1).
  destruct Hk as (Hk2 & Hw2 & Ho2).
  split; [by eapply kept_trans|]. split; [by apply quiet_app|].
  destruct o2 as [b| |e].
  - destruct Ho2 as [Hq2 He2]. split; [by apply quiet_app | congruence].
  - destruct Ho2 as [Hl2 Hend]. split; [by apply only_last_app|].
    destruct Hend as [Hc|[Hf|[Hn Hmsg]]].
    + left. by apply cancelled_end_app.
    + right; left. by apply failed_end_app.
    + right; right. split; [by apply quiet_app | done].
  - destruct Ho2 as (Hl2 & Hc & He2). split; [by apply only_last_app|].
    split; [|congruence].
    destruct (last t2) as [ev|] eqn:Hlast; [|done].
    by rewrite (last_app_Some t1 t2 ev).
Qed.

Lemma verdict_for_each self f {A V} (xs : list A)
    (body : A → V → M Layer World V) :
  (∀ x v s, verdict self f s (body x v s)) →
  ∀ v s, verdict self f s (for_each xs body v s).
Proof.
  intros Hbody. induction xs as [|x xs IH]; intros v s.
  - apply verdict_ret.
  - apply verdict_bind; [apply Hbody | intros; apply IH].
Qed.

Lemma verdict_weaken self f g {A} s
    (out : Outcome A * St World * list (Event Layer)) :
  (∀ ev, g ev = false → f ev = false) →
  verdict self g s out → verdict self f s out.
Proof.
  intros Hfg. destruct out as [[o s'] evs]. unfold verdict.
  intros (Hk & Hw & Ho). split; [done|]. split; [done|].
  destruct o as [a| |e].
  - destruct Ho. split; [by eapply quiet_weaken | done].
  - destruct Ho as [Hl Hend]. split; [by eapply quiet_weaken|].
    destruct Hend as [?|[?|[? ?]]]; auto.
    right; right. split; [by eapply quiet_weaken | done].
  - destruct Ho as (Hl & ? & ?). split; [by eapply quiet_weaken | done].
Qed.

End Runs.

(** * The verdict of every part of a run *)

Ltac quiet_list :=
  unfold only_last, quiet; cbn [removelast];
  repeat (constructor; [reflexivity|]); constructor.

Ltac verdict_leaf :=
  unfold verdict; cbn [_result];
  split; [repeat split; reflexivity|];
  split; [quiet_list|];
  split; [quiet_list|];
  first [ reflexivity
        | split; reflexivity
        | left; split; reflexivity
        | right; left; eexists _, _, _, _; split; reflexivity
        | right; right; split; [quiet_list | reflexivity] ].

Section Bodies.
Context {Layer World Fp : Type} `{Countable Fp} `{!Host Layer World Fp}.
Implicit Types (self : Engine) (plan : Plan Layer) (s : St World)
  (evs : list (Event Layer)) (f : Event Layer → bool).

Lemma verdict_call self f (c : Call Layer) s :
  (∀ r, is_write (Ev c r) = false) →
  (∀ a, f (Ev c (Val a)) = false) →
  verdict self f s (call c s).
Proof.
  intros Hw Hf. unfold call.
  destruct (host c (world s)) as [[a|e] w]; unfold verdict; cbn [_result].
  - split; [apply kept_refl|]. split; [by repeat constructor|].
    split; [by repeat constructor | done].
  - split; [apply kept_refl|]. split; [by repeat constructor|].
    split; [constructor|]. split; reflexivity.
Qed.

Lemma verdict_keyframe_body self plan layer name track frame v s :
  verdict self aborting s
    (keyframe_body self plan layer name (path_join (export_path self) name)
       track frame v s).
Proof.
  destruct v as [rv tv].
  destruct (keyframe_body self plan layer name _ track frame (rv, tv) s)
    as [[o s'] evs] eqn:Hrun.
  unfold keyframe_body, _process_frame in Hrun.
  exec Hrun; verdict_leaf.
Qed.

Lemma verdict_static_layer_body self plan layer v s :
  verdict self fatal s (static_layer_body self plan layer v s).
Proof.
  destruct v as [rv n].
  destruct (static_layer_body self plan layer (rv, n) s)
    as [[o s'] evs] eqn:Hrun.
  unfold static_layer_body in Hrun.
  exec Hrun; verdict_leaf.
Qed.

Lemma verdict_modify self f (g : ExportResult → ExportResult) s :
  (∀ r, kept r (g r) ∧ error_message (g r) = error_message r) →
  verdict self f s (modify_result (Layer:=Layer) g s).
Proof.
  intros Hg. unfold verdict, modify_result. cbn [_result].
  destruct (Hg (_result s)) as [Hk He].
  split; [done|]. split; [constructor|]. split; [constructor | done].
Qed.

Lemma verdict_animated_layer_body self plan item rv s :
  verdict self aborting s (animated_layer_body self plan item rv s).
Proof.
  destruct item as [track_no layer]. unfold animated_layer_body.
  apply verdict_bind; [by apply verdict_call|]. intros name s1.
  destruct (make_unique_name _ _) as [layer_name used].
  apply verdict_bind; [by apply verdict_call|]. intros _ s2.
  cbn [add_track].
  apply verdict_bind; [by apply verdict_call|]. intros keyframes s3.
  apply verdict_bind.
  { apply verdict_for_each. intros. apply verdict_keyframe_body. }
  intros [rv' tv'] s4.
  apply verdict_bind; [|intros; apply verdict_ret].
  apply verdict_modify. intros r. by repeat split.
Qed.

Lemma verdict_animated_phase self plan rv s :
  verdict self aborting s (animated_phase self plan rv s).
Proof.
  apply verdict_for_each. intros. apply verdict_animated_layer_body.
Qed.

Lemma verdict_static_phase self plan rv s :
  verdict self fatal s (static_phase self plan rv s).
Proof.
  apply verdict_for_each. intros. apply verdict_static_layer_body.
Qed.

Lemma verdict_prepare self s : verdict self aborting s (prepare self s).
Proof.
  destruct (prepare self s) as [[o s'] evs] eqn:Hrun.
  unfold prepare in Hrun.
  destruct (include_static (options self)),
    (use_full_clip_range (options self));
    exec Hrun; verdict_leaf.
Qed.

Lemma verdict_before_write self s :
  verdict self fatal s (before_write self s).
Proof.
  unfold before_write.
  apply verdict_bind.
  { eapply verdict_weaken; [apply aborting_fatal | apply verdict_prepare]. }
  intros [plan rv] s1. apply verdict_bind.
  { eapply verdict_weaken;
      [apply aborting_fatal | apply verdict_animated_phase]. }
  intros rv1 s2. apply verdict_bind; [apply verdict_static_phase|].
  intros v s3. apply verdict_ret.
Qed.

Lemma run_export_split self s :
  _run_export self s =
    bind (before_write self) (λ pv, finish self pv.1 pv.2) s.
Proof.
  unfold _run_export, before_write, bind, ret.
  destruct (prepare self s) as [[[[plan rv]| |e] s1] t1]; [|done|done].
  destruct (animated_phase self plan rv s1) as [[[rv1| |e] s2] t2];
    [|done|done].
  destruct (static_phase self plan rv1 s2) as [[[v| |e] s3] t3];
    [|by rewrite app_assoc | by rewrite app_assoc].
  cbn [fst snd]. destruct (finish self plan v s3) as [[o s4] t4].
  by rewrite !app_nil_r, !app_assoc.
Qed.

End Bodies.

(** * The shape of a whole run *)

Section Whole.
Context {Layer World Fp : Type} `{Countable Fp} `{!Host Layer World Fp}.
Implicit Types (self : Engine) (plan : Plan Layer) (s : St World)
  (evs : list (Event Layer)) (f : Event Layer → bool).

Lemma finish_inv self plan v s o s' evs :
  finish self plan v s = (o, s', evs) →
  ∃ path r,
    evs = [Ev (WriteXdtsFile (xdts_doc v.1) path) r] ∧
    match r with
    | Val _ =>
        o = Normal tt ∧
        success (_result s') = true ∧
        output_path (_result s') = path ∧
        track_count (_result s') = Py.len (animated_layers plan) ∧
        unique_frames_exported (_result s') = total_unique v.1 + v.2 ∧
        frame_count (_result s') = frame_count (_result s) ∧
        error_message (_result s') = error_message (_result s)
    | Exc e => o = Raised e ∧ _result s' = _result s
    end.
Proof.
  destruct v as [rv n]. unfold finish. intros Hrun. exec Hrun.
  - eexists _, (Val a). split; [reflexivity|]. by repeat split.
  - eexists _, (Exc e). split; [reflexivity|]. by repeat split.
Qed.

(** A run of [_run_export] either ends before the document is written, or
    reaches the writing of the document, which is its last interaction. *)
Lemma run_export_inv self s o s' evs :
  _run_export self s = (o, s', evs) →
  (o ≠ Normal tt ∧ verdict self fatal s (o, s', evs)) ∨
  (∃ plan v s1 t doc path r,
     before_write self s = (Normal (plan, v), s1, t) ∧
     kept (_result s) (_result s1) ∧
     error_message (_result s1) = error_message (_result s) ∧
     quiet is_write t ∧ quiet fatal t ∧
     evs = t ++ [Ev (WriteXdtsFile doc path) r] ∧
     match r with
     | Val _ =>
         o = Normal tt ∧
         success (_result s') = true ∧
         output_path (_result s') = path ∧
         track_count (_result s') = Py.len (animated_layers plan) ∧
         frame_count (_result s') = frame_count (_result s1) ∧
         error_message (_result s') = error_message (_result s)
     | Exc e => o = Raised e ∧ _result s' = _result s1
     end).
Proof.
  rewrite run_export_split. intros Hrun.
  pose proof (verdict_before_write self s) as Hv.
  apply bind_inv in Hrun
    as [(pv & s1 & t & t2 & Hpre & Hfin & ->)|[[Hpre ->]|(e & Hpre & ->)]].
  - right. rewrite Hpre in Hv. destruct Hv as (Hk & Hw & Hq & He).
    apply finish_inv in Hfin as (path & r & -> & Hr).
    destruct pv as [plan v]. exists plan, v, s1, t, (xdts_doc v.1), path, r.
    repeat (split; [done|]). destruct r as [a|e]; [|done].
    destruct Hr as (? & ? & ? & ? & ? & ? & ?). repeat (split; [done|]).
    congruence.
  - left. rewrite Hpre in Hv. split; [done|]. exact Hv.
  - left. rewrite Hpre in Hv. split; [done|]. exact Hv.
Qed.

End Whole.

(** * What a track holds *)

Tactic Notation "bind_normal" hyp(H) "as" simple_intropattern(a)
    simple_intropattern(s1) simple_intropattern(t1)
    simple_intropattern(Hc) :=
  apply bind_inv in H as [(a & s1 & t1 & ? & Hc & H & ->)|[[_ ?]|(? & _ & ?)]];
    [|discriminate|discriminate].

Section Tracks.
Context {Layer World Fp : Type} `{Countable Fp} `{!Host Layer World Fp}.
Implicit Types (self : Engine) (plan : Plan Layer) (s : St World)
  (evs : list (Event Layer)) (f : Event Layer → bool).

(** What one turn of the loop over the keyframes does to the loop variables
    when it runs to its end. *)
Lemma keyframe_body_normal self plan layer name folder track frame
    rv tv s rv' tv' s' evs :
  keyframe_body self plan layer name folder track frame (rv, tv) s
    = (Normal (rv', tv'), s', evs) →
  used_layer_names rv' = used_layer_names rv ∧
  processed rv' = processed rv + 1 ∧
  _result s' = _result s ∧
  count_polls evs = (if on_cancelled self then 1 else 0)%nat ∧
  omap keyframes_of evs = [] ∧
  ∃ cell,
    xdts_doc rv' =
      add_frame_to_track track (frame - start_frame plan) cell (xdts_doc rv) ∧
    ((stops_seen evs = [true] ∧ pixels_seen evs = [] ∧
      cell = SYMBOL_NULL_CELL ∧ hash_to_label tv' = hash_to_label tv ∧
      last_was_stop_frame tv' = true) ∨
     (∃ data new,
        stops_seen evs = [false] ∧ pixels_seen evs = [data] ∧
        lookup_or_assign (compute_content_hash data) (hash_to_label tv)
          = (new, cell, hash_to_label tv') ∧
        last_was_stop_frame tv' = false)).
Proof.
  unfold keyframe_body, _process_frame. intros Hrun.
  exec Hrun; (repeat (split; [reflexivity|]));
    (eexists; split; [reflexivity|]);
    first [ left; by repeat split
          | right; eexists _, _; by repeat split ].
Qed.

(** ** The exposure sheet *)

Lemma add_frame_to_track_last frame cell doc pre tr :
  doc_tracks doc = pre ++ [tr] →
  doc_tracks (add_frame_to_track (length pre) frame cell doc) =
    pre ++ [append_entry frame cell tr].
Proof.
  intros Hd. unfold add_frame_to_track. cbn [doc_tracks]. rewrite Hd.
  replace (length pre) with (length pre + 0)%nat by lia.
  by rewrite alter_app_r.
Qed.

Lemma observations_app (evs1 evs2 : list (Event Layer)) :
  stops_seen (evs1 ++ evs2) = stops_seen evs1 ++ stops_seen evs2 ∧
  pixels_seen (evs1 ++ evs2) = pixels_seen evs1 ++ pixels_seen evs2 ∧
  count_polls (evs1 ++ evs2) = (count_polls evs1 + count_polls evs2)%nat.
Proof.
  unfold stops_seen, pixels_seen, count_polls.
  by rewrite !omap_app, filter_app, length_app.
Qed.

Lemma stops_seen_skip (ev : Event Layer) evs :
  stop_of ev = None → stops_seen (ev :: evs) = stops_seen evs.
Proof. unfold stops_seen. cbn. by intros ->. Qed.

Lemma pixels_seen_skip (ev : Event Layer) evs :
  pixels_of ev = None → pixels_seen (ev :: evs) = pixels_seen evs.
Proof. unfold pixels_seen. cbn. by intros ->. Qed.

Lemma count_polls_skip (ev : Event Layer) evs :
  is_poll ev = false → count_polls (ev :: evs) = count_polls evs.
Proof.
  unfold count_polls. intros Hp. rewrite filter_cons.
  rewrite decide_False; [done | congruence].
Qed.

Lemma count_polls_poll (ev : Event Layer) evs :
  is_poll ev = true → count_polls (ev :: evs) = S (count_polls evs).
Proof.
  unfold count_polls. intros Hp. rewrite filter_cons.
  by rewrite decide_True.
Qed.

Lemma keyframes_seen_skip (ev : Event Layer) evs :
  keyframes_of ev = None → omap keyframes_of (ev :: evs) = omap keyframes_of evs.
Proof. cbn. by intros ->. Qed.

Lemma not_stops_true (stops : list bool) :
  filter (λ stop, stop = false) (true :: stops) =
  filter (λ stop, stop = false) stops.
Proof. reflexivity. Qed.

Lemma not_stops_false (stops : list bool) :
  filter (λ stop, stop = false) (false :: stops) =
  false :: filter (λ stop, stop = false) stops.
Proof. reflexivity. Qed.

Lemma call_normal (c : Call Layer) s a s' evs :
  call c s = (Normal a, s', evs) →
  evs = [Ev c (Val a)] ∧ _result s' = _result s.
Proof.
  unfold call. destruct (host c (world s)) as [[b|e] w]; [|done].
  by intros [= <- <- <-].
Qed.

(** The loop over the keyframes of a layer, when it runs to its end: one
    entry per keyframe is appended to the track, its cell given by the
    answers of the stop detector and the content hashes. *)
Lemma keyframes_loop_normal self plan layer name folder pre keyframes :
  ∀ rv tv s rv' tv' s' evs tr,
  for_each keyframes
    (keyframe_body self plan layer name folder (length pre)) (rv, tv) s
    = (Normal (rv', tv'), s', evs) →
  doc_tracks (xdts_doc rv) = pre ++ [tr] →
  doc_tracks (xdts_doc rv') =
    pre ++ [{| track_name := track_name tr; track_index := track_index tr;
               track_entries :=
                 track_entries tr ++
                 zip ((λ frame, frame - start_frame plan) <$> keyframes)
                   (track_cells (stops_seen evs)
                      (compute_content_hash <$> pixels_seen evs)
                      (hash_to_label tv)) |}] ∧
  length (stops_seen evs) = length keyframes ∧
  last_was_stop_frame tv' =
    default (last_was_stop_frame tv) (last (stops_seen evs)) ∧
  count_polls evs =
    (if on_cancelled self then length keyframes else 0%nat) ∧
  omap keyframes_of evs = [] ∧
  used_layer_names rv' = used_layer_names rv ∧
  _result s' = _result s ∧
  length (pixels_seen evs) =
    length (filter (λ stop, stop = false) (stops_seen evs)).
Proof.
  induction keyframes as [|frame keyframes IH];
    intros rv tv s rv' tv' s' evs tr Hrun Hdoc.
  - injection Hrun as <- <- <- <-. cbn. rewrite app_nil_r.
    destruct tr. by destruct (on_cancelled self).
  - rewrite for_each_cons in Hrun.
    destruct (keyframe_body _ _ _ _ _ _ _ _ _) as [[[[rv1 tv1]| |e] s1] t1]
      eqn:Hbody; [|done|done].
    destruct (for_each _ _ _ _) as [[o2 s2] t2] eqn:Hloop.
    injection Hrun as -> <- <-.
    apply keyframe_body_normal in Hbody
      as (Hused & _ & Hres & Hpolls & Hkf & cell & Hdoc1 & Hcase).
    pose proof (add_frame_to_track_last (frame - start_frame plan) cell
                  _ _ _ Hdoc) as Hdoc1'.
    rewrite <- Hdoc1 in Hdoc1'.
    specialize (IH _ _ _ _ _ _ _ _ Hloop Hdoc1')
      as (Hdoc2 & Hlen & Hlast & Hpolls2 & Hkf2 & Hused2 & Hres2 & Hpx2).
    destruct (observations_app t1 t2) as (-> & -> & ->).
    rewrite omap_app, Hkf, Hkf2, Hdoc2, Hpolls, Hpolls2, Hlast.
    cbn [append_entry track_name track_index track_entries].
    rewrite <- (assoc_L (++)). cbn [fmap list_fmap].
    destruct Hcase as [(Hst & Hpx & -> & Hm & Hl)
                      |(data & new & Hst & Hpx & Hlook & Hl)];
      rewrite Hst, Hpx, length_app, Hlen;
      cbn [app fmap list_fmap track_cells length]; rewrite ?Hlook, Hl;
      rewrite ?not_stops_true, ?not_stops_false; cbn [length]; rewrite Hpx2.
    + rewrite Hm. repeat split; try congruence.
      * rewrite last_cons. by destruct (last (stops_seen t2)).
      * by destruct (on_cancelled self).
    + repeat split; try congruence.
      * rewrite last_cons. by destruct (last (stops_seen t2)).
      * by destruct (on_cancelled self).
Qed.

(** The processing of one animated layer, when it runs to its end: the
    track appended to the exposure sheet. *)
Lemma animated_layer_body_normal self plan track_no layer rv s rv' s' evs :
  animated_layer_body self plan (track_no, layer) rv s = (Normal rv', s', evs) →
  ∃ name keyframes,
    omap keyframes_of evs = [keyframes] ∧
    doc_tracks (xdts_doc rv') =
      doc_tracks (xdts_doc rv) ++
      [{| track_name := name; track_index := track_no;
          track_entries :=
            zip ((λ frame, frame - start_frame plan) <$> keyframes)
              (track_cells (stops_seen evs)
                 (compute_content_hash <$> pixels_seen evs) ∅)
            ++ (if default false (last (stops_seen evs)) then []
                else [(duration plan, SYMBOL_NULL_CELL)]) |}] ∧
    length (stops_seen evs) = length keyframes ∧
    count_polls evs =
      (if on_cancelled self then length keyframes else 0%nat) ∧
    frame_count (_result s') = frame_count (_result s) + Py.len keyframes ∧
    length (pixels_seen evs) =
      length (filter (λ stop, stop = false) (stops_seen evs)).
Proof.
  unfold animated_layer_body. intros Hrun.
  bind_normal Hrun as raw s1 t1 Hc1. apply call_normal in Hc1 as [-> Hr1].
  destruct (make_unique_name _ _) as [layer_name used].
  bind_normal Hrun as u s2 t2 Hc2. apply call_normal in Hc2 as [-> Hr2].
  cbn [add_track] in Hrun.
  bind_normal Hrun as keyframes s3 t3 Hc3.
  apply call_normal in Hc3 as [-> Hr3].
  bind_normal Hrun as [rv1 tv1] s4 t4 Hloop.
  eapply keyframes_loop_normal in Hloop; [|reflexivity].
  destruct Hloop as (Hdoc & Hlen & Hlast & Hpolls & Hkf & _ & Hr4 & Hpx).
  bind_normal Hrun as u' s5 t5 Hc5. unfold modify_result in Hc5.
  injection Hc5 as _ <- <-. injection Hrun as <- <- <-.
  exists layer_name, keyframes.
  rewrite !app_nil_r. cbn [app].
  rewrite !stops_seen_skip, !pixels_seen_skip, !count_polls_skip
    by reflexivity.
  rewrite !keyframes_seen_skip by reflexivity. cbn [omap list_omap keyframes_of
    ev_call ev_res]. rewrite Hkf.
  split; [reflexivity|]. cbn [_result frame_count set_frame_count].
  split; [|split; [done|split; [done|split; [congruence|done]]]].
  cbn [last_was_stop_frame] in Hlast. rewrite Hlast.
  destruct (default false (last (stops_seen t4))).
  - rewrite Hdoc. by rewrite app_nil_r.
  - unfold add_track_terminator. cbn [xdts_doc].
    erewrite add_frame_to_track_last by exact Hdoc.
    unfold append_entry. reflexivity.
Qed.

End Tracks.

(** * The dictionary of content hashes *)

Section Dedup.
Context {Fp : Type} `{Countable Fp}.
Implicit Types (m : gmap Fp string) (h : Fp) (hashes : list Fp).

Lemma lookup_or_assign_cases h m :
  (∃ label, m !! h = Some label ∧
            lookup_or_assign h m = (None, label, m)) ∨
  (m !! h = None ∧
   lookup_or_assign h m =
     (Some (Z.of_nat (size m) + 1), Py.str (Z.of_nat (size m) + 1),
      <[h := Py.str (Z.of_nat (size m) + 1)]> m)).
Proof.
  unfold lookup_or_assign. destruct (m !! h) as [label|]; [left|right]; eauto.
Qed.

Lemma lookup_or_assign_records h m new label m' :
  lookup_or_assign h m = (new, label, m') →
  m' !! h = Some label ∧ m ⊆ m' ∧ dom m' = {[h]} ∪ dom m.
Proof.
  destruct (lookup_or_assign_cases h m) as [(l & Hl & ->)|[Hl ->]];
    intros Heq; injection Heq as <- <- <-.
  - split; [done|]. split; [done|].
    apply elem_of_dom_2 in Hl. set_solver.
  - split; [apply lookup_insert_eq|].
    split; [by apply insert_subseteq | apply dom_insert_L].
Qed.

Lemma lookup_or_assign_well_numbered h m new label m' :
  well_numbered m →
  lookup_or_assign h m = (new, label, m') →
  well_numbered m'.
Proof.
  intros [Hnum Hinj].
  destruct (lookup_or_assign_cases h m) as [(l & Hl & ->)|[Hl ->]];
    intros Heq; injection Heq as <- <- <-; [done|].
  replace (Z.of_nat (size m) + 1) with (Z.of_nat (S (size m))) by lia.
  split.
  - intros h' l'. rewrite map_size_insert_None by done.
    rewrite lookup_insert. case_decide as Hh.
    + intros [= <-]. exists (S (size m)). split; [done | lia].
    + intros (k & -> & Hk)%Hnum. exists k. split; [done | lia].
  - intros h1 h2 l'. rewrite !lookup_insert.
    repeat case_decide; subst; try done.
    + intros [= <-] (k & Hk & Hle)%Hnum.
      apply str_inj in Hk. lia.
    + intros (k & Hk & Hle)%Hnum [= <-].
      apply str_inj in Hk. lia.
    + apply Hinj.
Qed.

Lemma well_numbered_empty : well_numbered (∅ : gmap Fp string).
Proof. split; intros *; by rewrite lookup_empty. Qed.

Lemma cache_after_well_numbered hashes :
  ∀ m, well_numbered m → well_numbered (cache_after hashes m).
Proof.
  induction hashes as [|h hashes IH]; intros m Hm; [done|]. cbn.
  destruct (lookup_or_assign h m) as [[new label] m'] eqn:Hl.
  eauto using lookup_or_assign_well_numbered.
Qed.

Lemma cache_after_mono hashes : ∀ m, m ⊆ cache_after hashes m.
Proof.
  induction hashes as [|h hashes IH]; intros m; [done|]. cbn.
  destruct (lookup_or_assign h m) as [[new label] m'] eqn:Hl.
  apply lookup_or_assign_records in Hl as (_ & Hsub & _).
  etrans; [exact Hsub | apply IH].
Qed.

Lemma cache_after_dom hashes :
  ∀ m, dom (cache_after hashes m) = dom m ∪ list_to_set hashes.
Proof.
  induction hashes as [|h hashes IH]; intros m; cbn; [set_solver|].
  destruct (lookup_or_assign h m) as [[new label] m'] eqn:Hl.
  apply lookup_or_assign_records in Hl as (_ & _ & Hdom).
  rewrite IH, Hdom. set_solver.
Qed.

Lemma assign_labels_length hashes :
  ∀ m, length (assign_labels hashes m) = length hashes.
Proof.
  induction hashes as [|h hashes IH]; intros m; cbn; [done|].
  destruct (lookup_or_assign h m) as [[new label] m']. cbn. by rewrite IH.
Qed.

Lemma assign_labels_app hashes1 hashes2 :
  ∀ m, assign_labels (hashes1 ++ hashes2) m =
       assign_labels hashes1 m ++
       assign_labels hashes2 (cache_after hashes1 m).
Proof.
  induction hashes1 as [|h hashes1 IH]; intros m; cbn; [done|].
  destruct (lookup_or_assign h m) as [[new label] m']. cbn. by rewrite IH.
Qed.

(** Every label handed out is the one recorded in the final dictionary. *)
Lemma assign_labels_recorded hashes :
  ∀ m i h label,
    hashes !! i = Some h →
    assign_labels hashes m !! i = Some label →
    cache_after hashes m !! h = Some label.
Proof.
  induction hashes as [|h0 hashes IH]; intros m i h label; [done|]. cbn.
  destruct (lookup_or_assign h0 m) as [[new l0] m'] eqn:Hl.
  destruct i as [|i]; cbn.
  - intros [= ->] [= ->].
    apply lookup_or_assign_records in Hl as (Hrec & _ & _).
    eapply lookup_weaken; [exact Hrec | apply cache_after_mono].
  - apply IH.
Qed.

End Dedup.

(** * The cells of a track *)

Section TrackCells.
Context {Fp : Type} `{Countable Fp}.
Implicit Types (m : gmap Fp string) (h : Fp) (hashes : list Fp).

Lemma well_numbered_not_null m h label :
  well_numbered m → m !! h = Some label → label ≠ SYMBOL_NULL_CELL.
Proof. intros [Hnum _] (k & -> & _)%Hnum. apply str_not_null. Qed.

(** The cells of a track: as many as keyframes, and without the null cells
    they are the labels of the content hashes in the order seen. *)
Lemma track_cells_labels (stops : list bool) :
  ∀ hashes m,
    length hashes = length (filter (λ stop, stop = false) stops) →
    well_numbered m →
    length (track_cells stops hashes m) = length stops ∧
    filter (λ cell, cell ≠ SYMBOL_NULL_CELL) (track_cells stops hashes m)
      = assign_labels hashes m.
Proof.
  induction stops as [|[|] stops IH]; intros hashes m Hlen Hm.
  - by destruct hashes.
  - rewrite not_stops_true in Hlen. destruct (IH _ _ Hlen Hm) as [Hl Hf].
    cbn [track_cells length]. rewrite filter_cons, decide_False by auto.
    by rewrite Hl, Hf.
  - rewrite not_stops_false in Hlen. destruct hashes as [|h hashes]; [done|].
    cbn in Hlen. cbn [track_cells assign_labels].
    destruct (lookup_or_assign h m) as [[new label] m'] eqn:Hlook.
    pose proof (lookup_or_assign_well_numbered _ _ _ _ _ Hm Hlook) as Hm'.
    destruct (IH hashes m') as [Hl Hf]; [lia | done |].
    cbn [length]. rewrite filter_cons, decide_True, Hl, Hf; [done|].
    apply lookup_or_assign_records in Hlook as (Hrec & _ & _).
    by eapply well_numbered_not_null.
Qed.

Lemma track_cells_last_stop (stops : list bool) :
  ∀ hashes m,
    length (track_cells stops hashes m) = length stops →
    last stops = Some true →
    last (track_cells stops hashes m) = Some SYMBOL_NULL_CELL.
Proof.
  induction stops as [|stop stops IH]; intros hashes m Hlen Hlast; [done|].
  destruct stops as [|stop' stops].
  - cbn in Hlast. by injection Hlast as ->.
  - rewrite last_cons_cons in Hlast.
    assert (Hgen : ∀ (c : string) cells,
               length cells = length (stop' :: stops) →
               last (c :: cells) = last cells).
    { intros c [|c' cells] Hc; [done | apply last_cons_cons]. }
    destruct stop; cbn [track_cells] in *.
    + cbn [length] in Hlen. rewrite Hgen by (cbn [length]; lia).
      apply IH; [cbn [length]; lia | done].
    + destruct hashes as [|h hashes]; [done|].
      destruct (lookup_or_assign h m) as [[new label] m'].
      cbn [length] in Hlen. rewrite Hgen by (cbn [length]; lia).
      apply IH; [cbn [length]; lia | done].
Qed.

End TrackCells.

Lemma last_zip {A B} (l1 : list A) : ∀ (l2 : list B) a b,
  length l1 = length l2 → last l1 = Some a → last l2 = Some b →
  last (zip l1 l2) = Some (a, b).
Proof.
  induction l1 as [|x l1 IH]; intros [|y l2] a b Hlen H1 H2; try done.
  destruct l1 as [|x' l1], l2 as [|y' l2]; try done.
  - cbn in *. congruence.
  - rewrite last_cons_cons in H1. rewrite last_cons_cons in H2.
    change (zip (x :: x' :: l1) (y :: y' :: l2))
      with ((x, y) :: (x', y') :: zip l1 l2).
    rewrite last_cons_cons. apply (IH (y' :: l2)); [cbn in *; lia | done..].
Qed.

(** * Tracks: deduplication, termination, stop frames *)

Section Claims.
Context {Layer World Fp : Type} `{Countable Fp} `{!Host Layer World Fp}.
Implicit Types (self : Engine) (plan : Plan Layer) (s : St World)
  (evs : list (Event Layer)) (f : Event Layer → bool).

(** C1 (deduplication within one track).  Whatever content hashes are fed,
    one after the other, to a dictionary that starts empty: there is one label
    per hash, two frames get the same label if and only if their hashes are
    equal, and a hash seen for the first time, after [k] distinct ones, gets
    the label [str(k + 1)].  The dictionary is created anew for every animated
    layer: in every run of the processing of one layer that reaches its end,
    the cells of the appended track other than the null cells are the labels
    of the hashes of the pixel data read for that layer, in order, computed
    from the empty dictionary, whatever the tracks before it hold. *)
Theorem dedup_labels_per_track :
  (∀ hashes : list Fp,
     let labels := assign_labels hashes ∅ in
     length labels = length hashes ∧
     (∀ i j hi hj li lj,
        hashes !! i = Some hi → hashes !! j = Some hj →
        labels !! i = Some li → labels !! j = Some lj →
        (li = lj ↔ hi = hj)) ∧
     (∀ i h,
        hashes !! i = Some h → h ∉ take i hashes →
        labels !! i =
          Some (Py.str
                  (Z.of_nat (size (list_to_set (take i hashes) : gset Fp))
                   + 1)))) ∧
  (∀ self plan track_no layer rv s rv' s' evs,
     animated_layer_body self plan (track_no, layer) rv s
       = (Normal rv', s', evs) →
     ∃ name entries,
       doc_tracks (xdts_doc rv') =
         doc_tracks (xdts_doc rv) ++
         [{| track_name := name; track_index := track_no;
             track_entries := entries |}] ∧
       filter (λ cell, cell ≠ SYMBOL_NULL_CELL) entries.*2 =
         assign_labels (compute_content_hash <$> pixels_seen evs) ∅).
Proof.
  split.
  - intros hashes labels. split; [apply assign_labels_length|]. split.
    + intros i j hi hj li lj Hi Hj Hli Hlj.
      pose proof (assign_labels_recorded _ _ _ _ _ Hi Hli) as Hci.
      pose proof (assign_labels_recorded _ _ _ _ _ Hj Hlj) as Hcj.
      destruct (cache_after_well_numbered hashes ∅ well_numbered_empty)
        as [_ Hinj].
      split; [intros <-; eauto | intros <-; congruence].
    + intros i h Hi Hnew. subst labels.
      rewrite <- (take_drop_middle hashes i h Hi) at 1.
      rewrite assign_labels_app, lookup_app_r;
        rewrite assign_labels_length, length_take_le;
        try (apply lookup_lt_Some in Hi; lia).
      rewrite Nat.sub_diag. cbn [assign_labels].
      destruct (lookup_or_assign_cases h (cache_after (take i hashes) ∅))
        as [(l & Hl & _)|[Hl ->]].
      * apply elem_of_dom_2 in Hl. rewrite cache_after_dom in Hl.
        set_solver.
      * cbn. rewrite <- size_dom, cache_after_dom, dom_empty_L.
        by rewrite (left_id_L ∅ (∪)).
  - intros self plan track_no layer rv s rv' s' evs Hrun.
    apply animated_layer_body_normal in Hrun
      as (name & keyframes & _ & Hdoc & Hlen & _ & _ & Hpx).
    eexists name, _. split; [exact Hdoc|].
    destruct (track_cells_labels (stops_seen evs)
                (compute_content_hash <$> pixels_seen evs) ∅)
      as [Hcells Hlabels]; [by rewrite length_fmap | apply well_numbered_empty |].
    rewrite fmap_app, snd_zip
      by (rewrite Hcells, length_fmap; lia).
    rewrite filter_app, Hlabels.
    destruct (default false (last (stops_seen evs))); cbn.
    + by rewrite app_nil_r.
    + rewrite decide_False by (intros Hn; by apply Hn).
      by rewrite app_nil_r.
Qed.

(** C2 (termination of a track).  When the processing of an animated layer
    reaches its end, the appended track holds one entry per keyframe, at the
    offsets [frame - start_frame], followed by exactly one null cell at offset
    [duration], unless the stop detector reported the last keyframe blank:
    then the track ends with the null cell of that keyframe and nothing is
    appended after it.  With every keyframe inside the frame range, no entry
    of a keyframe lies at offset [duration]. *)
Theorem track_termination self plan track_no layer rv s rv' s' evs :
  animated_layer_body self plan (track_no, layer) rv s
    = (Normal rv', s', evs) →
  ∃ name keyframes body,
    omap keyframes_of evs = [keyframes] ∧
    length (stops_seen evs) = length keyframes ∧
    body.*1 = (λ frame, frame - start_frame plan) <$> keyframes ∧
    doc_tracks (xdts_doc rv') =
      doc_tracks (xdts_doc rv) ++
      [{| track_name := name; track_index := track_no;
          track_entries :=
            body ++
            (if default false (last (stops_seen evs)) then []
             else [(duration plan, SYMBOL_NULL_CELL)]) |}] ∧
    (last (stops_seen evs) = Some true →
       ∃ frame, last keyframes = Some frame ∧
                last body = Some (frame - start_frame plan, SYMBOL_NULL_CELL)) ∧
    ((∀ frame, frame ∈ keyframes → frame - start_frame plan < duration plan) →
       Forall (λ entry, entry.1 ≠ duration plan) body).
Proof.
  intros Hrun. apply animated_layer_body_normal in Hrun
    as (name & keyframes & Hkf & Hdoc & Hlen & _ & _ & Hpx).
  destruct (track_cells_labels (stops_seen evs)
              (compute_content_hash <$> pixels_seen evs) ∅)
    as [Hcells _]; [by rewrite length_fmap | apply well_numbered_empty |].
  set (cells := track_cells _ _ _) in *.
  set (offsets := (λ frame, frame - start_frame plan) <$> keyframes) in *.
  assert (Hfst : (zip offsets cells).*1 = offsets).
  { apply fst_zip. subst offsets. rewrite length_fmap. lia. }
  exists name, keyframes, (zip offsets cells).
  repeat (split; [done|]). split.
  - intros Hstop.
    destruct (last keyframes) as [frame|] eqn:Hlast.
    + exists frame. split; [done|]. apply last_zip.
      * subst offsets. rewrite length_fmap. lia.
      * subst offsets. by rewrite fmap_last, Hlast.
      * by apply track_cells_last_stop.
    + apply last_None in Hlast. subst keyframes.
      destruct (stops_seen evs); done.
  - intros Hrange. apply Forall_forall. intros [offset cell] Hin Heq.
    cbn in Heq. subst offset.
    assert (Hoff : duration plan ∈ offsets).
    { rewrite <- Hfst. apply list_elem_of_fmap. by exists (duration plan, cell). }
    subst offsets. apply list_elem_of_fmap in Hoff as (frame & Hd & Hfr).
    specialize (Hrange frame Hfr). lia.
Qed.

(** C3, as amended.  A layer whose keyframe sequence is empty is processed to
    its end and gets a track with exactly one entry: the null cell at offset
    [duration]. *)
Theorem empty_track_terminator self plan track_no layer rv s o s' evs :
  animated_layer_body self plan (track_no, layer) rv s = (o, s', evs) →
  omap keyframes_of evs = [[]] →
  ∃ rv' name,
    o = Normal rv' ∧
    doc_tracks (xdts_doc rv') =
      doc_tracks (xdts_doc rv) ++
      [{| track_name := name; track_index := track_no;
          track_entries := [(duration plan, SYMBOL_NULL_CELL)] |}].
Proof.
  unfold animated_layer_body, add_track. intros Hrun Hkf.
  exec_open Hrun;
    try (injection Hrun as <- <- <-; discriminate Hkf).
  match type of Hrun with
  | context [for_each ?ks _ _ _] => destruct ks as [|frame keyframes]
  end.
  - cbn [for_each] in Hrun. exec Hrun. eexists _, _. split; [reflexivity|].
    cbn [xdts_doc last_was_stop_frame]. unfold add_track_terminator.
    erewrite add_frame_to_track_last by reflexivity. reflexivity.
  - destruct (for_each _ _ _ _) as [[[[rv1 tv1]| |e] s1] t1];
      injection Hrun as <- <- <-; discriminate Hkf.
Qed.

(** C4 (stop frames).  In a turn of the loop over the keyframes in which the
    stop detector reports the layer blank, the entry
    [(frame - start_frame, SYMBOL_NULL_CELL)] is appended to the track, the
    dictionary of content hashes, the cell count and the count of unique
    images are left as they were, no pixel data is read, no image is exported
    and the result is untouched; the turn ends normally, so the loop goes on
    with the keyframes that remain. *)
Theorem stop_frame_entry self plan layer name folder track frame rv tv
    s o s' evs :
  keyframe_body self plan layer name folder track frame (rv, tv) s
    = (o, s', evs) →
  stops_seen evs = [true] →
  ∃ rv',
    let tv' := {| hash_to_label := hash_to_label tv;
                  cell_count := cell_count tv;
                  last_was_stop_frame := true |} in
    o = Normal (rv', tv') ∧
    xdts_doc rv' =
      add_frame_to_track track (frame - start_frame plan) SYMBOL_NULL_CELL
        (xdts_doc rv) ∧
    (∀ pre tr,
       doc_tracks (xdts_doc rv) = pre ++ [tr] → track = length pre →
       doc_tracks (xdts_doc rv') =
         pre ++ [{| track_name := track_name tr;
                    track_index := track_index tr;
                    track_entries :=
                      track_entries tr ++
                      [(frame - start_frame plan, SYMBOL_NULL_CELL)] |}]) ∧
    total_unique rv' = total_unique rv ∧
    quiet is_pixels evs ∧ quiet is_export evs ∧
    _result s' = _result s ∧
    (∀ rest,
       for_each (frame :: rest)
         (keyframe_body self plan layer name folder track) (rv, tv) s =
       let '(o2, s2, t2) :=
         for_each rest (keyframe_body self plan layer name folder track)
           (rv', tv') s' in
       (o2, s2, evs ++ t2)).
Proof.
  intros Hrun Hstop. pose proof Hrun as Hbody.
  unfold keyframe_body, _process_frame in Hrun.
  exec Hrun; try discriminate Hstop;
    (eexists; split; [reflexivity|]; split; [reflexivity|];
     split; [intros pre tr Hdoc ->; by apply add_frame_to_track_last|];
     split; [reflexivity|];
     split; [quiet_list|]; split; [quiet_list|]; split; [reflexivity|];
     intros rest; rewrite for_each_cons, Hbody; reflexivity).
Qed.

End Claims.

(** * Counting the cancellation polls *)

Section Counting.
Context {Layer World Fp : Type} `{Countable Fp} `{!Host Layer World Fp}.
Implicit Types (self : Engine) (plan : Plan Layer) (s : St World)
  (evs : list (Event Layer)) (f : Event Layer → bool).

Lemma keyframe_body_polls self plan layer name folder track frame v s o s' evs :
  keyframe_body self plan layer name folder track frame v s = (o, s', evs) →
  count_polls evs = (if on_cancelled self then 1 else 0)%nat ∧
  (on_cancelled self = true → ∃ r rest, evs = Ev OnCancelled r :: rest).
Proof.
  destruct v as [rv tv]. unfold keyframe_body, _process_frame. intros Hrun.
  exec Hrun; (split; [reflexivity|]); (discriminate || eauto).
Qed.

Lemma static_layer_body_polls self plan layer v s o s' evs :
  static_layer_body self plan layer v s = (o, s', evs) →
  count_polls evs = (if on_cancelled self then 1 else 0)%nat ∧
  (on_cancelled self = true → ∃ r rest, evs = Ev OnCancelled r :: rest).
Proof.
  destruct v as [rv n]. unfold static_layer_body. intros Hrun.
  exec Hrun; (split; [reflexivity|]); (discriminate || eauto).
Qed.

Lemma static_layer_body_normal self plan layer rv n s v' s' evs :
  static_layer_body self plan layer (rv, n) s = (Normal v', s', evs) →
  _result s' = _result s.
Proof. unfold static_layer_body. intros Hrun. exec Hrun; reflexivity. Qed.

Lemma prepare_polls self s o s' evs :
  prepare self s = (o, s', evs) → count_polls evs = 0%nat.
Proof.
  unfold prepare. intros Hrun.
  destruct (include_static (options self)),
    (use_full_clip_range (options self));
    exec Hrun; reflexivity.
Qed.

Lemma prepare_normal self s plan rv s' evs :
  prepare self s = (Normal (plan, rv), s', evs) →
  _result s' = _result s ∧ existsb has_layers evs = true ∧
  duration plan = end_frame plan - start_frame plan + 1.
Proof.
  unfold prepare. intros Hrun.
  destruct (include_static (options self)),
    (use_full_clip_range (options self));
    exec Hrun; by repeat split.
Qed.

Lemma static_phase_normal self plan :
  ∀ layers v s v' s' evs,
    for_each layers (static_layer_body self plan) v s = (Normal v', s', evs) →
    _result s' = _result s ∧
    count_polls evs = (if on_cancelled self then length layers else 0%nat).
Proof.
  induction layers as [|layer layers IH]; intros v s v' s' evs Hrun.
  - injection Hrun as <- <- <-. by destruct (on_cancelled self).
  - rewrite for_each_cons in Hrun.
    destruct (static_layer_body _ _ _ _ _) as [[[v1| |e] s1] t1] eqn:Hbody;
      [|done|done].
    destruct (for_each _ _ _ _) as [[o2 s2] t2] eqn:Hloop.
    injection Hrun as -> <- <-.
    destruct (static_layer_body_polls _ _ _ _ _ _ _ _ Hbody) as [Hp _].
    destruct v as [rv n].
    apply static_layer_body_normal in Hbody.
    apply IH in Hloop as [Hr Hp2].
    destruct (observations_app t1 t2) as (_ & _ & ->).
    rewrite Hp, Hp2. split; [congruence|].
    by destruct (on_cancelled self).
Qed.

Lemma animated_phase_normal self plan :
  ∀ items rv s rv' s' evs,
    for_each items (animated_layer_body self plan) rv s
      = (Normal rv', s', evs) →
    Z.of_nat (count_polls evs) =
      (if on_cancelled self
       then frame_count (_result s') - frame_count (_result s) else 0).
Proof.
  induction items as [|[track_no layer] items IH]; intros rv s rv' s' evs Hrun.
  - injection Hrun as <- <- <-. destruct (on_cancelled self); cbn; lia.
  - rewrite for_each_cons in Hrun.
    destruct (animated_layer_body _ _ _ _ _) as [[[rv1| |e] s1] t1] eqn:Hbody;
      [|done|done].
    destruct (for_each _ _ _ _) as [[o2 s2] t2] eqn:Hloop.
    injection Hrun as -> <- <-.
    apply animated_layer_body_normal in Hbody
      as (name & keyframes & _ & _ & _ & Hp & Hfc & _).
    apply IH in Hloop.
    destruct (observations_app t1 t2) as (_ & _ & ->).
    rewrite Nat2Z.inj_add, Hloop, Hp.
    destruct (on_cancelled self); unfold Py.len in Hfc; lia.
Qed.

Lemma finish_polls self plan v s o s' evs :
  finish self plan v s = (o, s', evs) → count_polls evs = 0%nat.
Proof.
  intros (path & r & -> & _)%finish_inv. reflexivity.
Qed.

End Counting.

(** * Runs of [export] *)

Section RunLevel.
Context {Layer World Fp : Type} `{Countable Fp} `{!Host Layer World Fp}.
Implicit Types (self : Engine) (plan : Plan Layer) (s : St World)
  (ev : Event Layer) (evs : list (Event Layer)) (f : Event Layer → bool).

(** ** Kinds of interactions *)

Lemma export_failed_kind ev :
  export_failed ev = true →
  aborting ev = true ∧ exn_of ev = None ∧ positive_poll ev = false ∧
  is_write ev = false ∧ is_export ev = true.
Proof.
  destruct ev as [c r]. unfold aborting, fatal.
  destruct c; try discriminate; destruct r as [[|]|e]; try discriminate.
  by repeat split.
Qed.

Lemma positive_poll_kind ev :
  positive_poll ev = true →
  fatal ev = true ∧ exn_of ev = None ∧ is_write ev = false ∧
  export_failed ev = false ∧ ev = Ev OnCancelled (Val true).
Proof.
  destruct ev as [c r]. unfold fatal.
  destruct c; try discriminate; destruct r as [[|]|e]; try discriminate.
  by repeat split.
Qed.

Lemma exn_of_kind ev e :
  exn_of ev = Some e →
  fatal ev = true ∧ positive_poll ev = false ∧ export_failed ev = false.
Proof.
  destruct ev as [c r]. unfold fatal, exn_of. cbn.
  destruct r as [a|e']; [discriminate|]. intros _.
  destruct c; by repeat split.
Qed.

Lemma is_write_kind ev :
  is_write ev = true →
  positive_poll ev = false ∧ export_failed ev = false ∧
  ∃ doc path r, ev = Ev (WriteXdtsFile doc path) r.
Proof.
  destruct ev as [c r]. destruct c; try discriminate. intros _.
  repeat split. by exists doc, path, r.
Qed.

Lemma last_snoc_eq {A} (l : list A) x y :
  last (l ++ [x]) = Some y → x = y.
Proof. rewrite last_snoc. congruence. Qed.

(** In a list where only the last interaction may be of the kind [f], an
    interaction of that kind is the last one. *)
Lemma only_last_elem f evs pre ev post :
  only_last f evs → evs = pre ++ ev :: post → f ev = true →
  post = [] ∧ last evs = Some ev.
Proof.
  intros Hl -> Hf. apply only_last_inv in Hl as ->; [|done].
  split; [done | apply last_snoc].
Qed.

Lemma quiet_elem f evs ev : quiet f evs → ev ∈ evs → f ev = false.
Proof. intros Hq Hin. by eapply Forall_forall in Hq. Qed.

(** ** [export] and [_run_export] *)

Lemma export_inv self s r s' evs :
  export self s = (r, s', evs) →
  ∃ o s1,
    _run_export self s = (o, s1, evs) ∧ world s' = world s1 ∧
    match o with
    | Raised e =>
        if exn_is_Exception e
        then r = inl (_result s') ∧
             _result s' = set_error_message (exn_text e)
                            (set_success false (_result s1))
        else r = inr e ∧ s' = s1
    | _ => r = inl (_result s') ∧ s' = s1
    end.
Proof.
  unfold export. destruct (_run_export self s) as [[o s1] t].
  destruct o as [u| |e].
  - intros [= <- <- <-]. by exists (Normal u), s1.
  - intros [= <- <- <-]. by exists Returned, s1.
  - destruct (exn_is_Exception e) eqn:He; intros [= <- <- <-];
      exists (Raised e), s1; by rewrite He.
Qed.

(** The interactions of a run: a cancellation or an exception can only be
    the last one, and so can the writing of the document. *)
Lemma run_export_only_last self s o s' evs :
  _run_export self s = (o, s', evs) →
  only_last fatal evs ∧ only_last is_write evs.
Proof.
  intros [[Hne Hv]|(plan & v & s1 & t & doc & path & r & _ & _ & _ & Hw & Hq
                    & -> & _)]%run_export_inv.
  - destruct Hv as (_ & Hw & Ho). split; [|by apply quiet_only_last].
    destruct o as [[]| |e]; [congruence|apply Ho..].
  - split; (apply only_last_app; [done | constructor]).
Qed.

(** How a run has ended, by its outcome. *)
Lemma run_export_outcome self s o s' evs :
  _run_export self s = (o, s', evs) →
  match o with
  | Normal _ =>
      success (_result s') = true ∧ quiet fatal evs ∧
      error_message (_result s') = error_message (_result s) ∧
      ∃ doc path,
        last evs = Some (Ev (WriteXdtsFile doc path) (Val tt)) ∧
        output_path (_result s') = path
  | Returned =>
      kept (_result s) (_result s') ∧ quiet is_write evs ∧
      (cancelled_end s' evs ∨ failed_end self s' evs ∨
       no_layers_end fatal s' evs)
  | Raised e =>
      kept (_result s) (_result s') ∧
      last evs ≫= exn_of = Some e ∧
      error_message (_result s') = error_message (_result s)
  end.
Proof.
  intros [[Hne Hv]|(plan & v & s1 & t & doc & path & r & _ & Hk & He & Hw & Hq
                    & -> & Hr)]%run_export_inv.
  - destruct Hv as (Hk & Hw & Ho).
    destruct o as [[]| |e]; [congruence| |]; [by destruct Ho|].
    by destruct Ho as (_ & ? & ?).
  - destruct r as [[]|e].
    + destruct Hr as (-> & Hs & Hp & _ & _ & Hm). split; [done|].
      split; [apply quiet_app; split; [done | by repeat constructor]|].
      split; [done|]. exists doc, path. split; [apply last_snoc | done].
    + destruct Hr as [-> ->]. split; [done|]. rewrite last_snoc.
      split; [done|congruence].
Qed.

Lemma before_write_inv self s plan v s3 t :
  before_write self s = (Normal (plan, v), s3, t) →
  ∃ rv s1 t0 rv1 s2 t1 t2,
    prepare self s = (Normal (plan, rv), s1, t0) ∧
    animated_phase self plan rv s1 = (Normal rv1, s2, t1) ∧
    static_phase self plan rv1 s2 = (Normal v, s3, t2) ∧
    t = t0 ++ t1 ++ t2.
Proof.
  unfold before_write. intros Hrun.
  bind_normal Hrun as [plan0 rv] s1 t0 Hprep.
  bind_normal Hrun as rv1 s2 t1 Hanim.
  bind_normal Hrun as v0 s3' t2 Hstat.
  injection Hrun as <- <- <- <-. rewrite app_nil_r.
  by exists rv, s1, t0, rv1, s2, t1, t2.
Qed.

(** An image export that fails while the animated layers are processed is
    the last interaction of the run, which returns at once. *)
Lemma animated_failure_aborts self s plan rv s1 t0 o s2 t1 ev :
  prepare self s = (Normal (plan, rv), s1, t0) →
  animated_phase self plan rv s1 = (o, s2, t1) →
  ev ∈ t1 → export_failed ev = true →
  o = Returned ∧ last t1 = Some ev ∧ failed_end self s2 t1 ∧
  _run_export self s = (Returned, s2, t0 ++ t1) ∧
  kept (_result s) (_result s2) ∧ quiet is_write (t0 ++ t1).
Proof.
  intros Hprep Hanim Hin Hfail.
  pose proof (verdict_prepare self s) as Hvp. rewrite Hprep in Hvp.
  pose proof (verdict_animated_phase self plan rv s1) as Hva.
  rewrite Hanim in Hva.
  destruct Hvp as (Hk0 & Hw0 & _). destruct Hva as (Hk1 & Hw1 & Ho).
  destruct (export_failed_kind _ Hfail) as (Hab & Hexn & Hpoll & _).
  apply list_elem_of_split in Hin as (pre & post & Hsplit).
  assert (o = Returned ∧ last t1 = Some ev ∧ failed_end self s2 t1)
    as (-> & Hlast & Hend).
  { destruct o as [rv1| |e].
    - destruct Ho as [Hq _]. subst t1.
      pose proof (quiet_inv _ _ _ _ Hq). congruence.
    - destruct Ho as [Hl Hend].
      destruct (only_last_elem _ _ _ _ _ Hl Hsplit Hab) as [-> Hlast].
      split; [done|]. split; [done|].
      destruct Hend as [[Hc _]|[Hf|[Hq _]]]; [| done |].
      + rewrite Hlast in Hc. injection Hc as ->. discriminate.
      + apply last_Some_elem_of in Hlast.
        pose proof (quiet_elem _ _ _ Hq Hlast). congruence.
    - destruct Ho as (Hl & Hraise & _).
      destruct (only_last_elem _ _ _ _ _ Hl Hsplit Hab) as [-> Hlast].
      rewrite Hlast in Hraise. cbn in Hraise. congruence. }
  repeat (split; [done|]). split; [|split].
  - unfold _run_export, bind. by rewrite Hprep, Hanim.
  - by eapply kept_trans.
  - by apply quiet_app.
Qed.

End RunLevel.

(** * Failures, cancellation and the written exposure sheet *)

Section RunClaims.
Context {Layer World Fp : Type} `{Countable Fp} `{!Host Layer World Fp}.
Implicit Types (self : Engine) (plan : Plan Layer) (s : St World)
  (ev : Event Layer) (evs : list (Event Layer)) (f : Event Layer → bool).

Lemma ends_not_exn self s' evs ev e :
  cancelled_end s' evs ∨ failed_end self s' evs ∨ no_layers_end fatal s' evs →
  last evs = Some ev → exn_of ev = Some e → False.
Proof.
  intros [[Hl _]|[(l & fr & n & c & Hl & _)|[Hq _]]] Hlast Hexn.
  - rewrite Hlast in Hl. injection Hl as ->. discriminate.
  - rewrite Hlast in Hl. injection Hl as ->. discriminate.
  - apply exn_of_kind in Hexn as (Hf & _).
    apply last_Some_elem_of in Hlast.
    pose proof (quiet_elem _ _ _ Hq Hlast). congruence.
Qed.

(** C9, as amended.  In every run of [export], an exception raised by a
    collaborator or a callback is the last interaction with the host.  When it
    is an instance of [Exception], [export] returns the result, with
    [success = False] and the text of the exception as [error_message]; when
    it is not, it leaves [export].  Nothing else leaves [export]: an exception
    that does was raised by the last interaction and is not an instance of
    [Exception]. *)
Theorem export_catches_exceptions self s r s' evs :
  export self s = (r, s', evs) →
  (∀ pre ev post e,
     evs = pre ++ ev :: post → exn_of ev = Some e →
     post = [] ∧
     if exn_is_Exception e
     then r = inl (_result s') ∧ success (_result s') = false ∧
          error_message (_result s') = exn_text e
     else r = inr e) ∧
  (∀ e, r = inr e →
     exn_is_Exception e = false ∧ last evs ≫= exn_of = Some e).
Proof.
  intros (o & s1 & Hrun & Hw & Ho)%export_inv.
  pose proof (run_export_only_last _ _ _ _ _ Hrun) as [Hlast _].
  pose proof (run_export_outcome _ _ _ _ _ Hrun) as Hout.
  split.
  - intros pre ev post e Hevs Hexn.
    destruct (exn_of_kind _ _ Hexn) as (Hf & _).
    destruct (only_last_elem _ _ _ _ _ Hlast Hevs Hf) as [-> Hl].
    split; [done|]. destruct o as [u| |e'].
    + destruct Hout as (_ & Hq & _). apply last_Some_elem_of in Hl.
      pose proof (quiet_elem _ _ _ Hq Hl). congruence.
    + destruct Hout as (_ & _ & Hend). by destruct (ends_not_exn _ _ _ _ _ Hend Hl Hexn).
    + destruct Hout as (_ & Hl' & _). rewrite Hl in Hl'. cbn in Hl'.
      assert (e' = e) as -> by congruence.
      destruct (exn_is_Exception e); [|by destruct Ho].
      destruct Ho as [-> ->]. by repeat split.
  - intros e ->. destruct o as [u| |e'].
    + by destruct Ho.
    + by destruct Ho.
    + destruct (exn_is_Exception e') eqn:He; [by destruct Ho|].
      destruct Ho as [[= ->] ->]. split; [done|]. by destruct Hout as (_ & ? & _).
Qed.

(** What the result of a run started by a new engine keeps when the run
    has not succeeded. *)
Lemma kept_new_engine (r : ExportResult) :
  kept ExportResult_init r →
  success r = false ∧ output_path r = "" ∧ track_count r = 0.
Proof. by intros (-> & -> & -> & _). Qed.

Lemma export_unsuccessful self w r s' evs o s1 :
  _run_export self (new_engine w) = (o, s1, evs) →
  match o with
  | Raised e =>
      if exn_is_Exception e
      then r = inl (_result s') ∧
           _result s' = set_error_message (exn_text e)
                          (set_success false (_result s1))
      else r = inr e ∧ s' = s1
  | _ => r = inl (_result s') ∧ s' = s1
  end →
  (∀ u, o ≠ Normal u) →
  success (_result s') = false ∧ output_path (_result s') = "" ∧
  track_count (_result s') = 0.
Proof.
  intros Hrun Ho Hne. pose proof (run_export_outcome _ _ _ _ _ Hrun) as Hout.
  destruct o as [u| |e]; [by destruct (Hne u)| |].
  - destruct Ho as [_ ->]. destruct Hout as (Hk & _).
    by apply kept_new_engine.
  - destruct Hout as (Hk & _). apply kept_new_engine in Hk as (? & ? & ?).
    destruct (exn_is_Exception e).
    + destruct Ho as [_ ->]. by repeat split.
    + destruct Ho as [_ ->]. by repeat split.
Qed.

(** C10 (the exposure sheet is written at most once, at the end).  In a run
    started by a new engine, a call of [write_xdts_file] is the last
    interaction with the host: none comes before it, no cancellation and no
    exception came before it, and all the layers, animated and static, had
    been processed to the end.  The run succeeds exactly when its last
    interaction is a call of [write_xdts_file] that raised nothing; a run that
    does not succeed keeps [output_path] empty and [track_count = 0]; and
    after a positive cancellation poll, after a failed export of an animated
    frame, or when no collaborator answered with a layer, the exposure sheet
    is not written and [success] is [False]. *)
Theorem document_written_once self w r s' evs :
  export self (new_engine w) = (r, s', evs) →
  (∀ pre ev post,
     evs = pre ++ ev :: post → is_write ev = true →
     post = [] ∧ quiet is_write pre ∧ quiet fatal pre ∧
     ∃ plan v s1,
       before_write self (new_engine w) = (Normal (plan, v), s1, pre)) ∧
  (success (_result s') = true ↔
     ∃ doc path, last evs = Some (Ev (WriteXdtsFile doc path) (Val tt))) ∧
  (success (_result s') = false →
     output_path (_result s') = "" ∧ track_count (_result s') = 0) ∧
  ((∃ ev, ev ∈ evs ∧ positive_poll ev = true) →
     quiet is_write evs ∧ success (_result s') = false) ∧
  (∀ plan rv s1 t0 o s2 t1,
     prepare self (new_engine w) = (Normal (plan, rv), s1, t0) →
     animated_phase self plan rv s1 = (o, s2, t1) →
     (∃ ev, ev ∈ t1 ∧ export_failed ev = true) →
     quiet is_write evs ∧ success (_result s') = false) ∧
  (quiet has_layers evs →
     quiet is_write evs ∧ success (_result s') = false).
Proof.
  intros (o & s1 & Hrun & Hw & Ho)%export_inv.
  pose proof (run_export_only_last _ _ _ _ _ Hrun) as [Hlf Hlw].
  pose proof (run_export_outcome _ _ _ _ _ Hrun) as Hout.
  pose proof (export_unsuccessful _ _ r s' _ _ _ Hrun Ho) as Hfail.
  assert (Hsucc : ∀ u, o = Normal u → success (_result s') = true).
  { intros u ->. destruct Ho as [_ ->]. by destruct Hout. }
  assert (Hret : o = Returned → quiet is_write evs).
  { intros ->. by destruct Hout as (_ & ? & _). }
  split; [|split; [|split; [|split; [|split]]]].
  - intros pre ev post Hevs Hwr.
    destruct (only_last_elem _ _ _ _ _ Hlw Hevs Hwr) as [-> Hl].
    split; [done|].
    apply run_export_inv in Hrun
      as [[Hne Hv]|(plan & v & s1' & t & doc & path & wr & Hbw & _ & _ & Hqw
                    & Hqf & Hevs' & _)].
    + destruct Hv as (_ & Hq & _). subst evs.
      pose proof (quiet_inv _ _ _ _ Hq). congruence.
    + rewrite Hevs in Hevs'. apply app_inj_tail in Hevs' as [-> _].
      repeat (split; [done|]). by exists plan, v, s1'.
  - split.
    + intros Hs. destruct o as [u| |e].
      * destruct Hout as (_ & _ & _ & doc & path & Hl & _). by exists doc, path.
      * destruct Hfail as [Hf _]; [done | congruence].
      * destruct Hfail as [Hf _]; [done | congruence].
    + intros (doc & path & Hl). destruct o as [u| |e].
      * by eapply Hsucc.
      * apply last_Some_elem_of in Hl.
        pose proof (quiet_elem _ _ _ (Hret eq_refl) Hl). done.
      * destruct Hout as (_ & Hex & _). by rewrite Hl in Hex.
  - intros Hs. destruct o as [u| |e].
    + rewrite (Hsucc u eq_refl) in Hs. done.
    + by destruct Hfail as (_ & ? & ?).
    + by destruct Hfail as (_ & ? & ?).
  - intros (ev & Hin & Hpoll).
    destruct (positive_poll_kind _ Hpoll) as (Hf & Hexn & _).
    apply list_elem_of_split in Hin as (pre & post & Hevs).
    destruct (only_last_elem _ _ _ _ _ Hlf Hevs Hf) as [-> Hl].
    destruct o as [u| |e].
    + destruct Hout as (_ & Hq & _). subst evs.
      pose proof (quiet_inv _ _ _ _ Hq). congruence.
    + split; [by apply Hret | by destruct Hfail].
    + destruct Hout as (_ & Hex & _). rewrite Hl in Hex. cbn in Hex. congruence.
  - intros plan rv s0 t0 o' s2 t1 Hprep Hanim (ev & Hin & Hf).
    destruct (animated_failure_aborts _ _ _ _ _ _ _ _ _ _ Hprep Hanim Hin Hf)
      as (_ & _ & _ & Hrun' & _ & _).
    rewrite Hrun in Hrun'. injection Hrun' as -> _ _.
    split; [by apply Hret | by destruct Hfail].
  - intros Hnl.
    apply run_export_inv in Hrun
      as [[Hne Hv]|(plan & v & s1' & t & doc & path & wr & Hbw & _ & _ & _
                    & _ & Hevs' & _)].
    + destruct Hv as (_ & Hq & _). split; [done|].
      destruct o as [[]| |e]; [done| |]; by destruct Hfail.
    + apply before_write_inv in Hbw
        as (rv & s0 & t0 & rv1 & s2 & t1 & t2 & Hprep & _ & _ & ->).
      apply prepare_normal in Hprep as (_ & Hex & _).
      apply existsb_exists in Hex as (ev & Hin & Hev).
      assert (ev ∈ evs) as Hin'.
      { subst evs. apply list_elem_of_In in Hin. set_solver. }
      pose proof (quiet_elem _ _ _ Hnl Hin'). congruence.
Qed.

(** C5 (failed export of an animated frame).  When, in a run started by a new
    engine, the export of an image of an animated layer answers [False], the
    loop over the animated layers is left at once by [return]: the failed
    export is the last interaction with the host, it is the export of the file
    named by [_build_filename] in the folder of the layer, the error message
    is [Failed to export frame <frame> of <layer>], [export] hands back the
    result with [success = False], [output_path] empty and [track_count = 0],
    and the exposure sheet is not written. *)
Theorem failed_export_aborts self w plan rv s1 t0 o s2 t1 ev :
  prepare self (new_engine w) = (Normal (plan, rv), s1, t0) →
  animated_phase self plan rv s1 = (o, s2, t1) →
  ev ∈ t1 → export_failed ev = true →
  o = Returned ∧ last t1 = Some ev ∧
  (∃ layer frame layer_name cell_number,
     ev = Ev (ExportFrame layer frame
                (path_join (path_join (export_path self) layer_name)
                   (_build_filename (options self) layer_name cell_number)))
            (Val false) ∧
     error_message (_result s2) =
       "Failed to export frame " +:+ Py.str frame +:+ " of " +:+ layer_name) ∧
  export self (new_engine w) = (inl (_result s2), s2, t0 ++ t1) ∧
  success (_result s2) = false ∧ output_path (_result s2) = "" ∧
  track_count (_result s2) = 0 ∧
  quiet is_write (t0 ++ t1).
Proof.
  intros Hprep Hanim Hin Hf.
  destruct (animated_failure_aborts _ _ _ _ _ _ _ _ _ _ Hprep Hanim Hin Hf)
    as (-> & Hl & (layer & frame & name & n & Hl' & Hm) & Hrun & Hk & Hw).
  split; [done|]. split; [done|]. split.
  { exists layer, frame, name, n. split; [congruence | done]. }
  split; [unfold export; by rewrite Hrun|].
  apply kept_new_engine in Hk as (? & ? & ?). by repeat split.
Qed.

Lemma quiet_forallb f evs :
  quiet f evs → forallb (λ ev, negb (f ev)) evs = true.
Proof.
  intros Hq. apply forallb_forall. intros ev Hin%list_elem_of_In.
  by rewrite (quiet_elem _ _ _ Hq Hin).
Qed.

Lemma static_layer_body_exports self plan layer rv n s o s' evs :
  static_layer_body self plan layer (rv, n) s = (o, s', evs) →
  quiet is_mkdir evs ∧ quiet is_pixels evs ∧
  Forall (λ ev, is_export ev = true →
            ∃ name r,
              ev = Ev (ExportFrame layer (start_frame plan)
                         (path_join (export_path self)
                            (name +:+ "." +:+ image_format (options self))))
                     r) evs ∧
  (length (filter (λ ev, is_export ev = true) evs) ≤ 1)%nat ∧
  (existsb export_failed evs = true →
     o ≠ Returned ∧
     (on_progress self = true →
        ∃ current total name r,
          last evs =
            Some (Ev (OnProgress current total
                        ("Warning: Failed to export " +:+ name)) r)) ∧
     (forallb (λ ev, negb (fatal ev)) evs = true →
        ∃ rv',
          o = Normal (rv', n) ∧
          ∀ rest,
            for_each (layer :: rest) (static_layer_body self plan) (rv, n) s =
            let '(o2, s2, t2) :=
              for_each rest (static_layer_body self plan) (rv', n) s' in
            (o2, s2, evs ++ t2))).
Proof.
  intros Hrun. pose proof Hrun as Hbody. unfold static_layer_body in Hrun.
  exec Hrun;
    (split; [quiet_list|]); (split; [quiet_list|]).
  all: (split;
     [repeat (constructor;
              [first [discriminate | intros _; eexists _, _; reflexivity]|]);
      constructor|]).
  all:  (split; [vm_compute; lia|]).
  all:  intros Hx; cbn in Hx; try discriminate Hx.
  all:  (split; [done|]).
  all:  (split; [intros Hp; first [congruence | eexists _, _, _, _; reflexivity]|]).
  all:  intros Hq; cbn in Hq; try discriminate Hq.
  all:  (eexists; split; [reflexivity|]);
    intros rest; rewrite for_each_cons, Hbody; reflexivity.
Qed.

Lemma static_layer_body_abrupt self plan layer v s o s' evs :
  static_layer_body self plan layer v s = (o, s', evs) →
  (∀ v', o ≠ Normal v') →
  ∃ ev, last evs = Some ev ∧ fatal ev = true.
Proof.
  destruct v as [rv n]. unfold static_layer_body. intros Hrun Hne.
  exec Hrun;
    first [by destruct (Hne _ eq_refl) | eexists; split; reflexivity].
Qed.

Lemma static_phase_abrupt self plan :
  ∀ layers v s o s' evs,
    for_each layers (static_layer_body self plan) v s = (o, s', evs) →
    (∀ v', o ≠ Normal v') →
    ∃ ev, last evs = Some ev ∧ fatal ev = true.
Proof.
  induction layers as [|layer layers IH]; intros v s o s' evs Hrun Hne.
  - injection Hrun as <- _ _. by destruct (Hne v).
  - rewrite for_each_cons in Hrun.
    destruct (static_layer_body _ _ _ _ _) as [[[v1| |e] s1] t1] eqn:Hbody.
    + destruct (for_each _ _ _ _) as [[o2 s2] t2] eqn:Hloop.
      injection Hrun as <- <- <-.
      destruct (IH _ _ _ _ _ Hloop Hne) as (ev & Hl & Hf).
      exists ev. split; [by apply last_app_Some | done].
    + injection Hrun as <- <- <-.
      by eapply static_layer_body_abrupt.
    + injection Hrun as <- <- <-.
      by eapply static_layer_body_abrupt.
Qed.

(** Without a cancellation and without an exception the loop over the
    static layers runs to its end, whatever the exports answer. *)
Lemma static_phase_quiet self plan rv s o s' evs :
  static_phase self plan rv s = (o, s', evs) →
  quiet fatal evs → ∃ v, o = Normal v.
Proof.
  intros Hrun Hq. destruct o as [v| |e]; [by exists v| |].
  - destruct (static_phase_abrupt _ _ _ _ _ _ _ _ Hrun) as (ev & Hl & Hf);
      [done|].
    apply last_Some_elem_of in Hl.
    pose proof (quiet_elem _ _ _ Hq Hl). congruence.
  - destruct (static_phase_abrupt _ _ _ _ _ _ _ _ Hrun) as (ev & Hl & Hf);
      [done|].
    apply last_Some_elem_of in Hl.
    pose proof (quiet_elem _ _ _ Hq Hl). congruence.
Qed.

(** A static layer that is reached and processed without an exception:
    its image is asked for. *)
Lemma static_layer_body_exported self plan layer rv n s o s' evs :
  static_layer_body self plan layer (rv, n) s = (o, s', evs) →
  forallb (λ ev, negb (fatal ev)) evs = true →
  ∃ name ok rv',
    let layer_name :=
      (make_unique_name (sanitize_filename name) (used_layer_names rv)).1 in
    let path :=
      path_join (export_path self)
        (layer_name +:+ "." +:+ image_format (options self)) in
    Ev (LayerName layer) (Val name) ∈ evs ∧
    Ev (ExportFrame layer (start_frame plan) path) (Val ok) ∈ evs ∧
    exports_of evs = [(layer, start_frame plan, path)] ∧
    o = Normal (rv', if ok then n + 1 else n) ∧
    (ok = false →
       if on_progress self
       then last evs =
              Some (Ev (OnProgress (processed rv + 1) (total_work plan)
                          ("Warning: Failed to export " +:+ layer_name))
                      (Val tt))
       else reports evs = []).
Proof.
  intros Hrun. unfold static_layer_body in Hrun.
  exec Hrun;
    match goal with Hq : forallb _ _ = true |- _ => cbn in Hq end;
    try discriminate.
  all: eexists _, _, _; cbv zeta;
    (split;
       [repeat first [apply list_elem_of_here | apply list_elem_of_further]|]);
    rewrite Huniq; cbn [fst];
    (split;
       [repeat first [apply list_elem_of_here | apply list_elem_of_further]|]);
    (split; [reflexivity|]); (split; [reflexivity|]);
    intros Hok; try discriminate Hok;
    repeat match goal with
           | |- context [Val ?x] => is_var x; destruct x
           end;
    reflexivity.
Qed.

(** The loop over the static layers, run to its end: one image per layer, in
    the order of the layers, of the first frame of the range. *)
Lemma static_loop_exports self plan :
  ∀ layers v s o s' evs,
    for_each layers (static_layer_body self plan) v s = (o, s', evs) →
    quiet fatal evs →
    (exports_of evs).*1 = (λ layer, (layer, start_frame plan)) <$> layers ∧
    quiet is_mkdir evs ∧ quiet is_pixels evs.
Proof.
  induction layers as [|layer layers IH]; intros [rv n] s o s' evs Hrun Hq.
  - injection Hrun as _ _ <-. repeat split; constructor.
  - rewrite for_each_cons in Hrun.
    destruct (static_layer_body self plan layer (rv, n) s)
      as [[o1 s1] t1] eqn:Hbody.
    assert (Ht1 : quiet fatal t1 → ∃ v1, o1 = Normal v1 ∧
              (exports_of t1).*1 = [(layer, start_frame plan)] ∧
              quiet is_mkdir t1 ∧ quiet is_pixels t1).
    { intros Hq1.
      destruct (static_layer_body_exports _ _ _ _ _ _ _ _ _ Hbody)
        as (Hmk & Hpx & _).
      destruct (static_layer_body_exported _ _ _ _ _ _ _ _ _ Hbody
                  (quiet_forallb _ _ Hq1))
        as (name & ok & rv' & _ & _ & Hex & -> & _).
      eexists. split; [reflexivity|]. by rewrite Hex. }
    destruct o1 as [v1| |e].
    + destruct (for_each layers (static_layer_body self plan) v1 s1)
        as [[o2 s2] t2] eqn:Hloop.
      injection Hrun as <- <- <-.
      apply quiet_app in Hq as [Hq1 Hq2].
      destruct (Ht1 Hq1) as (v1' & _ & Hex & Hmk & Hpx).
      destruct (IH _ _ _ _ _ Hloop Hq2) as (Hex2 & Hmk2 & Hpx2).
      unfold exports_of in *.
      rewrite omap_app, fmap_app, Hex, Hex2.
      split; [reflexivity|]. split; apply quiet_app; by split.
    + injection Hrun as _ _ <-. by destruct (Ht1 Hq) as (v1 & [=] & _).
    + injection Hrun as _ _ <-. by destruct (Ht1 Hq) as (v1 & [=] & _).
Qed.

(** C6, as amended (static layers).  The processing of one static layer
    creates no folder, reads no pixel data and exports at most one image: the
    frame [start_frame] of that layer, to [<layer name>.<image_format>]
    directly in the export path.  When that export answers [False] the run is
    not left by [return]; with a progress callback set, the last interaction
    is the warning [Warning: Failed to export <layer name>]; and unless the
    run is cancelled or an exception is raised, the loop goes on with the
    layers that remain.  When the layer is processed without a cancellation
    and without an exception, exactly one image is asked for: the frame
    [start_frame] of the layer, to the file named after the unique name of
    the layer; the count of exported layers goes up when the answer is
    [True]; and when it is [False] the warning goes to the progress callback
    if one is set, and nothing at all is reported if none is.  The loop over
    the static layers, run to its end, asks for one image per static layer,
    in the order of the layers, each of the frame [start_frame], makes no
    folder and reads no pixel data.  A run whose static phase sees no
    cancellation and no exception, whatever its exports answer, reaches the
    writing of the exposure sheet, and succeeds when that writing raises
    nothing. *)
Theorem static_export_nonfatal :
  (∀ self plan layer rv n s o s' evs,
     static_layer_body self plan layer (rv, n) s = (o, s', evs) →
     quiet is_mkdir evs ∧ quiet is_pixels evs ∧
     (length (filter (λ ev, is_export ev = true) evs) ≤ 1)%nat ∧
     (∀ ev, ev ∈ evs → is_export ev = true →
        ∃ name r,
          ev = Ev (ExportFrame layer (start_frame plan)
                     (path_join (export_path self)
                        (name +:+ "." +:+ image_format (options self))))
                 r) ∧
     (∀ ev, ev ∈ evs → export_failed ev = true →
        o ≠ Returned ∧
        (on_progress self = true →
           ∃ current total name r,
             last evs =
               Some (Ev (OnProgress current total
                           ("Warning: Failed to export " +:+ name)) r)) ∧
        (quiet fatal evs →
           ∃ rv',
             o = Normal (rv', n) ∧
             ∀ rest,
               for_each (layer :: rest) (static_layer_body self plan)
                 (rv, n) s =
               let '(o2, s2, t2) :=
                 for_each rest (static_layer_body self plan) (rv', n) s' in
               (o2, s2, evs ++ t2))) ∧
     (quiet fatal evs →
        ∃ name ok rv',
          let layer_name :=
            (make_unique_name (sanitize_filename name)
               (used_layer_names rv)).1 in
          let path :=
            path_join (export_path self)
              (layer_name +:+ "." +:+ image_format (options self)) in
          Ev (LayerName layer) (Val name) ∈ evs ∧
          Ev (ExportFrame layer (start_frame plan) path) (Val ok) ∈ evs ∧
          exports_of evs = [(layer, start_frame plan, path)] ∧
          o = Normal (rv', if ok then n + 1 else n) ∧
          (ok = false →
             if on_progress self
             then last evs =
                    Some (Ev (OnProgress (processed rv + 1) (total_work plan)
                                ("Warning: Failed to export " +:+ layer_name))
                            (Val tt))
             else reports evs = []))) ∧
  (∀ self plan rv s o s' evs,
     static_phase self plan rv s = (o, s', evs) →
     quiet fatal evs →
     (exports_of evs).*1 =
       (λ layer, (layer, start_frame plan)) <$> static_layers plan ∧
     quiet is_mkdir evs ∧ quiet is_pixels evs) ∧
  (∀ self w plan rv s1 t0 rv1 s2 t1 o s3 t2,
     prepare self (new_engine w) = (Normal (plan, rv), s1, t0) →
     animated_phase self plan rv s1 = (Normal rv1, s2, t1) →
     static_phase self plan rv1 s2 = (o, s3, t2) →
     quiet fatal t2 →
     ∃ v doc path wr r s',
       o = Normal v ∧
       export self (new_engine w) =
         (r, s', t0 ++ t1 ++ t2 ++ [Ev (WriteXdtsFile doc path) wr]) ∧
       (exn_of (Ev (Layer:=Layer) (WriteXdtsFile doc path) wr) = None →
          r = inl (_result s') ∧ success (_result s') = true)).
Proof.
  split; [|split].
  - intros self plan layer rv n s o s' evs Hrun.
    pose proof (static_layer_body_exported _ _ _ _ _ _ _ _ _ Hrun) as Hexp.
    apply static_layer_body_exports in Hrun
      as (Hmk & Hpx & Hex & Hlen & Hfail).
    repeat (split; [done|]). split; [|split].
    + intros ev Hin. by eapply Forall_forall in Hex.
    + intros ev Hin Hf.
      destruct Hfail as (Hne & Hwarn & Hcont).
      { apply existsb_exists. exists ev. by rewrite <- list_elem_of_In. }
      split; [done|]. split; [done|]. intros Hq. by apply Hcont, quiet_forallb.
    + intros Hq. by apply Hexp, quiet_forallb.
  - intros self plan rv s o s' evs Hrun Hq.
    by eapply static_loop_exports.
  - intros self w plan rv s1 t0 rv1 s2 t1 o s3 t2 Hprep Hanim Hstat Hq.
    destruct (static_phase_quiet _ _ _ _ _ _ _ Hstat Hq) as [v ->].
    destruct (finish self plan v s3) as [[o4 s4] t4] eqn:Hfin.
    pose proof Hfin as (path & wr & -> & Hwr)%finish_inv.
    assert (Hrun : _run_export self (new_engine w) =
                   (o4, s4, t0 ++ t1 ++ t2 ++
                            [Ev (WriteXdtsFile (xdts_doc v.1) path) wr])).
    { unfold _run_export, bind. by rewrite Hprep, Hanim, Hstat, Hfin. }
    destruct wr as [[]|e].
    + destruct Hwr as (-> & Hs & _).
      exists v, (xdts_doc v.1), path, (Val ()), (inl (_result s4)), s4.
      split; [done|]. split; [unfold export; by rewrite Hrun | done].
    + destruct Hwr as [-> Hr].
      destruct (export self (new_engine w)) as [[r s'] evs] eqn:Hexp.
      exists v, (xdts_doc v.1), path, (Exc e), r, s'.
      split; [done|]. split; [|done].
      unfold export in Hexp. rewrite Hrun in Hexp.
      by destruct (exn_is_Exception e); injection Hexp as <- <- <-.
Qed.

(** C7, as amended.  With a cancellation callback set, the processing of one
    keyframe and the processing of one static layer each begin with a poll of
    the callback and poll it exactly once (never, without a callback).  In a
    run started by a new engine a positive poll is the last interaction with
    the host: the exposure sheet is not written and [export] hands back the
    result with [success = False], [output_path] empty, [track_count = 0] and
    the message [Export cancelled by user]; a successful run has polled once
    per keyframe counted in [frame_count] and once per static layer.  That
    message differs from the two messages with which the engine itself reports
    a failure. *)
Theorem cancellation_per_unit_of_work :
  (∀ self plan layer name folder track frame v s o s' evs,
     keyframe_body self plan layer name folder track frame v s
       = (o, s', evs) →
     count_polls evs = (if on_cancelled self then 1 else 0)%nat ∧
     (on_cancelled self = true → ∃ r rest, evs = Ev OnCancelled r :: rest)) ∧
  (∀ self plan layer v s o s' evs,
     static_layer_body self plan layer v s = (o, s', evs) →
     count_polls evs = (if on_cancelled self then 1 else 0)%nat ∧
     (on_cancelled self = true → ∃ r rest, evs = Ev OnCancelled r :: rest)) ∧
  (∀ self w r s' evs,
     export self (new_engine w) = (r, s', evs) →
     (∀ pre ev post,
        evs = pre ++ ev :: post → positive_poll ev = true →
        post = [] ∧ quiet is_write evs ∧ r = inl (_result s') ∧
        success (_result s') = false ∧
        error_message (_result s') = "Export cancelled by user" ∧
        output_path (_result s') = "" ∧ track_count (_result s') = 0) ∧
     (success (_result s') = true →
        ∃ plan v s1 t,
          before_write self (new_engine w) = (Normal (plan, v), s1, t) ∧
          Z.of_nat (count_polls evs) =
            if on_cancelled self
            then frame_count (_result s') + Py.len (static_layers plan)
            else 0)) ∧
  "Export cancelled by user" ≠ "No exportable layers found" ∧
  (∀ frame layer_name,
     "Export cancelled by user" ≠
     "Failed to export frame " +:+ Py.str frame +:+ " of " +:+ layer_name).
Proof.
  split; [intros; by eapply keyframe_body_polls|].
  split; [intros; by eapply static_layer_body_polls|].
  split; [|split; [done | intros frame layer_name; discriminate]].
  intros self w r s' evs (o & s1 & Hrun & Hw & Ho)%export_inv.
  pose proof (run_export_only_last _ _ _ _ _ Hrun) as [Hlf Hlw].
  pose proof (run_export_outcome _ _ _ _ _ Hrun) as Hout.
  pose proof (export_unsuccessful _ _ r s' _ _ _ Hrun Ho) as Hfail.
  split.
  - intros pre ev post Hevs Hpoll.
    destruct (positive_poll_kind _ Hpoll) as (Hf & Hexn & _ & Hnf & Hev).
    destruct (only_last_elem _ _ _ _ _ Hlf Hevs Hf) as [-> Hl].
    split; [done|]. destruct o as [u| |e].
    + destruct Hout as (_ & Hq & _). apply last_Some_elem_of in Hl.
      pose proof (quiet_elem _ _ _ Hq Hl). congruence.
    + destruct Hout as (_ & Hqw & Hend). destruct Ho as [-> ->].
      destruct Hfail as (? & ? & ?); [done|].
      repeat (split; [done|]). split; [|done].
      destruct Hend as [[_ Hm]|[(l & fr & nm & c & Hl' & _)|[Hq _]]]; [done| |].
      * rewrite Hl in Hl'. injection Hl' as ->. discriminate.
      * apply last_Some_elem_of in Hl.
        pose proof (quiet_elem _ _ _ Hq Hl). congruence.
    + destruct Hout as (_ & Hex & _). rewrite Hl in Hex. cbn in Hex. congruence.
  - intros Hs.
    apply run_export_inv in Hrun
      as [[Hne Hv]|(plan & v & s3 & t & doc & path & wr & Hbw & _ & _ & _
                    & _ & -> & Hwr)].
    { destruct o as [[]| |e]; [done| |];
        (destruct Hfail as (? & _); [done | congruence]). }
    exists plan, v, s3, t. split; [done|].
    destruct wr as [[]|e]; cycle 1.
    { destruct Hwr as [-> _].
      destruct Hfail as (? & _); [done | congruence]. }
    destruct Hwr as (-> & _ & _ & _ & Hfc & _). destruct Ho as [_ ->].
    apply before_write_inv in Hbw
      as (rv & s0 & t0 & rv1 & s2 & t1 & t2 & Hprep & Hanim & Hstat & ->).
    pose proof (prepare_polls _ _ _ _ _ Hprep) as Hp0.
    apply prepare_normal in Hprep as (Hr0 & _).
    apply animated_phase_normal in Hanim.
    apply static_phase_normal in Hstat as [Hr2 Hp2].
    pose proof (λ a b : list (Event Layer),
                  proj2 (proj2 (observations_app a b))) as Happ.
    rewrite !Happ, (count_polls_skip _ []) by reflexivity.
    change (count_polls (Layer:=Layer) []) with 0%nat.
    rewrite Hp0, Hp2, !Nat2Z.inj_add, Hanim, Hfc, Hr2, Hr0.
    cbn. unfold Py.len. destruct (on_cancelled self); lia.
Qed.

End RunClaims.

(** ** File names *)

Lemma parse_zeros (k : nat) (s : string) (d : uint) :
  NilEmpty.uint_of_string s = Some d →
  ∃ d', NilEmpty.uint_of_string (zeros k +:+ s) = Some d' ∧
        Pos.of_uint d' = Pos.of_uint d.
Proof.
  intros Hs. induction k as [|k (d' & Hd' & Heq)]; [by exists d|].
  exists (D0 d'). split; [|done].
  change (zeros (S k) +:+ s) with (String "0"%char (zeros k +:+ s)).
  change (NilEmpty.uint_of_string (String "0"%char (zeros k +:+ s)))
    with (uint_of_char "0"%char (NilEmpty.uint_of_string (zeros k +:+ s))).
  by rewrite Hd'.
Qed.

Lemma str_nonempty (n : Z) : Py.str n ≠ "".
Proof.
  intros Hn. pose proof (str_parses n) as Hp. rewrite Hn in Hp. discriminate.
Qed.

Lemma int_to_str_digits (n : Z) :
  0 ≤ n →
  Py.isdigit (int_to_str n) = true ∧ Py.int (int_to_str n) = n.
Proof.
  intros Hn. pose proof (str_digits n Hn) as Hd.
  pose proof (int_str n Hn) as Hi. unfold Py.int in Hi. rewrite Hd in Hi.
  assert (Hd' : NilEmpty.uint_of_string (Py.str n)
                = Some (N.to_uint (Z.to_N n))).
  { pose proof (str_nonempty n). by destruct (Py.str n). }
  destruct (parse_zeros (4 - String.length (Py.str n)) _ _ Hd')
    as (d' & Hp & Heq).
  assert (Hz : NilZero.uint_of_string (int_to_str n) = Some d').
  { unfold int_to_str. destruct (zeros _ +:+ _) eqn:Hs; [|done].
    pose proof (str_nonempty n).
    destruct (zeros (4 - String.length (Py.str n))); [by cbn in Hs|done]. }
  unfold Py.isdigit, Py.int. rewrite Hz. split; [done|].
  unfold Z.of_uint in *. by rewrite Heq.
Qed.

Lemma str_length_small_aux :
  forallb (λ n, (String.length (Py.str n) <=? 4)%nat) (seqZ 0 10000) = true.
Proof. vm_compute. reflexivity. Qed.

Lemma str_length_small (n : Z) :
  0 ≤ n < 10000 → (String.length (Py.str n) ≤ 4)%nat.
Proof.
  intros Hn. pose proof str_length_small_aux as Ha.
  rewrite forallb_forall in Ha. apply Nat.leb_le, Ha.
  apply list_elem_of_In, elem_of_seqZ. lia.
Qed.

(** C8 (file names).  [_build_filename] joins with the separator, in this
    order, the prefix when it is not empty, the layer name when the format is
    [FORMAT_LAYER_SEQ], the suffix when it is not empty and the sequence
    number, and appends a dot and the image format.  The sequence number is
    the decimal writing of the cell number padded with zeros on the left to
    four characters: for a cell number that is not negative it consists of
    digits and reads back as the cell number, and below 10000 it has exactly
    four characters. *)
Theorem build_filename_format (options : ExportOptions) (layer_name : string)
    (cell_number : Z) :
  _build_filename options layer_name cell_number =
    Py.join (file_separator options)
      (filter (λ part, part ≠ "") [file_prefix options]
       ++ (if decide (file_format options = FORMAT_LAYER_SEQ)
           then [layer_name] else [])
       ++ filter (λ part, part ≠ "") [file_suffix options]
       ++ [int_to_str cell_number])
    +:+ "." +:+ image_format options ∧
  int_to_str cell_number =
    zeros (4 - String.length (Py.str cell_number)) +:+ Py.str cell_number ∧
  String.length (int_to_str cell_number) =
    Nat.max 4 (String.length (Py.str cell_number)) ∧
  (0 ≤ cell_number →
     Py.isdigit (int_to_str cell_number) = true ∧
     Py.int (int_to_str cell_number) = cell_number) ∧
  (0 ≤ cell_number < 10000 → String.length (int_to_str cell_number) = 4%nat).
Proof.
  split; [apply build_filename_parts|]. split; [reflexivity|].
  split; [apply length_int_to_str|]. split; [apply int_to_str_digits|].
  intros Hn. rewrite length_int_to_str.
  pose proof (str_length_small _ Hn). lia.
Qed.

(** With the default options, cell 7 of the layer [Line] is stored in
    [Line_0007.png]. *)
Lemma build_filename_format_witness :
  0 ≤ 7 ∧ 0 ≤ 7 < 10000 ∧
  _build_filename ExportOptions_init "Line" 7 = "Line_0007.png" ∧
  String.length (int_to_str 7) = 4%nat.
Proof.
  assert (H7 : 0 ≤ 7 < 10000) by lia.
  destruct (build_filename_format ExportOptions_init "Line" 7)
    as (Hname & _ & _ & _ & Hlen).
  split; [lia|]. split; [exact H7|]. split; [|exact (Hlen H7)].
  rewrite Hname. reflexivity.
Defined.

(** * Runs of the scripted host *)

(** Evaluates a run of the scripted host, keeping its equation. *)
Ltac evaluate Hrun :=
  let Hval := fresh "Hval" in
  pose proof Hrun as Hval; vm_compute in Hval;
  first [ injection Hval as <- <- <- | injection Hval as <- <- ].

(** Key frames 1, 3 and 5 of the layer [Line], the third drawn like the first:
    the cells are [1], [2], [1]. *)
Lemma dedup_labels_per_track_witness :
  ∃ rv' s' evs,
    line_track_run = (Normal rv', s', evs) ∧
    ∃ name entries,
      doc_tracks (xdts_doc rv') =
        doc_tracks (xdts_doc demo_vars) ++
        [{| track_name := name; track_index := 0;
            track_entries := entries |}] ∧
      filter (λ cell, cell ≠ SYMBOL_NULL_CELL) entries.*2 = ["1"; "2"; "1"].
Proof.
  unfold line_track_run.
  destruct (animated_layer_body _ _ _ _ _) as [[o s'] evs] eqn:Hrun.
  evaluate Hrun.
  eexists _, _, _. split; [reflexivity|].
  destruct (proj2 dedup_labels_per_track _ _ _ _ _ _ _ _ _ Hrun)
    as (name & entries & Hdoc & Hlabels).
  exists name, entries. split; [exact Hdoc|].
  rewrite Hlabels. vm_compute. reflexivity.
Defined.

(** The last keyframe of the layer is blank: the track ends with the null
    cell of that keyframe, at offset 3. *)
Lemma track_termination_witness :
  ∃ rv' s' evs,
    stop_track_run = (Normal rv', s', evs) ∧
    last (stops_seen evs) = Some true ∧
    ∃ name body,
      doc_tracks (xdts_doc rv') =
        [{| track_name := name; track_index := 0; track_entries := body |}] ∧
      last body = Some (3, SYMBOL_NULL_CELL).
Proof.
  unfold stop_track_run.
  destruct (animated_layer_body _ _ _ _ _) as [[o s'] evs] eqn:Hrun.
  evaluate Hrun.
  eexists _, _, _. split; [reflexivity|].
  destruct (track_termination _ _ _ _ _ _ _ _ _ Hrun)
    as (name & keyframes & body & Hkf & _ & _ & Hdoc & Hstop & _).
  split; [reflexivity|].
  destruct (Hstop eq_refl) as (frame & Hframe & Hbody).
  injection Hkf as <-. injection Hframe as <-.
  exists name, body. split; [|exact Hbody].
  replace body with (body ++ []) by apply app_nil_r. exact Hdoc.
Defined.

(** A layer without keyframes in a clip of 24 frames. *)
Lemma empty_track_terminator_witness :
  ∃ o s' evs,
    empty_track_run = (o, s', evs) ∧
    omap keyframes_of evs = [[]] ∧
    ∃ rv' name,
      o = Normal rv' ∧
      doc_tracks (xdts_doc rv') =
        [{| track_name := name; track_index := 0;
            track_entries := [(24, SYMBOL_NULL_CELL)] |}].
Proof.
  unfold empty_track_run.
  destruct (animated_layer_body _ _ _ _ _) as [[o s'] evs] eqn:Hrun.
  evaluate Hrun.
  eexists _, _, _. split; [reflexivity|]. split; [reflexivity|].
  exact (empty_track_terminator _ _ _ _ _ _ _ _ _ Hrun eq_refl).
Defined.

(** The track of a layer without keyframes in a clip of 24 frames: its only
    entry is at offset 24, not at offset 0. *)
Lemma empty_track_offset_counterexample :
  track_entries <$> (written_docs empty_export_run.2 ≫= doc_tracks)
  ≠ [[(0, SYMBOL_NULL_CELL)]].
Proof. vm_compute. intros Heq. discriminate Heq. Qed.

(** A blank keyframe at frame 3. *)
Lemma stop_frame_entry_witness :
  ∃ o s' evs,
    stop_frame_run = (o, s', evs) ∧
    stops_seen evs = [true] ∧
    ∃ rv',
      o = Normal (rv', {| hash_to_label := ∅; cell_count := 0;
                          last_was_stop_frame := true |}) ∧
      entries_of (xdts_doc rv') 0 = [(3, SYMBOL_NULL_CELL)] ∧
      quiet is_export evs.
Proof.
  unfold stop_frame_run, demo_track_vars.
  destruct (keyframe_body _ _ _ _ _ _ _ _ _) as [[o s'] evs] eqn:Hrun.
  evaluate Hrun.
  eexists _, _, _. split; [reflexivity|]. split; [reflexivity|].
  destruct (stop_frame_entry _ _ _ _ _ _ _ _ _ _ _ _ _ Hrun eq_refl)
    as (rv' & Ho & Hdoc & _ & _ & _ & Hexp & _).
  exists rv'. split; [exact Ho|]. split; [|exact Hexp].
  rewrite Hdoc. reflexivity.
Defined.

(** The export of the second image of the layer [Line], at frame 5, fails. *)
Lemma failed_export_aborts_witness :
  ∃ plan rv s1 t0 o s2 t1 ev,
    prepare demo_engine (new_engine (demo_world sc_fail))
      = (Normal (plan, rv), s1, t0) ∧
    animated_phase demo_engine plan rv s1 = (o, s2, t1) ∧
    ev ∈ t1 ∧ export_failed ev = true ∧
    o = Returned ∧
    export demo_engine (new_engine (demo_world sc_fail))
      = (inl (_result s2), s2, t0 ++ t1) ∧
    error_message (_result s2) = "Failed to export frame 5 of Line".
Proof.
  destruct (prepare demo_engine (new_engine (demo_world sc_fail)))
    as [[o1 s1] t0] eqn:Hprep.
  evaluate Hprep.
  match type of Hprep with
  | _ = (Normal (?plan, ?rv), ?s1, _) =>
      destruct (animated_phase demo_engine plan rv s1)
        as [[o s2] t1] eqn:Hanim
  end.
  evaluate Hanim.
  match type of Hanim with
  | _ = (_, _, ?t1) =>
      assert (Hin : Ev (ExportFrame 0%nat 5 "out/Line/Line_0002.png")
                      (Val false) ∈ t1)
        by (apply last_Some_elem_of; reflexivity)
  end.
  destruct (failed_export_aborts _ _ _ _ _ _ _ _ _ _ Hprep Hanim Hin eq_refl)
    as (Ho & _ & _ & Hexp & _).
  eexists _, _, _, _, _, _, _, _.
  split; [reflexivity|]. split; [exact Hanim|]. split; [exact Hin|].
  split; [reflexivity|]. split; [exact Ho|]. split; [exact Hexp|].
  reflexivity.
Defined.

(** The export of the static layer [Background] fails and the run
    succeeds. *)
Lemma static_export_nonfatal_witness :
  ∃ plan rv s1 t0 rv1 s2 t1 o s3 t2 ev,
    prepare demo_engine_static (new_engine (demo_world sc_static_fail))
      = (Normal (plan, rv), s1, t0) ∧
    animated_phase demo_engine_static plan rv s1 = (Normal rv1, s2, t1) ∧
    static_phase demo_engine_static plan rv1 s2 = (o, s3, t2) ∧
    quiet fatal t2 ∧
    ev ∈ t2 ∧ export_failed ev = true ∧
    (exports_of t2).*1 = [(7%nat, 0)] ∧
    ∃ v r s' evs,
      o = Normal v ∧
      export demo_engine_static (new_engine (demo_world sc_static_fail))
        = (r, s', evs) ∧
      success (_result s') = true.
Proof.
  destruct (prepare demo_engine_static
              (new_engine (demo_world sc_static_fail)))
    as [[o1 s1] t0] eqn:Hprep.
  evaluate Hprep.
  match type of Hprep with
  | _ = (Normal (?plan, ?rv), ?s1, _) =>
      destruct (animated_phase demo_engine_static plan rv s1)
        as [[o2 s2] t1] eqn:Hanim
  end.
  evaluate Hanim.
  match type of Hanim with
  | animated_phase _ ?plan _ _ = (Normal ?rv1, ?s2, _) =>
      destruct (static_phase demo_engine_static plan rv1 s2)
        as [[o s3] t2] eqn:Hstat
  end.
  evaluate Hstat.
  match type of Hstat with
  | _ = (_, _, ?t2) =>
      assert (Hq : quiet fatal t2) by quiet_list;
      assert (Hin : Ev (ExportFrame 7%nat 0 "out/Background.png") (Val false)
                    ∈ t2)
        by (apply list_elem_of_In; vm_compute; tauto)
  end.
  destruct (proj2 (proj2 static_export_nonfatal) _ _ _ _ _ _ _ _ _ _ _ _
              Hprep Hanim Hstat Hq)
    as (v & doc & path & wr & r & s' & Ho & Hexp & _).
  destruct (proj1 (proj2 static_export_nonfatal) _ _ _ _ _ _ _ Hstat Hq)
    as (Hexports & _).
  evaluate Hexp.
  eexists _, _, _, _, _, _, _, _, _, _, _.
  split; [reflexivity|]. split; [exact Hanim|]. split; [exact Hstat|].
  split; [exact Hq|]. split; [exact Hin|]. split; [reflexivity|].
  split; [exact Hexports|].
  eexists v, _, _, _. split; [exact Ho|]. split; [exact Hexp|].
  reflexivity.
Defined.

(** The image of the static layer cannot be exported and the engine has no
    progress callback: the run succeeds and nothing is reported. *)
Lemma static_warning_counterexample :
  Ev (ExportFrame 7%nat 0 "out/Background.png") (Val false)
    ∈ silent_export_run.2 ∧
  reports silent_export_run.2 = [] ∧
  ∃ res, silent_export_run.1.1 = inl res ∧ success res = true.
Proof.
  split; [apply list_elem_of_In; vm_compute; tauto|].
  split; [vm_compute; reflexivity|].
  eexists. split; vm_compute; reflexivity.
Qed.

(** The run is cancelled at a keyframe. *)
Lemma cancellation_per_unit_of_work_witness :
  ∃ r s' evs pre ev,
    export demo_engine (new_engine (demo_world sc_cancel)) = (r, s', evs) ∧
    evs = pre ++ ev :: [] ∧ positive_poll ev = true ∧
    r = inl (_result s') ∧
    error_message (_result s') = "Export cancelled by user" ∧
    quiet is_write evs.
Proof.
  destruct (export demo_engine (new_engine (demo_world sc_cancel)))
    as [[r s'] evs] eqn:Hexp.
  evaluate Hexp.
  match type of Hexp with
  | _ = (_, _, ?L) =>
      assert (Hsplit : L = removelast L ++ [Ev OnCancelled (Val true)])
        by reflexivity
  end.
  destruct (proj1 (proj1 (proj2 (proj2 cancellation_per_unit_of_work))
                     _ _ _ _ _ Hexp) _ _ _ Hsplit eq_refl)
    as (_ & Hw & Hr & _ & Hm & _).
  eexists _, _, _, _, _.
  split; [reflexivity|]. split; [exact Hsplit|]. split; [reflexivity|].
  split; [exact Hr|]. split; [exact Hm | exact Hw].
Defined.

(** A cancelled run and a run that fails without any cancellation check,
    because the folder of the layer cannot be created, with one and the same
    result. *)
Lemma cancellation_outcome_counterexample :
  (∃ ev, ev ∈ cancel_export_run.2 ∧ positive_poll ev = true) ∧
  count_polls impostor_export_run.2 = 0%nat ∧
  (∃ ev e, last impostor_export_run.2 = Some ev ∧ exn_of ev = Some e) ∧
  cancel_export_run.1.1 = impostor_export_run.1.1.
Proof.
  split.
  { exists (Ev OnCancelled (Val true)). split; [|reflexivity].
    apply last_Some_elem_of. vm_compute. reflexivity. }
  split; [vm_compute; reflexivity|]. split; [|vm_compute; reflexivity].
  eexists _, _. split; vm_compute; reflexivity.
Qed.

(** The folder of the layer cannot be created. *)
Lemma export_catches_exceptions_witness :
  ∃ r s' evs pre ev e,
    export demo_engine (new_engine (demo_world sc_oserror)) = (r, s', evs) ∧
    evs = pre ++ ev :: [] ∧ exn_of ev = Some e ∧
    exn_is_Exception e = true ∧
    r = inl (_result s') ∧ success (_result s') = false ∧
    error_message (_result s') = "Permission denied".
Proof.
  destruct (export demo_engine (new_engine (demo_world sc_oserror)))
    as [[r s'] evs] eqn:Hexp.
  evaluate Hexp.
  match type of Hexp with
  | _ = (_, _, ?L) =>
      assert (Hsplit :
        L = removelast L ++
            [Ev (Mkdir "out/Line")
               (Exc {| exn_is_Exception := true;
                       exn_text := "Permission denied" |})])
        by reflexivity
  end.
  destruct (proj1 (export_catches_exceptions _ _ _ _ _ Hexp)
              _ _ _ _ Hsplit eq_refl) as (_ & Hr & Hs & Hm).
  eexists _, _, _, _, _, _.
  split; [reflexivity|]. split; [exact Hsplit|]. split; [reflexivity|].
  split; [reflexivity|]. split; [exact Hr|]. split; [exact Hs | exact Hm].
Defined.

(** The progress callback is interrupted: the exception leaves [export]. *)
Lemma export_propagates_counterexample :
  ¬ ∃ res : ExportResult, interrupt_export_run.1.1 = inl res.
Proof. intros [res Hres]. vm_compute in Hres. discriminate Hres. Qed.

(** A successful run writes the exposure sheet once, as its last
    interaction. *)
Lemma document_written_once_witness :
  ∃ r s' evs,
    export demo_engine (new_engine (demo_world sc_line)) = (r, s', evs) ∧
    success (_result s') = true ∧
    (∃ doc path, last evs = Some (Ev (WriteXdtsFile doc path) (Val tt))) ∧
    length (filter (λ ev, is_write ev = true) evs) = 1%nat.
Proof.
  destruct (export demo_engine (new_engine (demo_world sc_line)))
    as [[r s'] evs] eqn:Hexp.
  evaluate Hexp.
  destruct (document_written_once _ _ _ _ _ Hexp) as (_ & Hsucc & _).
  eexists _, _, _. split; [reflexivity|]. split; [reflexivity|].
  split; [exact (proj1 Hsucc eq_refl) | vm_compute; reflexivity].
Defined.

(** * Accounting: images exported, labels, files *)

Section Account.
Context {Layer World Fp : Type} `{Countable Fp} `{!Host Layer World Fp}.
Implicit Types (self : Engine) (plan : Plan Layer) (s : St World)
  (ev : Event Layer) (evs : list (Event Layer)) (f : Event Layer → bool)
  (m : gmap Fp string).

Lemma well_numbered_cell_num m h label :
  well_numbered m → m !! h = Some label →
  Py.isdigit label = true ∧ 1 ≤ Py.int label ≤ Z.of_nat (size m).
Proof.
  intros [Hnum _] (k & -> & Hk)%Hnum.
  rewrite isdigit_str, int_str by lia. split; [done | lia].
Qed.

Lemma keyframe_body_account self plan layer name folder track frame
    rv tv s rv' tv' s' evs :
  keyframe_body self plan layer name folder track frame (rv, tv) s
    = (Normal (rv', tv'), s', evs) →
  counted tv →
  counted tv' ∧
  hash_to_label tv' =
    cache_after (compute_content_hash <$> pixels_seen evs) (hash_to_label tv) ∧
  total_unique rv' - total_unique rv =
    Z.of_nat (size (hash_to_label tv')) - Z.of_nat (size (hash_to_label tv)) ∧
  exports_of evs =
    (λ k, (layer, frame,
           path_join folder (_build_filename (options self) name k)))
    <$> seqZ (Z.of_nat (size (hash_to_label tv)) + 1)
          (Z.of_nat (size (hash_to_label tv'))
           - Z.of_nat (size (hash_to_label tv))) ∧
  Z.of_nat (count_exported evs) =
    Z.of_nat (size (hash_to_label tv')) - Z.of_nat (size (hash_to_label tv)) ∧
  doc_version (xdts_doc rv') = doc_version (xdts_doc rv) ∧
  doc_duration (xdts_doc rv') = doc_duration (xdts_doc rv).
Proof.
  unfold keyframe_body, _process_frame. intros Hrun [Hwn Hcc].
  exec Hrun.
  all: cbn [hash_to_label cell_count total_unique xdts_doc doc_version
            doc_duration add_frame_to_track].
  all: try match goal with
       | Hlook : lookup_or_assign ?h ?m = _ |- _ =>
           pose proof (lookup_or_assign_well_numbered _ _ _ _ _ Hwn Hlook)
             as Hwn';
           destruct (lookup_or_assign_cases h m)
             as [(l0 & Hl0 & Heq)|[Hl0 Heq]];
           rewrite Heq in Hlook; try discriminate Hlook;
           injection Hlook; clear Hlook; intros; subst
       end.
  (* a stop frame *)
  all: try (rewrite !Z.sub_diag;
            change (count_exported _) with 0%nat;
            split; [by split|];
            repeat (split; [first [reflexivity | lia]|]); reflexivity).
  (* a new image, exported *)
  all: try (rewrite map_size_insert_None, isdigit_str, int_str, Hcc by
              (done || lia);
            destruct (Z.gtb_spec (Z.of_nat (size (hash_to_label tv)) + 1)
                        (Z.of_nat (size (hash_to_label tv)))); [|lia];
            replace (Z.of_nat (S (size (hash_to_label tv))))
              with (Z.of_nat (size (hash_to_label tv)) + 1) by lia;
            replace (Z.of_nat (size (hash_to_label tv)) + 1
                     - Z.of_nat (size (hash_to_label tv))) with 1 by lia;
            split; [split; [done|];
                    cbn [hash_to_label cell_count];
                    rewrite map_size_insert_None by done; lia|];
            split; [cbn; unfold lookup_or_assign; by rewrite Hl0|];
            split; [lia|]; split; [reflexivity|];
            split; [change (count_exported _) with 1%nat; lia|];
            split; reflexivity).
  (* an image seen before *)

  all: destruct (well_numbered_cell_num _ _ _ Hwn Hl0) as [Hd Hi];
    rewrite Hd; rewrite ?Z.sub_diag;
    change (count_exported _) with 0%nat;
    destruct (Z.gtb_spec (Py.int l) (cell_count tv)); [lia|];
    split; [by split|];
    split; [cbn; by rewrite Heq|];
    repeat (split; [first [reflexivity | lia]|]); reflexivity.
Qed.

Lemma accounting_app evs1 evs2 :
  exports_of (evs1 ++ evs2) = exports_of evs1 ++ exports_of evs2 ∧
  count_exported (evs1 ++ evs2)
    = (count_exported evs1 + count_exported evs2)%nat ∧
  reports (evs1 ++ evs2) = reports evs1 ++ reports evs2.
Proof.
  unfold exports_of, count_exported, reports.
  by rewrite !omap_app, filter_app, length_app.
Qed.

Lemma cache_after_app (hashes1 hashes2 : list Fp) :
  ∀ m, cache_after (hashes1 ++ hashes2) m
       = cache_after hashes2 (cache_after hashes1 m).
Proof.
  induction hashes1 as [|h hashes1 IH]; intros m; cbn; [done|].
  by destruct (lookup_or_assign h m) as [[new label] m'].
Qed.

Lemma cache_after_size (hashes : list Fp) m :
  (size m ≤ size (cache_after hashes m))%nat.
Proof. apply map_subseteq_size, cache_after_mono. Qed.

(** The loop over the keyframes of a layer, when it runs to its end: one
    image is exported for every new dictionary entry, to the files numbered
    after the entries. *)
Lemma keyframes_loop_account self plan layer name folder track keyframes :
  ∀ rv tv s rv' tv' s' evs,
  for_each keyframes
    (keyframe_body self plan layer name folder track) (rv, tv) s
    = (Normal (rv', tv'), s', evs) →
  counted tv →
  counted tv' ∧
  hash_to_label tv' =
    cache_after (compute_content_hash <$> pixels_seen evs) (hash_to_label tv) ∧
  total_unique rv' - total_unique rv =
    Z.of_nat (size (hash_to_label tv')) - Z.of_nat (size (hash_to_label tv)) ∧
  (exports_of evs).*2 =
    (λ k, path_join folder (_build_filename (options self) name k))
    <$> seqZ (Z.of_nat (size (hash_to_label tv)) + 1)
          (Z.of_nat (size (hash_to_label tv'))
           - Z.of_nat (size (hash_to_label tv))) ∧
  Forall (λ x, x.1.1 = layer ∧ x.1.2 ∈ keyframes) (exports_of evs) ∧
  Z.of_nat (count_exported evs) =
    Z.of_nat (size (hash_to_label tv')) - Z.of_nat (size (hash_to_label tv)) ∧
  doc_version (xdts_doc rv') = doc_version (xdts_doc rv) ∧
  doc_duration (xdts_doc rv') = doc_duration (xdts_doc rv).
Proof.
  induction keyframes as [|frame keyframes IH];
    intros rv tv s rv' tv' s' evs Hrun Hc.
  - injection Hrun as <- <- <- <-. rewrite !Z.sub_diag.
    split; [done|]. split; [reflexivity|]. split; [done|].
    split; [reflexivity|]. split; [constructor|].
    split; [reflexivity|]. done.
  - rewrite for_each_cons in Hrun.
    destruct (keyframe_body _ _ _ _ _ _ _ _ _) as [[[[rv1 tv1]| |e] s1] t1]
      eqn:Hbody; [|done|done].
    destruct (for_each _ _ _ _) as [[o2 s2] t2] eqn:Hloop.
    injection Hrun as -> <- <-.
    apply keyframe_body_account in Hbody
      as (Hc1 & Hm1 & Hu1 & Hx1 & Hn1 & Hv1 & Hd1); [|done].
    apply IH in Hloop as (Hc2 & Hm2 & Hu2 & Hx2 & Hf2 & Hn2 & Hv2 & Hd2);
      [|done].
    destruct (accounting_app t1 t2) as (-> & -> & _).
    destruct (observations_app t1 t2) as (_ & -> & _).
    pose proof (cache_after_size (compute_content_hash <$> pixels_seen t1)
                  (hash_to_label tv)) as Hs1.
    pose proof (cache_after_size (compute_content_hash <$> pixels_seen t2)
                  (hash_to_label tv1)) as Hs2.
    rewrite <- Hm1 in Hs1. rewrite <- Hm2 in Hs2.
    split; [done|]. split; [by rewrite fmap_app, cache_after_app, <- Hm1|].
    split; [lia|]. split.
    { rewrite fmap_app, Hx1, Hx2.
      replace (Z.of_nat (size (hash_to_label tv'))
               - Z.of_nat (size (hash_to_label tv)))
        with ((Z.of_nat (size (hash_to_label tv1))
               - Z.of_nat (size (hash_to_label tv)))
              + (Z.of_nat (size (hash_to_label tv'))
                 - Z.of_nat (size (hash_to_label tv1)))) by lia.
      rewrite seqZ_app, fmap_app by lia. f_equal.
      - by rewrite <- list_fmap_compose.
      - do 2 f_equal. lia. }
    split.
    { rewrite Hx1. apply Forall_app. split.
      - apply Forall_fmap, Forall_forall. intros k _. cbn.
        split; [done | apply list_elem_of_here].
      - eapply Forall_impl; [exact Hf2|]. intros x [? ?]. split; [done|].
        by apply list_elem_of_further. }
    split; [lia|]. split; congruence.
Qed.

Lemma cache_after_empty_size (hashes : list Fp) :
  size (cache_after hashes ∅) = size (list_to_set hashes : gset Fp).
Proof.
  rewrite <- size_dom, cache_after_dom, dom_empty_L.
  by rewrite (left_id_L ∅ (∪)).
Qed.

Lemma exports_of_skip ev evs :
  export_of ev = None → exports_of (ev :: evs) = exports_of evs.
Proof. unfold exports_of. cbn. by intros ->. Qed.

Lemma count_exported_skip ev evs :
  export_ok ev = false → count_exported (ev :: evs) = count_exported evs.
Proof.
  unfold count_exported. intros Hp. rewrite filter_cons.
  rewrite decide_False; [done | congruence].
Qed.

Lemma count_exported_ok ev evs :
  export_ok ev = true → count_exported (ev :: evs) = S (count_exported evs).
Proof.
  unfold count_exported. intros Hp. rewrite filter_cons.
  by rewrite decide_True.
Qed.

Lemma mkdir_of_skip ev evs :
  mkdir_of ev = None → omap mkdir_of (ev :: evs) = omap mkdir_of evs.
Proof. cbn. by intros ->. Qed.

Lemma keyframes_loop_mkdir self plan layer name folder track keyframes :
  ∀ v s o s' evs,
  for_each keyframes
    (keyframe_body self plan layer name folder track) v s = (o, s', evs) →
  omap mkdir_of evs = [].
Proof.
  induction keyframes as [|frame keyframes IH]; intros v s o s' evs Hrun.
  - by injection Hrun as <- <- <-.
  - rewrite for_each_cons in Hrun.
    assert (Hturn : ∀ v s o s' evs,
              keyframe_body self plan layer name folder track frame v s
                = (o, s', evs) → omap mkdir_of evs = []).
    { clear. intros [rv tv] s o s' evs Hrun.
      unfold keyframe_body, _process_frame in Hrun. exec Hrun; reflexivity. }
    destruct (keyframe_body _ _ _ _ _ _ _ _ _) as [[[v1| |e] s1] t1]
      eqn:Hbody.
    + destruct (for_each _ _ _ _) as [[o2 s2] t2] eqn:Hloop.
      injection Hrun as <- <- <-. rewrite omap_app.
      by rewrite (Hturn _ _ _ _ _ Hbody), (IH _ _ _ _ _ Hloop).
    + injection Hrun as <- <- <-. by eapply Hturn.
    + injection Hrun as <- <- <-. by eapply Hturn.
Qed.

(** The processing of one animated layer, when it runs to its end: one folder
    is made, named after the track, and one image is exported into it for
    every distinct picture of the layer, to the files numbered from 1. *)
Lemma animated_layer_body_account self plan track_no layer rv s rv' s' evs :
  animated_layer_body self plan (track_no, layer) rv s = (Normal rv', s', evs) →
  ∃ tr,
    let folder := path_join (export_path self) (track_name tr) in
    let images :=
      Z.of_nat (size (list_to_set (compute_content_hash <$> pixels_seen evs)
                        : gset Fp)) in
    doc_tracks (xdts_doc rv') = doc_tracks (xdts_doc rv) ++ [tr] ∧
    track_index tr = track_no ∧
    omap mkdir_of evs = [folder] ∧
    (exports_of evs).*2 =
      (λ k, path_join folder
              (_build_filename (options self) (track_name tr) k))
      <$> seqZ 1 images ∧
    Forall (λ x, x.1.1 = layer) (exports_of evs) ∧
    Z.of_nat (count_exported evs) = images ∧
    total_unique rv' = total_unique rv + images ∧
    doc_version (xdts_doc rv') = doc_version (xdts_doc rv) ∧
    doc_duration (xdts_doc rv') = doc_duration (xdts_doc rv).
Proof.
  unfold animated_layer_body. intros Hrun.
  bind_normal Hrun as raw s1 t1 Hc1. apply call_normal in Hc1 as [-> Hr1].
  destruct (make_unique_name _ _) as [layer_name used].
  bind_normal Hrun as u s2 t2 Hc2. apply call_normal in Hc2 as [-> Hr2].
  cbn [add_track] in Hrun.
  bind_normal Hrun as keyframes s3 t3 Hc3.
  apply call_normal in Hc3 as [-> Hr3].
  bind_normal Hrun as [rv1 tv1] s4 t4 Hloop.
  pose proof (keyframes_loop_mkdir _ _ _ _ _ _ _ _ _ _ _ _ Hloop) as Hmk.
  pose proof Hloop as Hacc.
  eapply keyframes_loop_normal in Hloop; [|reflexivity].
  destruct Hloop as (Hdoc & _).
  apply keyframes_loop_account in Hacc
    as (_ & Hm & Hu & Hx & Hf & Hn & Hv & Hd);
    [|split; [apply well_numbered_empty | reflexivity]].
  cbn [hash_to_label total_unique xdts_doc doc_version doc_duration
       track_name track_index track_entries] in *.
  rewrite Hm, cache_after_empty_size, map_size_empty in *.
  rewrite Z.sub_0_r in *. cbn [Z.of_nat Z.add] in Hx.
  bind_normal Hrun as u' s5 t5 Hc5. unfold modify_result in Hc5.
  injection Hc5 as _ <- <-. injection Hrun as <- <- <-.
  rewrite !app_nil_r. cbn [app].
  rewrite !exports_of_skip, !count_exported_skip, !pixels_seen_skip,
    !mkdir_of_skip by reflexivity.
  cbn [omap list_omap mkdir_of ev_call]. rewrite ?mkdir_of_skip by reflexivity.
  rewrite Hmk.
  destruct (last_was_stop_frame tv1).
  - eexists. split; [exact Hdoc|]. cbn [track_name track_index].
    split; [done|]. split; [done|]. split; [exact Hx|].
    split; [eapply Forall_impl; [exact Hf|]; by intros x [? _]|].
    split; [done|].
    split; [by apply (λ a b c : Z, proj1 (Z.sub_move_r a b c)) in Hu;
            rewrite Z.add_comm|].
    by split.
  - unfold add_track_terminator. cbn [xdts_doc].
    erewrite add_frame_to_track_last by exact Hdoc.
    eexists. split; [reflexivity|]. cbn [track_name track_index append_entry].
    split; [done|]. split; [done|]. split; [exact Hx|].
    split; [eapply Forall_impl; [exact Hf|]; by intros x [? _]|].
    split; [done|].
    split; [by apply (λ a b c : Z, proj1 (Z.sub_move_r a b c)) in Hu;
            rewrite Z.add_comm|].
    by split.
Qed.

End Account.

Section Phases.
Context {Layer World Fp : Type} `{Countable Fp} `{!Host Layer World Fp}.
Implicit Types (self : Engine) (plan : Plan Layer) (s : St World)
  (ev : Event Layer) (evs : list (Event Layer)) (f : Event Layer → bool).

Lemma mkdirs_app evs1 evs2 :
  omap mkdir_of (evs1 ++ evs2) = omap mkdir_of evs1 ++ omap mkdir_of evs2.
Proof. apply omap_app. Qed.

(** The loop over the animated layers, when it runs to its end: one track
    and one folder per layer, in the order of the layers; every image asked
    for has been exported and counted. *)
Lemma animated_phase_account self plan :
  ∀ items k rv s rv' s' evs,
    for_each (enumerate_from k items) (animated_layer_body self plan) rv s
      = (Normal rv', s', evs) →
    ∃ tracks,
      doc_tracks (xdts_doc rv') = doc_tracks (xdts_doc rv) ++ tracks ∧
      track_index <$> tracks = seqZ k (Z.of_nat (length items)) ∧
      omap mkdir_of evs =
        (λ tr, path_join (export_path self) (track_name tr)) <$> tracks ∧
      total_unique rv' = total_unique rv + Z.of_nat (count_exported evs) ∧
      length (exports_of evs) = count_exported evs ∧
      Forall (λ x, x.1.1 ∈ items) (exports_of evs) ∧
      doc_version (xdts_doc rv') = doc_version (xdts_doc rv) ∧
      doc_duration (xdts_doc rv') = doc_duration (xdts_doc rv).
Proof.
  induction items as [|layer items IH]; intros k rv s rv' s' evs Hrun.
  - injection Hrun as <- <- <-. exists []. rewrite app_nil_r.
    repeat (split; [first [done | constructor | cbn; lia]|]). done.
  - cbn [enumerate_from] in Hrun. rewrite for_each_cons in Hrun.
    destruct (animated_layer_body _ _ _ _ _) as [[[rv1| |e] s1] t1] eqn:Hbody;
      [|done|done].
    destruct (for_each _ _ _ _) as [[o2 s2] t2] eqn:Hloop.
    injection Hrun as -> <- <-.
    apply animated_layer_body_account in Hbody
      as (tr & Hdoc1 & Hi1 & Hmk1 & Hx1 & Hl1 & Hn1 & Hu1 & Hv1 & Hd1).
    apply IH in Hloop
      as (tracks & Hdoc2 & Hi2 & Hmk2 & Hu2 & Hx2 & Hl2 & Hv2 & Hd2).
    exists (tr :: tracks).
    destruct (accounting_app t1 t2) as (-> & -> & _).
    rewrite mkdirs_app, Hmk1, Hmk2, Hdoc2, Hdoc1, <- (assoc_L (++)).
    split; [done|]. split.
    { cbn [fmap list_fmap length]. rewrite Hi1, Nat2Z.inj_succ.
      rewrite (seqZ_cons k) by lia. rewrite Z.pred_succ.
      f_equal. exact Hi2. }
    split; [done|]. split; [lia|]. split.
    { rewrite length_app, <- Hx2. f_equal.
      apply (f_equal length) in Hx1.
      rewrite !length_fmap, length_seqZ in Hx1. lia. }
    split.
    { apply Forall_app. split.
      - eapply Forall_impl; [exact Hl1|]. intros x ->.
        apply list_elem_of_here.
      - eapply Forall_impl; [exact Hl2|]. intros x ?.
        by apply list_elem_of_further. }
    split; congruence.
Qed.

(** One turn of the loop over the static layers, when it runs to its end:
    the image of the first frame is asked for once; the exposure sheet and
    the counts of the animated layers are left as they are. *)
Lemma static_layer_body_account self plan layer rv n s rv' n' s' evs :
  static_layer_body self plan layer (rv, n) s = (Normal (rv', n'), s', evs) →
  xdts_doc rv' = xdts_doc rv ∧ total_unique rv' = total_unique rv ∧
  n' = n + Z.of_nat (count_exported evs) ∧
  omap mkdir_of evs = [] ∧
  ∃ name,
    exports_of evs =
      [(layer, start_frame plan,
        path_join (export_path self)
          (name +:+ "." +:+ image_format (options self)))].
Proof.
  unfold static_layer_body. intros Hrun.
  exec Hrun; cbn [xdts_doc total_unique];
    (split; [reflexivity|]); (split; [reflexivity|]);
    (split; [first [ change (count_exported _) with 1%nat; lia
                   | change (count_exported _) with 0%nat; lia ]|]);
    (split; [reflexivity|]); eexists; reflexivity.
Qed.

Lemma static_phase_account self plan :
  ∀ layers rv n s rv' n' s' evs,
    for_each layers (static_layer_body self plan) (rv, n) s
      = (Normal (rv', n'), s', evs) →
    xdts_doc rv' = xdts_doc rv ∧ total_unique rv' = total_unique rv ∧
    n' = n + Z.of_nat (count_exported evs) ∧
    omap mkdir_of evs = [] ∧
    (exports_of evs).*1 = (λ layer, (layer, start_frame plan)) <$> layers.
Proof.
  induction layers as [|layer layers IH]; intros rv n s rv' n' s' evs Hrun.
  - injection Hrun as <- <- <- <-. repeat split; try done.
    change (count_exported _) with 0%nat. lia.
  - rewrite for_each_cons in Hrun.
    destruct (static_layer_body _ _ _ _ _) as [[[[rv1 n1]| |e] s1] t1]
      eqn:Hbody; [|done|done].
    destruct (for_each _ _ _ _) as [[o2 s2] t2] eqn:Hloop.
    injection Hrun as -> <- <-.
    apply static_layer_body_account in Hbody
      as (Hd1 & Hu1 & Hn1 & Hmk1 & name & Hx1).
    apply IH in Hloop as (Hd2 & Hu2 & Hn2 & Hmk2 & Hx2).
    destruct (accounting_app t1 t2) as (-> & -> & _).
    rewrite mkdirs_app, Hmk1, Hmk2, fmap_app, Hx1, Hx2.
    repeat split; try congruence. lia.
Qed.

(** What [_run_export] starts its loops with. *)
Lemma prepare_vars self s plan rv s' evs :
  prepare self s = (Normal (plan, rv), s', evs) →
  xdts_doc rv = create_xdts_document (duration plan) ∧
  processed rv = 0 ∧ total_unique rv = 0 ∧ used_layer_names rv = ∅ ∧
  duration plan = end_frame plan - start_frame plan + 1 ∧
  (if use_full_clip_range (options self)
   then ∃ info, omap (λ ev, match ev_call ev as c
                                return Res (ret_type c) → option DocInfo with
                            | GetDocumentInfo =>
                                λ r, match r with
                                     | Val i => Some i | Exc _ => None
                                     end
                            | _ => λ _, None
                            end (ev_res ev)) evs = [info] ∧
                start_frame plan = di_start_frame info ∧
                end_frame plan = di_end_frame info
   else True) ∧
  exports_of evs = [] ∧ omap mkdir_of evs = [] ∧ reports evs = [] ∧
  count_exported evs = 0%nat.
Proof.
  unfold prepare. intros Hrun.
  destruct (include_static (options self)),
    (use_full_clip_range (options self));
    exec Hrun; do 5 (split; [reflexivity|]);
    (split; [first [exact I | eexists; by repeat split]|]);
    by repeat split.
Qed.

End Phases.

(** * Successful runs *)

Section Success.
Context {Layer World Fp : Type} `{Countable Fp} `{!Host Layer World Fp}.
Implicit Types (self : Engine) (plan : Plan Layer) (s : St World)
  (ev : Event Layer) (evs : list (Event Layer)) (f : Event Layer → bool).

(** The end of [_run_export]: the exposure sheet is written under the name
    of the export, and the result is filled in if the writing returns. *)
Lemma finish_spec self plan v s o s' evs :
  finish self plan v s = (o, s', evs) →
  let path :=
    path_join (export_path self)
      ((if Py.truthy (export_name (options self))
        then sanitize_filename (export_name (options self))
        else "export") +:+ ".xdts") in
  ∃ r,
    evs = [Ev (WriteXdtsFile (xdts_doc v.1) path) r] ∧
    match r with
    | Val _ =>
        o = Normal tt ∧
        success (_result s') = true ∧
        output_path (_result s') = path ∧
        track_count (_result s') = Py.len (animated_layers plan) ∧
        unique_frames_exported (_result s') = total_unique v.1 + v.2 ∧
        frame_count (_result s') = frame_count (_result s) ∧
        error_message (_result s') = error_message (_result s)
    | Exc e => o = Raised e ∧ _result s' = _result s
    end.
Proof.
  destruct v as [rv n]. unfold finish. intros Hrun. exec Hrun.
  - eexists (Val a). split; [reflexivity|]. by repeat split.
  - eexists (Exc e). split; [reflexivity|]. by repeat split.
Qed.

(** A run of a new engine that reports success went through its three
    phases and wrote the exposure sheet last. *)
Lemma export_success_inv self w r s' evs :
  export self (new_engine w) = (r, s', evs) →
  success (_result s') = true →
  ∃ plan rv s1 t0 rv1 s2 t1 v s3 t2 path,
    prepare self (new_engine w) = (Normal (plan, rv), s1, t0) ∧
    animated_phase self plan rv s1 = (Normal rv1, s2, t1) ∧
    static_phase self plan rv1 s2 = (Normal v, s3, t2) ∧
    path = path_join (export_path self)
             ((if Py.truthy (export_name (options self))
               then sanitize_filename (export_name (options self))
               else "export") +:+ ".xdts") ∧
    evs = t0 ++ t1 ++ t2 ++ [Ev (WriteXdtsFile (xdts_doc v.1) path) (Val tt)] ∧
    r = inl (_result s') ∧
    output_path (_result s') = path ∧
    track_count (_result s') = Py.len (animated_layers plan) ∧
    unique_frames_exported (_result s') = total_unique v.1 + v.2 ∧
    frame_count (_result s') = frame_count (_result s3) ∧
    error_message (_result s') = "".
Proof.
  intros (o & s4 & Hrun & Hw & Ho)%export_inv Hs.
  pose proof (export_unsuccessful _ _ r s' _ _ _ Hrun Ho) as Hfail.
  rewrite run_export_split in Hrun.
  apply bind_inv in Hrun
    as [(pv & s3 & t & t2 & Hpre & Hfin & ->)|[[Hpre ->]|(e & Hpre & ->)]];
    cycle 1.
  { destruct Hfail as (? & _); [done | congruence]. }
  { destruct Hfail as (? & _); [done | congruence]. }
  destruct pv as [plan v]. cbn [fst snd] in Hfin.
  apply finish_spec in Hfin as (r0 & -> & Hr).
  destruct r0 as [[]|e]; cycle 1.
  { destruct Hr as [-> _]. destruct Hfail as (? & _); [done | congruence]. }
  destruct Hr as (-> & _ & Hp & Htc & Hu & Hfc & Hem). destruct Ho as [-> ->].
  pose proof (verdict_before_write self (new_engine w)) as Hv.
  rewrite Hpre in Hv. destruct Hv as (_ & _ & _ & He).
  apply before_write_inv in Hpre
    as (rv & s1 & t0 & rv1 & s2 & t1 & t2 & Hprep & Hanim & Hstat & ->).
  exists plan, rv, s1, t0, rv1, s2, t1, v, s3, t2. eexists.
  do 3 (split; [done|]). split; [reflexivity|].
  split; [by rewrite <- !(assoc_L (++))|].
  do 5 (split; [done|]). by rewrite Hem, He.
Qed.

Lemma keyframes_of_app evs1 evs2 :
  omap keyframes_of (evs1 ++ evs2)
  = omap keyframes_of evs1 ++ omap keyframes_of evs2.
Proof. apply omap_app. Qed.

Lemma animated_phase_frames self plan :
  ∀ items rv s rv' s' evs,
    for_each items (animated_layer_body self plan) rv s
      = (Normal rv', s', evs) →
    frame_count (_result s') =
      frame_count (_result s) + Py.len (mjoin (omap keyframes_of evs)).
Proof.
  induction items as [|[track_no layer] items IH]; intros rv s rv' s' evs Hrun.
  - injection Hrun as <- <- <-. unfold Py.len. cbn. lia.
  - rewrite for_each_cons in Hrun.
    destruct (animated_layer_body _ _ _ _ _) as [[[rv1| |e] s1] t1] eqn:Hbody;
      [|done|done].
    destruct (for_each _ _ _ _) as [[o2 s2] t2] eqn:Hloop.
    injection Hrun as -> <- <-.
    apply animated_layer_body_normal in Hbody
      as (name & keyframes & Hkf & _ & _ & _ & Hfc & _).
    apply IH in Hloop. rewrite keyframes_of_app, Hkf, Hloop, Hfc.
    unfold Py.len.
    change (mjoin ([keyframes] ++ omap keyframes_of t2))
      with (keyframes ++ mjoin (omap keyframes_of t2)).
    rewrite length_app, Nat2Z.inj_add. lia.
Qed.

Lemma static_phase_keyframes self plan :
  ∀ layers v s o s' evs,
    for_each layers (static_layer_body self plan) v s = (o, s', evs) →
    omap keyframes_of evs = [].
Proof.
  assert (Hturn : ∀ layer v s o s' evs,
            static_layer_body self plan layer v s = (o, s', evs) →
            omap keyframes_of evs = []).
  { intros layer [rv n] s o s' evs Hrun. unfold static_layer_body in Hrun.
    exec Hrun; reflexivity. }
  induction layers as [|layer layers IH]; intros v s o s' evs Hrun.
  - by injection Hrun as <- <- <-.
  - rewrite for_each_cons in Hrun.
    destruct (static_layer_body _ _ _ _ _) as [[[v1| |e] s1] t1] eqn:Hbody.
    + destruct (for_each _ _ _ _) as [[o2 s2] t2] eqn:Hloop.
      injection Hrun as <- <- <-. rewrite keyframes_of_app.
      by rewrite (Hturn _ _ _ _ _ _ Hbody), (IH _ _ _ _ _ Hloop).
    + injection Hrun as <- <- <-. by eapply Hturn.
    + injection Hrun as <- <- <-. by eapply Hturn.
Qed.

Lemma prepare_keyframes self s o s' evs :
  prepare self s = (o, s', evs) → omap keyframes_of evs = [].
Proof.
  unfold prepare. intros Hrun.
  destruct (include_static (options self)),
    (use_full_clip_range (options self));
    exec Hrun; reflexivity.
Qed.

Lemma quiet_written_docs evs : quiet is_write evs → written_docs evs = [].
Proof.
  unfold written_docs. induction 1 as [|[c r] evs Hw _ IH]; [done|].
  cbn. rewrite IH. by destruct c.
Qed.

(** The counters of the result.  After a successful run of a new engine,
    [unique_frames_exported] is the number of image exports that answered
    [True] and [frame_count] is the number of keyframes that
    [get_layer_keyframes] handed over, all layers together.  After a run
    that did not succeed [unique_frames_exported] is 0, whatever has been
    exported before the run ended. *)
Theorem result_counters self w r s' evs :
  export self (new_engine w) = (r, s', evs) →
  (success (_result s') = true →
     unique_frames_exported (_result s') = Z.of_nat (count_exported evs) ∧
     frame_count (_result s') = Py.len (mjoin (omap keyframes_of evs))) ∧
  (success (_result s') = false →
     unique_frames_exported (_result s') = 0).
Proof.
  intros Hexp. split.
  - intros Hs.
    destruct (export_success_inv _ _ _ _ _ Hexp Hs)
      as (plan & rv & s1 & t0 & rv1 & s2 & t1 & [rv2 n] & s3 & t2 & path
          & Hprep & Hanim & Hstat & _ & -> & _ & _ & _ & Hu & Hfc & _).
    pose proof (prepare_keyframes _ _ _ _ _ Hprep) as Hk0.
    pose proof (prepare_normal _ _ _ _ _ _ Hprep) as (Hr0 & _).
    apply prepare_vars in Hprep as (_ & _ & Hu0 & _ & _ & _ & _ & _ & _ & Hn0).
    pose proof (animated_phase_frames _ _ _ _ _ _ _ _ Hanim) as Hf1.
    apply animated_phase_account in Hanim as (_ & _ & _ & _ & Hu1 & _).
    pose proof (static_phase_keyframes _ _ _ _ _ _ _ _ Hstat) as Hk2.
    pose proof (static_phase_normal _ _ _ _ _ _ _ _ Hstat) as [Hr2 _].
    apply static_phase_account in Hstat as (_ & Hu2 & Hn2 & _).
    pose proof (λ a b : list (Event Layer),
                  proj1 (proj2 (accounting_app a b))) as Happ.
    rewrite !Happ.
    rewrite !keyframes_of_app, Hk0, Hk2. cbn [app fst snd] in *.
    change (count_exported [_]) with 0%nat.
    change (omap keyframes_of [_]) with (@nil (list Z)).
    rewrite app_nil_r. split; [lia|].
    rewrite Hfc, Hr2, Hf1, Hr0. reflexivity.
  - intros Hs. apply export_inv in Hexp as (o & s1 & Hrun & _ & Ho).
    pose proof (run_export_outcome _ _ _ _ _ Hrun) as Hout.
    destruct o as [[]| |e].
    + destruct Ho as [_ ->]. destruct Hout as (Hs' & _). congruence.
    + destruct Ho as [_ ->]. by destruct Hout as ((_ & _ & _ & ->) & _).
    + destruct Hout as ((_ & _ & _ & Hu) & _).
      destruct (exn_is_Exception e).
      * destruct Ho as [_ ->]. exact Hu.
      * destruct Ho as [_ ->]. exact Hu.
Qed.

(** The exposure sheet that a successful run writes.  It is written once,
    as [<export_name>.xdts] (or [export.xdts] without a name) in the export
    path, which is also the [output_path] of the result; it has the format
    version 5 and the duration [end_frame - start_frame + 1], and one track
    per animated layer, the tracks numbered from 0 in the order of the
    layers; a folder was made for each track, named after it; and
    [track_count] is the number of tracks. *)
Theorem written_document_shape self w r s' evs :
  export self (new_engine w) = (r, s', evs) →
  success (_result s') = true →
  ∃ plan v s1 t doc,
    before_write self (new_engine w) = (Normal (plan, v), s1, t) ∧
    evs = t ++ [Ev (WriteXdtsFile doc (output_path (_result s'))) (Val tt)] ∧
    written_docs evs = [doc] ∧
    output_path (_result s') =
      path_join (export_path self)
        ((if decide (export_name (options self) = "") then "export"
          else sanitize_filename (export_name (options self))) +:+ ".xdts") ∧
    doc_version doc = 5 ∧
    doc_duration doc = end_frame plan - start_frame plan + 1 ∧
    track_index <$> doc_tracks doc = seqZ 0 (track_count (_result s')) ∧
    track_count (_result s') = Py.len (animated_layers plan) ∧
    omap mkdir_of evs =
      (λ tr, path_join (export_path self) (track_name tr)) <$> doc_tracks doc.
Proof.
  intros Hexp Hs.
  destruct (export_success_inv _ _ _ _ _ Hexp Hs)
    as (plan & rv & s1 & t0 & rv1 & s2 & t1 & [rv2 n] & s3 & t2 & path
        & Hprep & Hanim & Hstat & Hpath & -> & _ & Hout & Htc & _).
  pose proof (verdict_before_write self (new_engine w)) as Hv.
  assert (Hbw : before_write self (new_engine w)
                = (Normal (plan, (rv2, n)), s3, t0 ++ t1 ++ t2)).
  { unfold before_write, bind, ret. rewrite Hprep, Hanim, Hstat.
    by rewrite !app_nil_r. }
  rewrite Hbw in Hv. destruct Hv as (_ & Hqw & _).
  apply prepare_vars in Hprep
    as (Hdoc0 & _ & _ & _ & Hdur & _ & _ & Hmk0 & _).
  apply animated_phase_account in Hanim
    as (tracks & Hdoc1 & Hidx & Hmk1 & _ & _ & _ & Hver & Hd).
  apply static_phase_account in Hstat as (Hdoc2 & _ & _ & Hmk2 & _).
  cbn [fst] in *. rewrite Hdoc0 in Hdoc1, Hver, Hd. cbn in Hdoc1, Hver, Hd.
  exists plan, (rv2, n), s3, (t0 ++ t1 ++ t2), (xdts_doc rv2).
  split; [done|]. rewrite Hout.
  split; [by rewrite <- !(assoc_L (++))|]. split.
  { apply quiet_written_docs in Hqw. unfold written_docs in *.
    rewrite !app_assoc, omap_app. rewrite <- !app_assoc. by rewrite Hqw. }
  split.
  { rewrite Hpath. by destruct (export_name (options self)). }
  rewrite Hdoc2, Hver, Hd, Hdoc1, Htc.
  split; [done|]. split; [done|]. split; [exact Hidx|]. split; [done|].
  rewrite !mkdirs_app, Hmk0, Hmk1, Hmk2. cbn. by rewrite app_nil_r.
Qed.

End Success.

(** * Tracks and their images *)

Section TrackImages.
Context {Layer World Fp : Type} `{Countable Fp} `{!Host Layer World Fp}.
Implicit Types (self : Engine) (plan : Plan Layer) (s : St World)
  (ev : Event Layer) (evs : list (Event Layer)) (f : Event Layer → bool).

Lemma assign_labels_numbered (hashes : list Fp) label :
  label ∈ assign_labels hashes ∅ →
  ∃ k : nat,
    label = Py.str (Z.of_nat k) ∧
    (1 ≤ k ≤ size (list_to_set hashes : gset Fp))%nat.
Proof.
  intros (i & Hi)%list_elem_of_lookup_1.
  destruct (lookup_lt_is_Some_2 hashes i) as [h Hh].
  { rewrite <- (assign_labels_length hashes ∅).
    by eapply lookup_lt_Some. }
  pose proof (assign_labels_recorded _ _ _ _ _ Hh Hi) as Hrec.
  destruct (cache_after_well_numbered hashes ∅ well_numbered_empty)
    as [Hnum _].
  apply Hnum in Hrec as (k & -> & Hk). exists k.
  by rewrite cache_after_empty_size in Hk.
Qed.

(** Images and cells of a track.  When the processing of an animated layer
    runs to its end, one folder has been made for it, named after the track;
    one image has been exported for each distinct picture of the layer, none
    twice, to the files numbered 1, 2, ... in that folder, and every export
    answered [True]; and every cell of the track is the null cell or the
    number of one of these files. *)
Theorem one_image_per_picture self plan track_no layer rv s rv' s' evs :
  animated_layer_body self plan (track_no, layer) rv s
    = (Normal rv', s', evs) →
  ∃ tr,
    let folder := path_join (export_path self) (track_name tr) in
    let images :=
      Z.of_nat (size (list_to_set (compute_content_hash <$> pixels_seen evs)
                        : gset Fp)) in
    doc_tracks (xdts_doc rv') = doc_tracks (xdts_doc rv) ++ [tr] ∧
    omap mkdir_of evs = [folder] ∧
    (exports_of evs).*2 =
      (λ k, path_join folder
              (_build_filename (options self) (track_name tr) k))
      <$> seqZ 1 images ∧
    Forall (λ x, x.1.1 = layer) (exports_of evs) ∧
    Z.of_nat (count_exported evs) = images ∧
    length (exports_of evs) = count_exported evs ∧
    Forall (λ cell, cell = SYMBOL_NULL_CELL ∨
                    ∃ k, 1 ≤ k ≤ images ∧ cell = Py.str k)
      (track_entries tr).*2.
Proof.
  intros Hrun. pose proof Hrun as Hacc.
  apply animated_layer_body_account in Hacc
    as (tr & Hdoc & _ & Hmk & Hx & Hl & Hn & _).
  apply animated_layer_body_normal in Hrun
    as (name & keyframes & _ & Hdoc' & Hlen & _ & _ & Hpx).
  rewrite Hdoc in Hdoc'. apply app_inv_head in Hdoc'. injection Hdoc' as ->.
  cbn [track_name track_entries] in *.
  eexists. split; [exact Hdoc|]. cbn [track_name track_entries].
  split; [done|]. split; [exact Hx|]. split; [done|]. split; [done|]. split.
  { apply (f_equal length) in Hx.
    rewrite !length_fmap, length_seqZ in Hx. lia. }
  destruct (track_cells_labels (stops_seen evs)
              (compute_content_hash <$> pixels_seen evs) ∅)
    as [Hcells Hlabels]; [by rewrite length_fmap | apply well_numbered_empty |].
  rewrite fmap_app, snd_zip by (rewrite Hcells, length_fmap; lia).
  apply Forall_app. split.
  - apply Forall_forall. intros cell Hin.
    destruct (decide (cell = SYMBOL_NULL_CELL)) as [|Hne]; [by left|right].
    assert (Hin' : cell ∈ assign_labels
                     (compute_content_hash <$> pixels_seen evs) ∅).
    { rewrite <- Hlabels. by apply list_elem_of_filter. }
    apply assign_labels_numbered in Hin' as (k & -> & Hk).
    exists (Z.of_nat k). split; [lia | done].
  - destruct (default false (last (stops_seen evs))); repeat constructor.
Qed.

(** Offsets of a track.  When the keyframes handed over for a layer are in
    increasing order and inside the frame range, the range is not empty and
    the duration is [end_frame - start_frame + 1] as [_run_export] computes it,
    the offsets
    of the entries of the track are strictly increasing (no two entries
    share an offset) and lie between 0 and the duration. *)
Theorem track_offsets_increasing self plan track_no layer rv s rv' s' evs
    keyframes :
  animated_layer_body self plan (track_no, layer) rv s
    = (Normal rv', s', evs) →
  omap keyframes_of evs = [keyframes] →
  StronglySorted Z.lt keyframes →
  Forall (λ frame, start_frame plan ≤ frame ≤ end_frame plan) keyframes →
  start_frame plan ≤ end_frame plan →
  duration plan = end_frame plan - start_frame plan + 1 →
  ∃ tr,
    doc_tracks (xdts_doc rv') = doc_tracks (xdts_doc rv) ++ [tr] ∧
    StronglySorted Z.lt (track_entries tr).*1 ∧
    Forall (λ offset, 0 ≤ offset ≤ duration plan) (track_entries tr).*1.
Proof.
  intros Hrun Hkf Hsorted Hrange Hle Hdur.
  apply animated_layer_body_normal in Hrun
    as (name & keyframes' & Hkf' & Hdoc & Hlen & _ & _ & Hpx).
  rewrite Hkf in Hkf'. injection Hkf' as <-.
  destruct (track_cells_labels (stops_seen evs)
              (compute_content_hash <$> pixels_seen evs) ∅)
    as [Hcells _]; [by rewrite length_fmap | apply well_numbered_empty |].
  eexists. split; [exact Hdoc|]. cbn [track_entries].
  rewrite fmap_app, fst_zip by (rewrite Hcells, length_fmap; lia).
  assert (Hoff : Forall (λ offset, 0 ≤ offset < duration plan)
                   ((λ frame, frame - start_frame plan) <$> keyframes)).
  { apply Forall_fmap. eapply Forall_impl; [exact Hrange|].
    intros frame [? ?]. cbn. lia. }
  split.
  - apply StronglySorted_app_2.
    + intros a b Ha Hb. eapply Forall_forall in Hoff; [|exact Ha].
      destruct Hoff as [? ?].
      destruct (default false (last (stops_seen evs)));
        [by apply elem_of_nil in Hb|].
      apply list_elem_of_singleton in Hb as ->. cbn. lia.
    + apply (StronglySorted_fmap _ Z.lt Z.lt); [|done].
      intros a b ?. lia.
    + destruct (default false (last (stops_seen evs))); repeat constructor.
  - apply Forall_app. split.
    + eapply Forall_impl; [exact Hoff|]. intros offset [? ?]. cbn. lia.
    + destruct (default false (last (stops_seen evs))); [constructor|].
      constructor; [cbn; lia | constructor].
Qed.

End TrackImages.

(** * Progress reports *)


Section Progress.
Context {Layer World Fp : Type} `{Countable Fp} `{!Host Layer World Fp}.
Implicit Types (self : Engine) (plan : Plan Layer) (s : St World)
  (ev : Event Layer) (evs : list (Event Layer)) (f : Event Layer → bool).

















End Progress.

(** * The ways a run ends *)

Section Ends.
Context {Layer World Fp : Type} `{Countable Fp} `{!Host Layer World Fp}.
Implicit Types (self : Engine) (plan : Plan Layer) (s : St World)
  (ev : Event Layer) (evs : list (Event Layer)) (f : Event Layer → bool).

Lemma call_not_returned (c : Call Layer) s s' evs :
  call c s ≠ (Returned, s', evs).
Proof. unfold call. by destruct (host c (world s)) as [[a|e] w]. Qed.

Lemma for_each_returned {A V} (P : Event Layer → Prop) (xs : list A)
    (body : A → V → M Layer World V) :
  (∀ x v s s' evs, body x v s = (Returned, s', evs) →
     ∃ ev, last evs = Some ev ∧ P ev) →
  ∀ v s s' evs, for_each xs body v s = (Returned, s', evs) →
     ∃ ev, last evs = Some ev ∧ P ev.
Proof.
  intros Hbody. induction xs as [|x xs IH]; intros v s s' evs Hrun; [done|].
  rewrite for_each_cons in Hrun.
  destruct (body x v s) as [[[v1| |e] s1] t1] eqn:Hb; [| |done].
  - destruct (for_each xs body v1 s1) as [[o2 s2] t2] eqn:Hloop.
    injection Hrun as -> <- <-.
    destruct (IH _ _ _ _ Hloop) as (ev & Hl & Hp).
    exists ev. split; [by apply last_app_Some | done].
  - injection Hrun as <- <-. by eapply Hbody.
Qed.

Lemma keyframe_body_returned self plan layer name folder track frame v s
    s' evs :
  keyframe_body self plan layer name folder track frame v s
    = (Returned, s', evs) →
  ∃ ev, last evs = Some ev ∧ aborting ev = true.
Proof.
  destruct v as [rv tv]. unfold keyframe_body, _process_frame. intros Hrun.
  exec Hrun; eexists; split; reflexivity.
Qed.

(** The loop over the animated layers is left by [return] only after a
    cancellation or a failed export. *)
Lemma animated_phase_returned self plan rv s s' evs :
  animated_phase self plan rv s = (Returned, s', evs) →
  ∃ ev, last evs = Some ev ∧ aborting ev = true.
Proof.
  apply for_each_returned. clear. intros [track_no layer] rv s s' evs.
  unfold animated_layer_body. intros Hrun.
  apply bind_inv in Hrun
    as [(raw & s1 & t1 & t1' & _ & Hrun & ->)|[[Hc _]|(e & _ & ?)]];
    [|by apply call_not_returned in Hc|done].
  destruct (make_unique_name _ _) as [layer_name used].
  apply bind_inv in Hrun
    as [(made & s2 & t2 & t2' & _ & Hrun & ->)|[[Hc _]|(e & _ & ?)]];
    [|by apply call_not_returned in Hc|done].
  cbn [add_track] in Hrun.
  apply bind_inv in Hrun
    as [(keyframes & s3 & t3 & t3' & _ & Hrun & ->)|[[Hc _]|(e & _ & ?)]];
    [|by apply call_not_returned in Hc|done].
  apply bind_inv in Hrun
    as [([rv1 tv1] & s4 & t4 & t4' & _ & Hrun & ->)|[[Hloop _]|(e & _ & ?)]];
    [| |done].
  - by exec Hrun.
  - eapply for_each_returned in Hloop as (ev & Hl & Hp);
      [|intros; by eapply keyframe_body_returned].
    exists ev. split; [|done]. by do 3 apply last_app_Some.
Qed.

Lemma prepare_returned self s s' evs :
  prepare self s = (Returned, s', evs) →
  quiet has_layers evs ∧ quiet aborting evs ∧
  error_message (_result s') = "No exportable layers found".
Proof.
  unfold prepare. intros Hrun.
  destruct (include_static (options self)),
    (use_full_clip_range (options self));
    exec Hrun; (split; [quiet_list|]); (split; [quiet_list | reflexivity]).
Qed.

(** [_run_export] executes [return] for one of three reasons. *)
Lemma run_export_returned self s s' evs :
  _run_export self s = (Returned, s', evs) →
  cancelled_end s' evs ∨ failed_end self s' evs ∨
  (quiet has_layers evs ∧ quiet aborting evs ∧
   error_message (_result s') = "No exportable layers found").
Proof.
  unfold _run_export. intros Hrun.
  apply bind_inv in Hrun
    as [([plan rv] & s1 & t0 & t0' & Hprep & Hrun & ->)|[[Hprep _]|(e & _ & ?)]];
    [| |done]; cycle 1.
  { right; right. by eapply prepare_returned. }
  apply bind_inv in Hrun
    as [(rv1 & s2 & t1 & t1' & Hanim & Hrun & ->)|[[Hanim _]|(e & _ & ?)]];
    [| |done]; cycle 1.
  { pose proof (verdict_animated_phase self plan rv s1) as Hv.
    rewrite Hanim in Hv. destruct Hv as (_ & _ & _ & [Hc|[Hf|[Hq _]]]).
    - left. by apply cancelled_end_app.
    - right; left. by apply failed_end_app.
    - apply animated_phase_returned in Hanim as (ev & Hl & Hab).
      apply last_Some_elem_of in Hl.
      pose proof (quiet_elem _ _ _ Hq Hl). congruence. }
  apply bind_inv in Hrun
    as [(v & s3 & t2 & t2' & Hstat & Hrun & ->)|[[Hstat _]|(e & _ & ?)]];
    [| |done]; cycle 1.
  { pose proof (verdict_static_phase self plan rv1 s2) as Hv.
    rewrite Hstat in Hv. destruct Hv as (_ & _ & _ & [Hc|[Hf|[Hq _]]]).
    - left. by do 2 apply cancelled_end_app.
    - right; left. by do 2 apply failed_end_app.
    - apply static_phase_abrupt in Hstat as (ev & Hl & Hfa); [|done].
      apply last_Some_elem_of in Hl.
      pose proof (quiet_elem _ _ _ Hq Hl). congruence. }
  apply finish_spec in Hrun as (r0 & _ & Hr). by destruct r0 as [a|e], Hr.
Qed.

(** The five ways of ending exclude each other. *)
Lemma ended_as_unique self res evs (ending other : Ending) :
  ended_as self res evs ending → ended_as self res evs other →
  other = ending.
Proof.
  assert (Hab : ∀ ev, last evs = Some ev → quiet aborting evs →
                      aborting ev = false).
  { intros ev Hl%last_Some_elem_of Hq. by eapply quiet_elem. }
  assert (Hlast : ∀ ev ev', last evs = Some ev → last evs = Some ev' →
                            ev = ev') by congruence.
  assert (Hfatal : ∀ ev e, exn_of ev = Some e → aborting ev = true).
  { intros ev e He. unfold aborting, fatal. rewrite He.
    by rewrite orb_true_r. }
  destruct ending, other; try reflexivity; cbn [ended_as]; unfold nothing_written.
  all: intros H1 H2; exfalso.
  all: try (destruct H1 as (Hs1 & _); destruct H2 as ((Hs2 & _) & _);
            congruence).
  all: try (destruct H2 as (Hs2 & _); destruct H1 as ((Hs1 & _) & _);
            congruence).
  all: repeat match goal with
         | H : _ ∧ _ |- _ => destruct H
         | H : ∃ _, _ |- _ => destruct H
         end.
  all: try (match goal with
            | Hl : last ?l = Some ?ev, Hq : quiet aborting ?l |- _ =>
                pose proof (Hab _ Hl Hq) as Ha;
                first [ discriminate Ha
                      | match goal with
                        | He : exn_of _ = Some _ |- _ =>
                            rewrite (Hfatal _ _ He) in Ha; discriminate Ha
                        end ]
            end).
  all: match goal with
       | Hl : last ?l = Some ?ev, Hl' : last ?l = Some ?ev' |- _ =>
           pose proof (Hlast _ _ Hl Hl') as Heq
       end.
  all: first
         [ apply (f_equal positive_poll) in Heq; discriminate Heq
         | subst; match goal with
                  | He : exn_of _ = Some _ |- _ => discriminate He
                  end ].
Qed.

(** The results of [export].  A run of a new engine that hands back a result
    ends in exactly one of five ways.  The run succeeded: the exposure sheet
    has just been written to [output_path] and the error message is empty.
    Or it did not, [output_path] is empty, [track_count] and
    [unique_frames_exported] are 0, and: the last interaction was a positive
    cancellation check and the message is [Export cancelled by user]; or it
    was a failed image export and the message names its frame and its layer;
    or no interaction raised, cancelled or failed, no layer had been handed
    over and the message is [No exportable layers found]; or the last
    interaction raised an [Exception], whose text is the message. *)
Theorem export_result_classified self w res s' evs :
  export self (new_engine w) = (inl res, s', evs) →
  res = _result s' ∧
  ∃ ending,
    ended_as self res evs ending ∧
    ∀ other, ended_as self res evs other → other = ending.
Proof.
  intros (o & s1 & Hrun & _ & Ho)%export_inv.
  pose proof (run_export_outcome _ _ _ _ _ Hrun) as Hout.
  assert (Hex : res = _result s' ∧ ∃ ending, ended_as self res evs ending).
  { destruct o as [[]| |e].
    - destruct Ho as [[= ->] ->]. split; [done|]. exists Written.
      destruct Hout as (Hs & _ & Hm & doc & path & Hl & <-).
      split; [done|]. split; [done|]. by exists doc.
    - destruct Ho as [[= ->] ->]. split; [done|].
      destruct Hout as ((Hs & Hp & Ht & Hu) & _ & _).
      apply run_export_returned in Hrun as [[Hl Hm]|[Hf|Hn]].
      + by exists Cancelled.
      + by exists ExportFailed.
      + by exists NoLayers.
    - destruct Hout as ((Hs & Hp & Ht & Hu) & Hl & _).
      destruct (exn_is_Exception e) eqn:He; [|by destruct Ho].
      destruct Ho as [[= ->] Hr]. split; [done|]. exists ExceptionCaught.
      rewrite Hr. split; [done|].
      destruct (last evs) as [ev|]; [|done]. by exists ev, e. }
  destruct Hex as [Hres [ending Hend]]. split; [done|].
  exists ending. split; [done|]. intros other Hother.
  by eapply ended_as_unique.
Qed.

(** A run that does not write the exposure sheet, whatever the result held
    before it (the engine may have run before: [__init__] alone makes a new
    result).  It leaves [output_path], [track_count] and
    [unique_frames_exported] as they were; [success] is set to [False] when
    an exception was caught, and is otherwise left as it was, also when the
    run was cancelled or an image could not be exported. *)
Theorem unfinished_run_keeps_result self s res s' evs :
  export self s = (inl res, s', evs) →
  quiet is_write evs →
  output_path res = output_path (_result s) ∧
  track_count res = track_count (_result s) ∧
  unique_frames_exported res = unique_frames_exported (_result s) ∧
  success res =
    match last evs ≫= exn_of with
    | Some _ => false
    | None => success (_result s)
    end.
Proof.
  intros (o & s1 & Hrun & _ & Ho)%export_inv Hq.
  pose proof (run_export_outcome _ _ _ _ _ Hrun) as Hout.
  destruct o as [[]| |e].
  - destruct Hout as (_ & _ & _ & doc & path & Hl & _).
    apply last_Some_elem_of in Hl.
    pose proof (quiet_elem _ _ _ Hq Hl). done.
  - destruct Ho as [[= ->] ->].
    destruct Hout as ((Hs & Hp & Ht & Hu) & _ & Hend).
    do 3 (split; [done|]).
    destruct (last evs) as [ev|] eqn:Hl; [|done]. cbn.
    destruct (exn_of ev) as [e|] eqn:He; [|done].
    by destruct (ends_not_exn _ _ _ _ _ Hend Hl He).
  - destruct Hout as ((Hs & Hp & Ht & Hu) & Hl & _). rewrite Hl.
    destruct (exn_is_Exception e); [|by destruct Ho].
    destruct Ho as [[= ->] ->]. by repeat split.
Qed.

End Ends.

(** * Options and results as data *)

Lemma dict_get_insert_ne (data : gmap string PyVal) k v key d :
  k ≠ key → dict_get (<[k := v]> data) key d = dict_get data key d.
Proof. intros Hne. unfold dict_get. by rewrite lookup_insert_ne. Qed.

Lemma dict_get_agree (data1 data2 : gmap string PyVal) key d :
  data1 !! key = data2 !! key → dict_get data1 key d = dict_get data2 key d.
Proof. unfold dict_get. by intros ->. Qed.

(** [ExportOptions.from_dict].  A dictionary without any of the twelve
    option keys gives the attributes that [__init__] sets, so that
    [from_dict({})] is [ExportOptions()]; the result depends on the twelve
    keys alone, other keys are ignored; and the dictionary that holds the
    attributes of an options object under their names gives that object
    back. *)
Theorem from_dict_defaults :
  (∀ data,
     Forall (λ key, data !! key = None) option_keys →
     from_dict data = values_of ExportOptions_init) ∧
  (∀ data key v,
     key ∉ option_keys → from_dict (<[key := v]> data) = from_dict data) ∧
  (∀ data1 data2,
     Forall (λ key, data1 !! key = data2 !! key) option_keys →
     from_dict data1 = from_dict data2) ∧
  (∀ opts, from_dict (options_dict opts) = values_of opts).
Proof.
  split; [|split; [|split]].
  - intros data Hkeys. unfold option_keys in Hkeys.
    repeat (apply Forall_cons in Hkeys as [? Hkeys]).
    unfold from_dict, dict_get.
    repeat match goal with Hk : data !! _ = None |- _ =>
             rewrite Hk; clear Hk end.
    reflexivity.
  - intros data key v Hkey. unfold from_dict.
    rewrite !dict_get_insert_ne; [done|..];
      intros ->; apply Hkey; unfold option_keys;
      repeat first [apply list_elem_of_here | apply list_elem_of_further].
  - intros data1 data2 Hkeys. unfold option_keys in Hkeys.
    repeat (apply Forall_cons in Hkeys as [? Hkeys]).
    unfold from_dict. f_equal; by apply dict_get_agree.
  - intros opts. reflexivity.
Qed.

(** ** File names do not collide *)

Lemma append_inj_r (a b x : string) : a +:+ x = b +:+ x → a = b.
Proof.
  revert b. induction a as [|c a IH]; intros [|d b] Heq; [done| | |].
  - apply (f_equal String.length) in Heq.
    rewrite !length_append in Heq. simpl in Heq. lia.
  - apply (f_equal String.length) in Heq.
    rewrite !length_append in Heq. simpl in Heq. lia.
  - change (String c (a +:+ x) = String d (b +:+ x)) in Heq.
    injection Heq as -> Heq. f_equal. by apply IH.
Qed.

Lemma append_inj_l (x a b : string) : x +:+ a = x +:+ b → a = b.
Proof.
  induction x as [|c x IH]; [done|].
  change (String c (x +:+ a) = String c (x +:+ b) → a = b).
  intros [= Heq]. auto.
Qed.

Lemma join_snoc_inj (sep : string) (parts : list string) (a b : string) :
  Py.join sep (parts ++ [a]) = Py.join sep (parts ++ [b]) → a = b.
Proof.
  unfold Py.join. induction parts as [|p parts IH]; cbn; [done|].
  destruct parts as [|q parts]; cbn in *.
  - intros Heq%append_inj_l. by apply append_inj_l in Heq.
  - intros Heq%append_inj_l. apply append_inj_l in Heq. by apply IH.
Qed.

Lemma int_to_str_inj (a b : Z) :
  0 ≤ a → 0 ≤ b → int_to_str a = int_to_str b → a = b.
Proof.
  intros Ha Hb Heq.
  destruct (int_to_str_digits a Ha) as [_ <-].
  destruct (int_to_str_digits b Hb) as [_ <-]. by rewrite Heq.
Qed.

(** With the same options and the same layer name, two cell numbers give
    the same file name only if they are equal: the images of a track do not
    overwrite each other. *)
Theorem build_filename_injective (options : ExportOptions)
    (layer_name : string) (a b : Z) :
  0 ≤ a → 0 ≤ b →
  _build_filename options layer_name a = _build_filename options layer_name b →
  a = b.
Proof.
  intros Ha Hb. rewrite !build_filename_parts. intros Heq%append_inj_r.
  rewrite !(assoc_L (++)) in Heq. apply join_snoc_inj in Heq.
  by apply int_to_str_inj.
Qed.

(** ** The result as text *)

Section ResultText.
Context {Layer World Fp : Type} `{Countable Fp} `{!Host Layer World Fp}.
Implicit Types (self : Engine) (plan : Plan Layer) (s : St World)
  (ev : Event Layer) (evs : list (Event Layer)).

Lemma successful_counts self w r s' evs :
  export self (new_engine w) = (r, s', evs) →
  success (_result s') = true →
  track_count (_result s') = Z.of_nat (length (omap mkdir_of evs)) ∧
  unique_frames_exported (_result s') = Z.of_nat (count_exported evs).
Proof.
  intros Hexp Hs.
  destruct (export_success_inv _ _ _ _ _ Hexp Hs)
    as (plan & rv & s1 & t0 & rv1 & s2 & t1 & [rv2 n] & s3 & t2 & path
        & Hprep & Hanim & Hstat & _ & -> & _ & _ & Htc & Hu & _).
  apply prepare_vars in Hprep as (_ & _ & Hu0 & _ & _ & _ & _ & Hmk0 & _ & Hn0).
  apply animated_phase_account in Hanim
    as (tracks & _ & Hidx & Hmk1 & Hu1 & _).
  apply static_phase_account in Hstat as (_ & Hu2 & Hn2 & Hmk2 & _).
  pose proof (λ a b : list (Event Layer),
                proj1 (proj2 (accounting_app a b))) as Happ.
  rewrite !Happ, !mkdirs_app, Hmk0, Hmk1, Hmk2, Hn0. cbn [fst snd] in *.
  change (count_exported [_]) with 0%nat.
  apply (f_equal length) in Hidx.
  rewrite length_fmap, length_seqZ in Hidx.
  unfold enumerate in *. cbn [app]. rewrite !length_app, length_fmap.
  cbn [length omap list_omap mkdir_of ev_call]. unfold Py.len in Htc.
  split; lia.
Qed.

(** The text of a result ([__str__]).  For the result of a run of a new
    engine it is [Export complete: N tracks, U unique frames], with [N] the
    number of layer folders made and [U] the number of image exports that
    answered [True], when the run succeeded, and [Export failed: ] followed
    by the error message when it did not. *)
Theorem result_text self w res s' evs :
  export self (new_engine w) = (inl res, s', evs) →
  ExportResult_str res =
    if success res
    then "Export complete: "
           +:+ Py.str (Z.of_nat (length (omap mkdir_of evs)))
           +:+ " tracks, "
           +:+ Py.str (Z.of_nat (count_exported evs)) +:+ " unique frames"
    else "Export failed: " +:+ error_message res.
Proof.
  intros Hexp. unfold ExportResult_str.
  destruct (success res) eqn:Hs; [|done].
  assert (res = _result s') as ->.
  { apply export_inv in Hexp as (o & s1 & _ & _ & Ho).
    destruct o as [[]| |e]; try (destruct Ho as [[= ->] _]; done).
    destruct (exn_is_Exception e); by destruct Ho as [[= ->] _]. }
  by destruct (successful_counts _ _ _ _ _ Hexp Hs) as [-> ->].
Qed.

End ResultText.

(** * The frame exporter *)

Ltac kexec_step H :=
  lazymatch type of H with
  | (_, _, _) = (_, _, _) => fail
  | _ =>
    match type of H with
    | context [match krita ?c ?w with _ => _ end] =>
        let a := fresh "a" in
        let e := fresh "e" in
        let w' := fresh "w" in
        let Hk := fresh "Hkrita" in
        destruct (krita c w) as [[a|e] w'] eqn:Hk
    | context [match ?l with [] => _ | _ :: _ => _ end] =>
        is_var l; destruct l
    | context [match ?o with Some _ => _ | None => _ end] =>
        is_var o; destruct o
    | context [if String.eqb ?a ?b then _ else _] =>
        let He := fresh "Hext" in destruct (String.eqb a b) eqn:He
    end
  end.

Ltac kexec H :=
  unfold export_frame, _create_temp_document, _transfer_pixels,
    _build_png_config, _build_tga_config, FrameExporter_init, try_finally,
    kbind, kcall, kpure in H;
  repeat kexec_step H;
  first [discriminate H | (injection H; clear H; intros; subst)].

Section FrameExporterFacts.
Context {K : KritaTypes} {KWorld : Type} `{!Krita K KWorld}.
Implicit Types (self : FrameExporter K) (layer : KLayer K)
  (w : KWorld) (evs : list (KEvent K)).

(** Temporary documents are closed.  In every run of [export_frame],
    whatever Krita answers and whatever raises: either no temporary document
    was created and none is closed, or one was created and the last call of
    the run closes it, the only [close] of the run. *)
Theorem temp_document_closed self layer frame_number output_path w r w' evs :
  export_frame self layer frame_number output_path w = (r, w', evs) →
  (omap created_of evs = [] ∧ omap closed_of evs = []) ∨
  (∃ doc res,
     last evs = Some (KEv (TempClose doc) res) ∧
     omap created_of evs = [doc] ∧ omap closed_of evs = [doc]).
Proof.
  intros Hrun. kexec Hrun;
    first [ left; split; reflexivity
          | right; eexists _, _; split; [reflexivity|]; split; reflexivity ].
Qed.

(** A frame exported.  When [export_frame] returns [True]: the source
    document was moved to the frame, once; the pixels of the layer were read
    once, over the rectangle of the cached size, and were not empty; one
    temporary document was created, its root node was asked for once, and the
    children of that node once; the pixels read were written once, over the
    same rectangle, to the first of these children, and nothing was written
    when the root node has no child; one image was written, from that
    document to the given path, and Krita answered [True]; and its
    configuration got [alpha] alone for a [.tga] path, and [alpha],
    [compression] 6, [indexed] and [interlaced] otherwise. *)
Theorem export_frame_true self layer frame_number output_path w w' evs :
  export_frame self layer frame_number output_path w = (Val true, w', evs) →
  ∃ data doc root children config,
    data ≠ [] ∧
    omap time_of evs = [frame_number] ∧
    omap read_of evs = [(layer, (0, 0, _width self, _height self), data)] ∧
    omap created_of evs = [doc] ∧
    omap root_of evs = [(doc, root)] ∧
    omap children_of evs = [(root, children)] ∧
    omap written_of evs =
      match children with
      | target_layer :: _ =>
          [(target_layer, (0, 0, _width self, _height self), data)]
      | [] => []
      end ∧
    omap image_of evs = [(doc, output_path, config)] ∧
    existsb image_ok evs = true ∧
    omap property_of evs =
      (if String.eqb (str_lower (splitext_ext output_path)) ".tga"
       then [(config, "alpha", PyBool true)]
       else [(config, "alpha", PyBool true);
             (config, "compression", PyInt DEFAULT_PNG_COMPRESSION);
             (config, "indexed", PyBool false);
             (config, "interlaced", PyBool false)]).
Proof.
  intros Hrun. kexec Hrun;
    match goal with
    | Hk : krita (LayerProjectionPixelData _ _ _ _ _) _ = (Val ?d, _) |- _ =>
        exists d
    end;
    eexists _, _, _, _; (split; [done|]);
    do 6 (split; [reflexivity|]);
    (split; [reflexivity|]); split; reflexivity.
Qed.

(** No image.  [export_frame] returns [False], without creating a document
    or writing an image, when the layer has no pixel data; it returns
    [False], without writing an image and with nothing to close, when Krita
    creates no document; whenever it returns, its value is [True] exactly
    when an image was written and Krita answered [True]; and it never writes
    more than one image. *)
Theorem export_frame_without_image self layer frame_number output_path
    w r w' evs :
  export_frame self layer frame_number output_path w = (r, w', evs) →
  (existsb no_pixels evs = true →
     r = Val false ∧ existsb is_create evs = false ∧
     omap image_of evs = []) ∧
  (existsb no_document evs = true →
     r = Val false ∧ omap image_of evs = [] ∧ omap closed_of evs = []) ∧
  (∀ b, r = Val b → b = existsb image_ok evs) ∧
  (length (omap image_of evs) ≤ 1)%nat.
Proof.
  intros Hrun. kexec Hrun;
    (split; [intros Hn; first [discriminate Hn | by repeat split]|]);
    (split; [intros Hn; first [discriminate Hn | by repeat split]|]);
    (split; [intros flag [= <-]; cbn; by rewrite ?orb_false_r
            | cbn; lia]).
Qed.

End FrameExporterFacts.

(** * More runs of the scripted hosts *)

(** Three keyframes, two distinct pictures, one static layer: three images
    are exported. *)
Lemma result_counters_witness :
  ∃ r s' evs,
    export demo_engine_static (new_engine (demo_world sc_two_layers))
      = (r, s', evs) ∧
    success (_result s') = true ∧
    unique_frames_exported (_result s') = 3 ∧
    frame_count (_result s') = 3.
Proof.
  destruct (export demo_engine_static (new_engine (demo_world sc_two_layers)))
    as [[r s'] evs] eqn:Hexp.
  evaluate Hexp.
  destruct (proj1 (result_counters _ _ _ _ _ Hexp) eq_refl) as [Hu Hf].
  eexists _, _, _. split; [reflexivity|]. split; [reflexivity|].
  split; [exact Hu | exact Hf].
Defined.

(** The exposure sheet of the layer "Line". *)
Lemma written_document_shape_witness :
  ∃ r s' evs doc,
    export demo_engine (new_engine (demo_world sc_line)) = (r, s', evs) ∧
    success (_result s') = true ∧
    written_docs evs = [doc] ∧
    output_path (_result s') = "out/export.xdts" ∧
    doc_duration doc = 11 ∧
    track_index <$> doc_tracks doc = [0] ∧
    omap mkdir_of evs = ["out/Line"].
Proof.
  destruct (export demo_engine (new_engine (demo_world sc_line)))
    as [[r s'] evs] eqn:Hexp.
  evaluate Hexp.
  destruct (written_document_shape _ _ _ _ _ Hexp eq_refl)
    as (plan & v & s1 & t & doc & Hbw & Hevs & Hdocs & Hpath & _ & Hdur
        & Hidx & _ & Hmk).
  vm_compute in Hbw. injection Hbw as <- <- <- <-.
  injection Hdocs as <-.
  eexists _, _, _, _. split; [reflexivity|]. split; [reflexivity|].
  split; [reflexivity|]. split; [exact Hpath|]. split; [exact Hdur|].
  split; [exact Hidx | exact Hmk].
Defined.

(** The track of the layer "Line": offsets 0, 5, 10 and 11. *)
Lemma track_offsets_increasing_witness :
  ∃ rv' s' evs tr,
    line_track_run = (Normal rv', s', evs) ∧
    omap keyframes_of evs = [[0; 5; 10]] ∧
    doc_tracks (xdts_doc rv') = [tr] ∧
    StronglySorted Z.lt (track_entries tr).*1.
Proof.
  unfold line_track_run.
  destruct (animated_layer_body _ _ _ _ _) as [[o s'] evs] eqn:Hrun.
  evaluate Hrun.
  assert (Hsorted : StronglySorted Z.lt [0; 5; 10]).
  { repeat (constructor; [|repeat (constructor; [lia|]); constructor]).
    constructor. }
  assert (Hrange : Forall (λ frame, start_frame demo_plan ≤ frame
                                    ≤ end_frame demo_plan) [0; 5; 10]).
  { repeat (constructor; [cbn; lia|]). constructor. }
  assert (Hle : start_frame demo_plan ≤ end_frame demo_plan) by (cbn; lia).
  destruct (track_offsets_increasing _ _ _ _ _ _ _ _ _ _ Hrun eq_refl
              Hsorted Hrange Hle eq_refl) as (tr & Hdoc & Hs & _).
  eexists _, _, _, tr. split; [reflexivity|]. split; [reflexivity|].
  split; [exact Hdoc | exact Hs].
Defined.

(** Two pictures, two files. *)
Lemma one_image_per_picture_witness :
  ∃ rv' s' evs,
    line_track_run = (Normal rv', s', evs) ∧
    omap mkdir_of evs = ["out/Line"] ∧
    (exports_of evs).*2 =
      ["out/Line/Line_0001.png"; "out/Line/Line_0002.png"].
Proof.
  unfold line_track_run.
  destruct (animated_layer_body _ _ _ _ _) as [[o s'] evs] eqn:Hrun.
  evaluate Hrun.
  destruct (one_image_per_picture _ _ _ _ _ _ _ _ _ Hrun)
    as (tr & Hdoc & Hmk & Hx & _).
  injection Hdoc as <-.
  eexists _, _, _. split; [reflexivity|]. split; [exact Hmk | exact Hx].
Defined.


(** A cancelled run: of the five ways of ending, this one and no other. *)
Lemma export_result_classified_witness :
  ∃ res s' evs ending,
    export demo_engine (new_engine (demo_world sc_cancel))
      = (inl res, s', evs) ∧
    ended_as demo_engine res evs ending ∧ ending = Cancelled.
Proof.
  destruct (export demo_engine (new_engine (demo_world sc_cancel)))
    as [[r s'] evs] eqn:Hexp.
  evaluate Hexp.
  destruct (export_result_classified _ _ _ _ _ Hexp)
    as (_ & ending & Hend & Huniq).
  pose proof (Huniq Cancelled
                (conj (conj eq_refl (conj eq_refl (conj eq_refl eq_refl)))
                      (conj eq_refl eq_refl))) as Heq.
  eexists _, _, _, ending. split; [reflexivity|].
  split; [exact Hend | symmetry; exact Heq].
Defined.

(** An engine that has run with success runs again and is cancelled: the
    result still says [success]. *)
Lemma unfinished_run_keeps_result_witness :
  ∃ res s' evs,
    export demo_engine
      {| world := demo_world sc_cancel; _result := earlier_result |}
      = (inl res, s', evs) ∧
    quiet is_write evs ∧
    success res = true ∧
    error_message res = "Export cancelled by user".
Proof.
  destruct (export demo_engine
              {| world := demo_world sc_cancel; _result := earlier_result |})
    as [[r s'] evs] eqn:Hexp.
  evaluate Hexp.
  match type of Hexp with
  | _ = (_, _, ?t) => assert (Hq : quiet is_write t) by quiet_list
  end.
  destruct (unfinished_run_keeps_result _ _ _ _ _ Hexp Hq)
    as (_ & _ & _ & Hs).
  eexists _, _, _. split; [reflexivity|]. split; [exact Hq|].
  split; [exact Hs | reflexivity].
Defined.

(** [from_dict({})] *)
Lemma from_dict_defaults_witness :
  Forall (λ key, (∅ : gmap string PyVal) !! key = None) option_keys ∧
  from_dict ∅ = values_of ExportOptions_init.
Proof.
  assert (Hkeys : Forall (λ key, (∅ : gmap string PyVal) !! key = None)
                    option_keys).
  { repeat (constructor; [reflexivity|]). constructor. }
  split; [exact Hkeys | exact (proj1 from_dict_defaults ∅ Hkeys)].
Defined.

Lemma build_filename_injective_witness :
  0 ≤ 7 ∧
  _build_filename ExportOptions_init "Line" 7
    = _build_filename ExportOptions_init "Line" (3 + 4) ∧
  7 = 3 + 4.
Proof.
  assert (H7 : 0 ≤ 7) by lia.
  assert (Heq : _build_filename ExportOptions_init "Line" 7
                = _build_filename ExportOptions_init "Line" (3 + 4))
    by reflexivity.
  split; [exact H7|]. split; [exact Heq|].
  exact (build_filename_injective ExportOptions_init "Line" 7 (3 + 4)
           H7 H7 Heq).
Defined.

Lemma result_text_witness :
  ∃ res s' evs,
    export demo_engine_static (new_engine (demo_world sc_two_layers))
      = (inl res, s', evs) ∧
    ExportResult_str res = "Export complete: 1 tracks, 3 unique frames".
Proof.
  destruct (export demo_engine_static (new_engine (demo_world sc_two_layers)))
    as [[r s'] evs] eqn:Hexp.
  evaluate Hexp.
  pose proof (result_text _ _ _ _ _ Hexp) as Ht.
  eexists _, _, _. split; [reflexivity|]. exact Ht.
Defined.

(** Writing the image raises: the temporary document is closed all the
    same, and the error leaves [export_frame]. *)
Lemma temp_document_closed_witness :
  ∃ e w' evs,
    export_frame demo_exporter 0%nat 5 "out/Line/Line_0002.png" ks_disk_full
      = (Exc e, w', evs) ∧
    last evs = Some (KEv (@TempClose demo_kinds 4%nat) (Val tt)) ∧
    omap closed_of evs = [4%nat].
Proof.
  destruct (export_frame demo_exporter 0%nat 5 "out/Line/Line_0002.png"
              ks_disk_full) as [[r w'] evs] eqn:Hrun.
  evaluate Hrun.
  destruct (temp_document_closed _ _ _ _ _ _ _ _ Hrun)
    as [[Hc _]|(doc & res & Hl & _ & Hcl)]; [discriminate Hc|].
  vm_compute in Hcl. injection Hcl as <-.
  eexists _, _, _. split; [reflexivity|]. split; reflexivity.
Defined.

Lemma export_frame_true_witness :
  (∃ w' (evs : list (KEvent demo_kinds)),
     export_frame demo_exporter 0%nat 5 "out/Line/Line_0002.png" ks_png
       = (Val true, w', evs) ∧
     omap (written_of (K:=demo_kinds)) evs = [(9%nat, (0, 0, 2, 1), [Byte.x07; Byte.x07])] ∧
     omap (image_of (K:=demo_kinds)) evs = [(4%nat, "out/Line/Line_0002.png", 0%nat)] ∧
     omap (property_of (K:=demo_kinds)) evs =
       [(0%nat, "alpha", PyBool true); (0%nat, "compression", PyInt 6);
        (0%nat, "indexed", PyBool false);
        (0%nat, "interlaced", PyBool false)]) ∧
  (∃ w' (evs : list (KEvent demo_kinds)),
     export_frame demo_exporter 0%nat 5 "out/Line/Line_0002.png" ks_no_layer
       = (Val true, w', evs) ∧
     omap (written_of (K:=demo_kinds)) evs = [] ∧
     omap (image_of (K:=demo_kinds)) evs = [(4%nat, "out/Line/Line_0002.png", 0%nat)]).
Proof.
  split.
  - destruct (export_frame demo_exporter 0%nat 5 "out/Line/Line_0002.png"
                ks_png) as [[r w'] evs] eqn:Hrun.
    evaluate Hrun.
    destruct (export_frame_true _ _ _ _ _ _ _ Hrun)
      as (data & doc & root & children & config & _ & _ & Hread & _ & _
          & Hch & Hwr & Himg & _ & Hprops).
    vm_compute in Hread. injection Hread as <-.
    vm_compute in Hch. injection Hch as <- <-.
    vm_compute in Himg. injection Himg as <- <-.
    eexists _, _. split; [reflexivity|]. split; [exact Hwr|].
    split; [reflexivity | exact Hprops].
  - destruct (export_frame demo_exporter 0%nat 5 "out/Line/Line_0002.png"
                ks_no_layer) as [[r w'] evs] eqn:Hrun.
    evaluate Hrun.
    destruct (export_frame_true _ _ _ _ _ _ _ Hrun)
      as (data & doc & root & children & config & _ & _ & _ & _ & _
          & Hch & Hwr & Himg & _).
    vm_compute in Hch. injection Hch as <- <-.
    vm_compute in Himg. injection Himg as <- <-.
    eexists _, _. split; [reflexivity|]. split; [exact Hwr|]. reflexivity.
Defined.

Lemma export_frame_without_image_witness :
  ∃ r w' evs,
    export_frame demo_exporter 0%nat 5 "out/Line/Line_0002.png" ks_blank
      = (r, w', evs) ∧
    existsb no_pixels evs = true ∧
    r = Val false ∧ omap image_of evs = [].
Proof.
  destruct (export_frame demo_exporter 0%nat 5 "out/Line/Line_0002.png"
              ks_blank) as [[r w'] evs] eqn:Hrun.
  evaluate Hrun.
  destruct (proj1 (export_frame_without_image _ _ _ _ _ _ _ _ Hrun) eq_refl)
    as (Hr & _ & Himg).
  eexists _, _, _. split; [reflexivity|]. split; [reflexivity|].
  split; [exact Hr | exact Himg].
Defined.

(** * What every call of the host keeps, a run of the engine keeps *)

Section TrackingRules.
Context {Layer World Fp : Type} `{Countable Fp} `{!Host Layer World Fp}.
Implicit Types (self : Engine) (plan : Plan Layer) (s : St World)
  (ev : Event Layer) (evs : list (Event Layer)).

Variable R : list (Event Layer) → World → Prop.

Lemma tracks_ret {A} (a : A) : tracks R (ret a).
Proof. intros s o s' evs pre [= <- <- <-]. by rewrite app_nil_r. Qed.

Lemma tracks_return {A} : tracks R (return_ (A:=A)).
Proof. intros s o s' evs pre [= <- <- <-]. by rewrite app_nil_r. Qed.

Lemma tracks_modify (g : ExportResult → ExportResult) :
  tracks R (modify_result g).
Proof. intros s o s' evs pre [= <- <- <-]. by rewrite app_nil_r. Qed.

Lemma tracks_call (c : Call Layer) : stable R → tracks R (call c).
Proof.
  intros Hst s o s' evs pre Hrun Hr. specialize (Hst c (world s) pre Hr).
  unfold call in Hrun.
  destruct (host c (world s)) as [[a|e] w]; by injection Hrun as <- <- <-.
Qed.

Lemma tracks_bind {A B} (m : M Layer World A) (k : A → M Layer World B) :
  tracks R m → (∀ a, tracks R (k a)) → tracks R (bind m k).
Proof.
  intros Hm Hk s o s' evs pre Hrun Hr.
  apply bind_inv in Hrun
    as [(a & s1 & t1 & t2 & Hm1 & Hk1 & ->)|[[Hm1 ->]|(e & Hm1 & ->)]].
  - rewrite app_assoc. eapply Hk; [exact Hk1|]. by eapply Hm.
  - by eapply Hm.
  - by eapply Hm.
Qed.

Lemma tracks_for_each {A V} (xs : list A) (body : A → V → M Layer World V) :
  (∀ x v, tracks R (body x v)) → ∀ v, tracks R (for_each xs body v).
Proof.
  intros Hbody. induction xs as [|x xs IH]; intros v.
  - apply tracks_ret.
  - cbn [for_each]. apply tracks_bind; [apply Hbody | apply IH].
Qed.

End TrackingRules.

Ltac tracks_auto Hst :=
  repeat first
    [ apply tracks_ret
    | apply tracks_return
    | apply tracks_modify
    | match goal with
      | |- tracks ?R (call ?c) => apply (tracks_call R c); exact Hst
      end
    | apply tracks_bind; [|intros ?]
    | apply tracks_for_each; intros ? ?
    | progress cbv zeta
    | match goal with
      | |- tracks _ (if ?b then _ else _) => destruct b
      | |- tracks _ (match ?x with _ => _ end) => destruct x
      end ].

Section TrackingEngine.
Context {Layer World Fp : Type} `{Countable Fp} `{!Host Layer World Fp}.
Implicit Types (self : Engine) (plan : Plan Layer) (s : St World)
  (ev : Event Layer) (evs : list (Event Layer)).

Variable R : list (Event Layer) → World → Prop.
Hypothesis Hst : stable R.

Lemma tracks_keyframe_body self plan layer name folder track frame v :
  tracks R (keyframe_body self plan layer name folder track frame v).
Proof.
  unfold keyframe_body, _process_frame, _is_cancelled, _report_progress.
  tracks_auto Hst.
Qed.

Lemma tracks_static_layer_body self plan layer v :
  tracks R (static_layer_body self plan layer v).
Proof.
  unfold static_layer_body, _is_cancelled, _report_progress.
  tracks_auto Hst.
Qed.

Lemma tracks_animated_layer_body self plan item rv :
  tracks R (animated_layer_body self plan item rv).
Proof.
  unfold animated_layer_body. tracks_auto Hst.
  apply tracks_keyframe_body.
Qed.

Lemma tracks_run_export self : tracks R (_run_export self).
Proof.
  unfold _run_export, prepare, animated_phase, static_phase, finish.
  tracks_auto Hst.
  - apply tracks_animated_layer_body.
  - apply tracks_static_layer_body.
Qed.

(** A run of [export] keeps what every call of the host keeps. *)
Lemma export_tracks self s r s' evs pre :
  export self s = (r, s', evs) → R pre (world s) → R (pre ++ evs) (world s').
Proof.
  intros (o & s1 & Hrun & -> & _)%export_inv Hr.
  exact (tracks_run_export self _ _ _ _ _ Hrun Hr).
Qed.

End TrackingEngine.

(** * The dialog around the engine *)

Section DialogFacts.
Context {Layer World Fp : Type} `{Countable Fp} `{!Desktop Layer World Fp}.
Implicit Types (ds : DState World) (log : list UiEvent).

Lemma in_dialog_stable log0 :
  stable (Host0 := dialog_host) (in_dialog (Layer:=Layer) log0).
Proof.
  intros c ds pre (log & Hlog & Het & Hc & Hp).
  assert (Hgrow : ∀ ev, existsb positive_poll pre = true →
            existsb positive_poll (pre ++ [ev]) = true).
  { intros ev Hpre. by rewrite existsb_app, Hpre. }
  assert (Hpass : ∀ c0 : Call Layer,
            is_poll (Ev c0 (pass_on c0 ds).1) = false →
            in_dialog log0 (pre ++ [Ev c0 (pass_on c0 ds).1])
              (pass_on c0 ds).2).
  { intros c0 _. unfold pass_on.
    destruct (host c0 (under ds)) as [r w']. cbn [fst snd].
    exists log. repeat split; try done. cbn [cancelled]. auto. }
  destruct c; try (by apply Hpass).
  - (* OnCancelled *)
    cbn [host dialog_host]. unfold dialog_on_cancelled, ubind, ucall.
    destruct (ui ProgressWasCanceled (under ds)) as [[[|]|e] w'];
      cbn [fst snd set_cancelled get_cancelled upure under cancelled ui_log].
    + exists (log ++ [UEv ProgressWasCanceled (Val true)]).
      split; [by rewrite Hlog, app_assoc|].
      split; [by rewrite forallb_app, Het|].
      split; [by rewrite existsb_app, orb_true_r|].
      intros _. by rewrite existsb_app, orb_true_r.
    + exists (log ++ [UEv ProgressWasCanceled (Val false)]).
      split; [by rewrite Hlog, app_assoc|].
      split; [by rewrite forallb_app, Het|].
      split; [by rewrite existsb_app, <- Hc, orb_false_r|].
      intros Hcd. cbn in Hcd. rewrite existsb_app. cbn.
      unfold positive_poll. cbn. rewrite Hcd. by rewrite orb_true_r.
    + exists (log ++ [UEv ProgressWasCanceled (Exc e)]).
      split; [by rewrite Hlog, app_assoc|].
      split; [by rewrite forallb_app, Het|].
      split; [by rewrite existsb_app, <- Hc, orb_false_r|].
      intros Hcd. cbn in Hcd. rewrite existsb_app, Hp; done.
  - (* OnProgress *)
    cbn [host dialog_host]. unfold dialog_on_progress, ubind, ucall, upure.
    destruct (total >? 0); cbn [fst snd under cancelled ui_log];
      repeat (match goal with
              | |- context [ui ?c ?w] => destruct (ui c w) as [[?|?] ?]
              end; cbn [fst snd under cancelled ui_log]);
      (unfold in_dialog; cbn [fst snd under cancelled ui_log];
       eexists;
       split; [rewrite Hlog, <- ?app_assoc; reflexivity|];
       split; [by rewrite forallb_app, Het|];
       split; [by rewrite existsb_app, <- Hc, orb_false_r|];
       intros Hcd; by rewrite existsb_app, Hp).
Qed.

(** The engine inside the dialog: while it runs, only the callbacks talk to
    the user interface; afterwards [cancelled] says whether the user was
    seen to cancel, and in that case the run has not succeeded. *)
Lemma run_engine_spec engine ds r ds1 :
  run_engine engine ds = (r, ds1) →
  cancelled ds = false →
  ∃ log,
    ui_log ds1 = ui_log ds ++ log ∧
    forallb engine_time log = true ∧
    cancelled ds1 = existsb cancel_seen log ∧
    (∀ res, r = Val res → success res = true → cancelled ds1 = false) ∧
    (∀ e, r = Exc e → exn_is_Exception e = false).
Proof.
  unfold run_engine. intros Hrun Hc0.
  destruct (export engine (new_engine ds)) as [[r0 s'] evs] eqn:Hexp.
  assert (Hinit : in_dialog (Layer:=Layer) (ui_log ds) []
                    (world (new_engine ds))).
  { exists []. rewrite app_nil_r. repeat split; try done.
    cbn. congruence. }
  pose proof (export_tracks _ (in_dialog_stable (ui_log ds)) _ _ _ _ _ _
                Hexp Hinit) as (log & Hlog & Het & Hc & Hp).
  cbn [app] in Hp.
  assert (ds1 = world s') as ->.
  { by destruct r0; injection Hrun as _ <-. }
  exists log. do 3 (split; [done|]). split; cycle 1.
  { intros e ->. destruct r0 as [res0|e0]; [done|]. injection Hrun as ->.
    apply export_inv in Hexp as (o & s1 & _ & _ & Ho).
    destruct o as [[]| |e1]; try by destruct Ho.
    destruct (exn_is_Exception e1) eqn:He1; destruct Ho as [[=] _].
    by subst. }
  intros res -> Hs. destruct (cancelled (world s')) eqn:Hcd; [|done].
  exfalso. specialize (Hp eq_refl).
  apply existsb_exists in Hp as (ev & Hin%list_elem_of_In & Hpoll).
  destruct r0 as [res0|e]; [|done]. injection Hrun as ->.
  apply export_inv in Hexp as (o & s1 & Hrun & _ & Ho).
  pose proof (run_export_outcome _ _ _ _ _ Hrun) as Hout.
  pose proof (export_unsuccessful _ _ (inl res) s' _ _ _ Hrun Ho) as Hfail.
  destruct (positive_poll_kind _ Hpoll) as (Hf & _).
  destruct o as [[]| |e].
  - destruct Hout as (_ & Hq & _).
    pose proof (quiet_elem _ _ _ Hq Hin). congruence.
  - destruct Ho as [[= ->] _]. destruct Hfail as (? & _); [done | congruence].
  - destruct (exn_is_Exception e); [|by destruct Ho].
    destruct Ho as [[= ->] _]. destruct Hfail as (? & _); [done | congruence].
Qed.

Lemma engine_time_quiet log :
  forallb engine_time log = true →
  existsb is_warning_box log = false ∧ existsb is_success_box log = false ∧
  existsb is_critical_box log = false ∧
  List.filter is_result_box log = [] ∧
  List.filter is_critical_box log = [] ∧
  existsb after_engine log = false.
Proof.
  induction log as [|[c r] log IH]; [done|]. cbn [forallb].
  intros [Hev Hrest]%andb_true_iff.
  destruct (IH Hrest) as (? & ? & ? & ? & ? & ?).
  destruct c; try discriminate Hev; cbn; by repeat split.
Qed.

Lemma engine_time_elem log ev :
  forallb engine_time log = true → ev ∈ log → engine_time ev = true.
Proof.
  rewrite forallb_forall. intros Hall Hin%list_elem_of_In. by apply Hall.
Qed.

End DialogFacts.

(** ** The export of the dialog *)

(** Runs [_run_export] of the dialog symbolically: one case for each answer
    of the user interface and of the engine. *)
Ltac uexec_step :=
  match goal with
  | |- context [ui ?c ?w] =>
      destruct (ui c w) as [[?|?] ?]
  | |- context [run_engine ?engine ?ds] =>
      let Heng := fresh "Heng" in
      destruct (run_engine engine ds) as [[?|?] ?] eqn:Heng;
      (apply run_engine_spec in Heng as (?elog & ?Hlog & ?Het & ?Hc & ?Hs & ?Hexc);
       [|reflexivity])
  | |- context [success ?res] => destruct (success res) eqn:?
  | |- context [negb (cancelled ?ds)] => destruct (cancelled ds) eqn:?
  | |- context [exn_is_Exception ?e] => destruct (exn_is_Exception e) eqn:?
  end;
  cbn [fst snd under cancelled ui_log negb].

Ltac uexec :=
  unfold dialog_run_export, utry_finally, utry_except, ubind, ucall, upure,
    set_cancelled, get_cancelled;
  cbn [fst snd under cancelled ui_log negb];
  repeat uexec_step.

Section DialogExport.
Context {Layer World Fp : Type} `{Countable Fp} `{!Desktop Layer World Fp}.
Implicit Types (ds : DState World) (log : list UiEvent).

(** Batch mode.  [_run_export] of the dialog first switches the batch mode of Krita
    on. Whatever the engine and the user interface answer afterwards, the
    last call that it makes switches the batch mode off again, except when
    one of the seven calls before the [try] block raises: then that
    exception leaves the method, and the batch mode stays on. *)
Theorem batch_mode_restored export_path options ds r ds' :
  dialog_run_export export_path options ds = (r, ds') →
  ∃ res0 log,
    ui_log ds' = ui_log ds ++ UEv (KritaSetBatchmode true) res0 :: log ∧
    ((∃ res, last (ui_log ds') = Some (UEv (KritaSetBatchmode false) res)) ∨
     (∃ e, r = Exc e ∧ last (ui_log ds') ≫= uexn_of = Some e ∧
           (length log < 7)%nat ∧
           existsb batch_mode_off log = false)).
Proof.
  revert r ds'. uexec.
  all: intros r ds' [= <- <-]; cbn [ui_log]; rewrite ?Hlog; cbn [ui_log].
  all: eexists _, _; (split; [rewrite <- ?app_assoc; cbn [app]; reflexivity|]).
  all: first [ left; eexists; apply last_snoc
             | right; eexists; split; [reflexivity|];
               split; [rewrite last_snoc; reflexivity|];
               split; [cbn; lia | reflexivity] ].
Qed.

(** The boxes that show the result of [_run_export].  At most one of the
    success message and the box "Export Failed" is shown, and neither of
    them once the user has been seen to cancel. The success message shows a
    successful result; the box "Export Failed" shows the error message of an
    unsuccessful result, after "Export failed: ". *)
Theorem dialog_messages export_path options ds r ds' :
  dialog_run_export export_path options ds = (r, ds') →
  ∃ log,
    ui_log ds' = ui_log ds ++ log ∧
    (length (List.filter is_result_box log) ≤ 1)%nat ∧
    (existsb cancel_seen log = true →
       existsb is_warning_box log = false ∧
       existsb is_success_box log = false) ∧
    (∀ ev, ev ∈ log →
       match uev_call ev with
       | ShowSuccessMessage result => success result = true
       | MessageWarning title text =>
           title = "Export Failed" ∧
           ∃ result, success result = false ∧
                     text = "Export failed: " +:+ error_message result
       | _ => True
       end).
Proof.
  revert r ds'. uexec.
  all: intros r ds' [= <- <-]; cbn [ui_log]; rewrite ?Hlog; cbn [ui_log].
  all: eexists; (split; [rewrite <- ?app_assoc; cbn [app]; reflexivity|]).
  all: try match goal with
       | Het : forallb engine_time ?l = true |- _ =>
           pose proof (engine_time_quiet _ Het)
             as (Hw & Hsu & Hcr & Hrb & Hcb & Hae)
       end.
  all: split;
    [cbn; rewrite ?List.filter_app, ?length_app, ?Hrb; cbn; lia|].
  all: split.
  all: try match goal with
       | |- ∀ ev, ev ∈ _ → _ =>
           intros ev Hin;
           repeat first
             [ apply elem_of_cons in Hin as [->|Hin]
             | apply elem_of_app in Hin as [Hin|Hin]
             | apply elem_of_nil in Hin as [] ];
           first
             [ by cbn
             | cbn; split; [done|]; eexists; split; [eassumption|done]
             | match goal with
               | Het : forallb engine_time ?l = true, Hin : ?x ∈ ?l |- _ =>
                   pose proof (engine_time_elem _ _ Het Hin) as Hev;
                   destruct x as [[] ?]; (discriminate Hev || exact I)
               end ]
       end.
  all: intros Hcs; cbn in Hcs; try discriminate Hcs.
  all: rewrite ?existsb_app in Hcs; cbn in Hcs; rewrite ?orb_false_r in Hcs.
  all: try rewrite <- Hc in Hcs.
  all: try congruence.
  all: try (match goal with
            | Hsucc : success ?res = true |- _ =>
                rewrite (Hs _ eq_refl Hsucc) in Hcs; discriminate Hcs
            end).
  all: cbn; rewrite ?existsb_app, ?Hw, ?Hsu; cbn; done.
Qed.

(** The box "Export Error" of [_run_export] is shown at most once, and
    never for an error of the engine: when it is shown, one of the calls
    made after the engine has returned (closing the progress dialog, the
    success message, accepting the dialog, the box "Export Failed") has
    raised an exception of class [Exception], and the box shows its text. *)
Theorem error_box_cause export_path options ds r ds' :
  dialog_run_export export_path options ds = (r, ds') →
  ∃ log,
    ui_log ds' = ui_log ds ++ log ∧
    (length (List.filter is_critical_box log) ≤ 1)%nat ∧
    (∀ box title text,
       box ∈ log → uev_call box = MessageCritical title text →
       title = "Export Error" ∧
       ∃ ev e,
         ev ∈ log ∧ after_engine ev = true ∧ uexn_of ev = Some e ∧
         exn_is_Exception e = true ∧
         text = "An unexpected error occurred:" +:+ newline +:+ newline
                  +:+ exn_text e).
Proof.
  revert r ds'. uexec.
  all: intros r ds' [= <- <-]; cbn [ui_log]; rewrite ?Hlog; cbn [ui_log].
  all: eexists; (split; [rewrite <- ?app_assoc; cbn [app]; reflexivity|]).
  all: try match goal with
       | Het : forallb engine_time ?l = true |- _ =>
           pose proof (engine_time_quiet _ Het)
             as (Hw & Hsu & Hcr & Hrb & Hcb & Hae)
       end.
  all: split;
    [cbn; rewrite ?List.filter_app, ?length_app, ?Hcb; cbn; lia|].
  all: intros box title text Hin Hcall.
  all: repeat first
         [ apply elem_of_cons in Hin as [->|Hin]
         | apply elem_of_app in Hin as [Hin|Hin]
         | apply elem_of_nil in Hin as [] ].
  all: try discriminate Hcall.
  all: try (match goal with
            | Het : forallb engine_time ?l = true, Hin : ?x ∈ ?l |- _ =>
                pose proof (engine_time_elem _ _ Het Hin) as Hev;
                destruct x as [[] ?]; discriminate
            end).
  all: injection Hcall as <- <-; split; [reflexivity|].
  all: try (match goal with
            | Hexc : ∀ e0, Exc ?e = Exc e0 → _ |- _ =>
                pose proof (Hexc e eq_refl); congruence
            end).
  all: match goal with
       | |- context [UEv ?c (Exc ?e)] =>
           exists (UEv c (Exc e)), e;
           split;
             [repeat first [ apply list_elem_of_here
                           | apply list_elem_of_further
                           | apply elem_of_app; right ]|];
           split; [reflexivity|]; split; [reflexivity|];
           split; [assumption | reflexivity]
       end.
Qed.

End DialogExport.

(** * Runs of the dialog on the scripted desktop *)

(** A successful export ends by switching the batch mode off; when the
    progress dialog cannot be created, the batch mode stays on. *)
Lemma batch_mode_restored_witness :
  (∃ r ds',
     demo_dialog_run sc_two_layers (λ _, None) = (r, ds') ∧
     ∃ res, last (ui_log ds') = Some (UEv (KritaSetBatchmode false) res)) ∧
  (∃ r ds' log,
     demo_dialog_run sc_two_layers no_progress_dialog = (r, ds') ∧
     ui_log ds' = UEv (KritaSetBatchmode true) (Val tt) :: log ∧
     existsb batch_mode_off log = false).
Proof.
  split.
  - destruct (demo_dialog_run sc_two_layers (λ _, None)) as [r ds'] eqn:Hrun.
    evaluate Hrun.
    destruct (batch_mode_restored _ _ _ _ _ Hrun)
      as (res0 & log & _ & [Hlast|(e & Hr & _)]); [|discriminate Hr].
    eexists _, _. split; [reflexivity | exact Hlast].
  - destruct (demo_dialog_run sc_two_layers no_progress_dialog)
      as [r ds'] eqn:Hrun.
    evaluate Hrun.
    destruct (batch_mode_restored _ _ _ _ _ Hrun)
      as (res0 & log & Heq & [[res Hlast]|(e & _ & _ & _ & Hoff)]);
      [discriminate Hlast|].
    cbn in Heq. injection Heq as <-.
    eexists _, _, _. split; [reflexivity|]. split; [reflexivity | exact Hoff].
Defined.

(** The user cancels at the first check: no box is shown. *)
Lemma dialog_messages_witness :
  ∃ r ds',
    demo_dialog_run sc_cancel (λ _, None) = (r, ds') ∧
    existsb cancel_seen (ui_log ds') = true ∧
    existsb is_warning_box (ui_log ds') = false ∧
    existsb is_success_box (ui_log ds') = false.
Proof.
  destruct (demo_dialog_run sc_cancel (λ _, None)) as [r ds'] eqn:Hrun.
  evaluate Hrun.
  destruct (dialog_messages _ _ _ _ _ Hrun) as (log & Heq & _ & Hcancel & _).
  cbn in Heq. subst log. destruct (Hcancel eq_refl) as [Hw Hs].
  eexists _, _. split; [reflexivity|]. split; [reflexivity|].
  split; [exact Hw | exact Hs].
Defined.

(** The export succeeds, but accepting the dialog raises: the box
    "Export Error" shows the text of that exception. *)
Lemma error_box_cause_witness :
  ∃ r ds' text ev e,
    demo_dialog_run sc_two_layers accept_fails = (r, ds') ∧
    UEv (MessageCritical "Export Error" text) (Val tt) ∈ ui_log ds' ∧
    ev ∈ ui_log ds' ∧ after_engine ev = true ∧ uexn_of ev = Some e ∧
    exn_is_Exception e = true ∧
    text = "An unexpected error occurred:" +:+ newline +:+ newline
             +:+ exn_text e.
Proof.
  destruct (demo_dialog_run sc_two_layers accept_fails) as [r ds'] eqn:Hrun.
  evaluate Hrun.
  destruct (error_box_cause _ _ _ _ _ Hrun) as (log & Heq & _ & Hbox).
  cbn in Heq. subst log.
  assert (Hin : UEv (MessageCritical "Export Error"
                       ("An unexpected error occurred:" +:+ newline +:+ newline
                          +:+ "wrapped C/C++ object has been deleted"))
                  (Val tt)
                ∈ ui_log (demo_dialog_run sc_two_layers accept_fails).2).
  { vm_compute.
    repeat first [apply list_elem_of_here | apply list_elem_of_further]. }
  destruct (Hbox _ _ _ Hin eq_refl)
    as (_ & ev & e & Hev & Hafter & He & Hexn & Ht).
  eexists _, _, _, ev, e. split; [reflexivity|].
  split; [exact Hin|]. split; [exact Hev|]. split; [exact Hafter|].
  split; [exact He|]. split; [exact Hexn | exact Ht].
Defined.
